(** * gtsdb-drivers: the TSDB client drivers, embedded and verified

    The repository holds four drivers for the same line-oriented TCP
    protocol: Go ([src/unnamed/part_001]), JavaScript
    ([src/unnamed/part_000]), PHP ([src/gtsdbDriver.php]) and R
    ([src/gtsdbDriver.r]).  Each driver is embedded in a module of its own
    ([Go], [JS], [PHP], [R]); the run-time library functions the drivers
    call (string splitting and trimming, decimal printing and parsing,
    IEEE-754 binary64 arithmetic) are embedded in [Bytes], [F64] and in the
    module of the driver that calls them.  The forwarding server of
    [src/main.go], which uses the Go driver, is embedded in [Main].

    Layout: all definitions first (Part I), then the lemmas and theorems
    (Part II). *)

From Stdlib Require Import ZArith NArith List String Ascii Bool Lia.
From Stdlib Require Import Floats.SpecFloat.
Import ListNotations.

Local Open Scope string_scope.
Local Open Scope Z_scope.

(* ===================================================================== *)
(** * Part I: definitions                                                 *)
(* ===================================================================== *)

(** ** Byte strings

    A Go string is a sequence of bytes; a PHP string too.  A JavaScript
    string obtained by [Buffer.toString()] is modelled by the UTF-8 bytes it
    was decoded from (the inbound data is taken to be valid UTF-8).  Rocq's
    [string] is a list of 8-bit [ascii] characters, so it is used as is. *)

Module Bytes.

(** [strings.Split(s, sep)], [String.prototype.split(sep)] and
    [explode(sep, s)] for a separator of one byte: the fields between the
    separators, in order; there is always at least one field. *)
Fixpoint split (sep : ascii) (s : string) : list string :=
  match s with
  | EmptyString => [EmptyString]
  | String c rest =>
      if Ascii.eqb c sep then EmptyString :: split sep rest
      else match split sep rest with
           | [] => [String c EmptyString]
           | field :: fields => String c field :: fields
           end
  end.

(** The byte [c] occurs in [s]. *)
Fixpoint contains (c : ascii) (s : string) : bool :=
  match s with
  | EmptyString => false
  | String a rest => Ascii.eqb a c || contains c rest
  end.

Fixpoint rev_acc (s acc : string) : string :=
  match s with
  | EmptyString => acc
  | String c rest => rev_acc rest (String c acc)
  end.

Definition rev (s : string) : string := rev_acc s EmptyString.

Definition byte (n : N) : ascii := ascii_of_N n.
Definition code (c : ascii) : N := N_of_ascii c.

(** [strip_codes l s]: when [s] starts with the bytes whose codes are
    [l], what follows them. *)
Fixpoint strip_codes (l : list N) (s : string) : option string :=
  match l with
  | [] => Some s
  | n :: l' =>
      match s with
      | EmptyString => None
      | String c rest => if N.eqb (code c) n then strip_codes l' rest else None
      end
  end.

Fixpoint strip_first (ls : list (list N)) (s : string) : option string :=
  match ls with
  | [] => None
  | l :: ls' =>
      match strip_codes l s with
      | Some rest => Some rest
      | None => strip_first ls' s
      end
  end.

(** Removes, as long as there is one, a leading byte sequence among
    [runes] ([fuel] bounds the number of removals). *)
Fixpoint trim_left_fuel (runes : list (list N)) (fuel : nat) (s : string) : string :=
  match fuel with
  | O => s
  | S fuel' =>
      match strip_first runes s with
      | Some rest => trim_left_fuel runes fuel' rest
      | None => s
      end
  end.

(** [s] starts with one of the byte sequences [runes]. *)
Definition starts_with_any (runes : list (list N)) (s : string) : bool :=
  match strip_first runes s with
  | Some _ => true
  | None => false
  end.

Definition trim_left (runes : list (list N)) (s : string) : string :=
  trim_left_fuel runes (String.length s) s.

(** The same at the end of the string: the string is reversed, and so is
    each byte sequence. *)
Definition trim_right (runes : list (list N)) (s : string) : string :=
  rev (trim_left (map (@List.rev N) runes) (rev s)).

Definition trim (runes : list (list N)) (s : string) : string :=
  trim_right runes (trim_left runes s).

(** *** Decimal digits *)

Definition digit_char (d : N) : ascii := byte (48 + d).

Definition digit_value (c : ascii) : option N :=
  let n := code c in
  if (48 <=? n)%N && (n <=? 57)%N then Some (n - 48)%N else None.

Fixpoint digits_fuel (fuel : nat) (n : N) (acc : string) : string :=
  match fuel with
  | O => acc
  | S fuel' =>
      let acc' := String (digit_char (n mod 10)) acc in
      if (n <? 10)%N then acc' else digits_fuel fuel' (n / 10) acc'
  end.

(** The decimal digits of [n], most significant first, no leading zero
    ("0" for zero). *)
Definition decimal (n : N) : string :=
  digits_fuel (S (N.to_nat (N.log2 n))) n EmptyString.

Definition is_digit (c : ascii) : bool :=
  match digit_value c with Some _ => true | None => false end.

(** Every byte of [s] satisfies [p]. *)
Fixpoint all_chars (p : ascii -> bool) (s : string) : bool :=
  match s with
  | EmptyString => true
  | String c rest => p c && all_chars p rest
  end.

(** The value of a (possibly empty) string of decimal digits read after
    [acc]; [None] when a byte is not a digit. *)
Fixpoint digits_value (s : string) (acc : N) : option N :=
  match s with
  | EmptyString => Some acc
  | String c rest =>
      match digit_value c with
      | Some d => digits_value rest (acc * 10 + d)%N
      | None => None
      end
  end.

(** The decimal text of a signed integer: what Go's [%d] prints, and what
    PHP's string interpolation yields for an int. *)
Definition decimal_Z (z : Z) : string :=
  match z with
  | Zneg p => "-" ++ decimal (Npos p)
  | _ => decimal (Z.to_N z)
  end.

(** A byte that is neither white space nor part of a multi-byte
    sequence. *)
Definition printable (c : ascii) : bool :=
  (33 <=? code c)%N && (code c <? 128)%N.

(** ASCII lower case of a byte. *)
Definition lower (c : ascii) : ascii :=
  let n := code c in
  if (65 <=? n)%N && (n <=? 90)%N then byte (n + 32) else c.

End Bytes.

(** ** IEEE-754 binary64

    Go's [float64] and JavaScript's Number are binary64 floating-point
    numbers.  They are modelled by [spec_float] of the Standard Library
    (a sign, a mantissa and an exponent, the two zeros, the two infinities,
    one NaN), with its round-to-nearest-even operations at precision 53 and
    maximal exponent 1024. *)

Module F64.

Definition float64 : Type := spec_float.

Definition prec : Z := 53.
Definition emax : Z := 1024.

Definition add : float64 -> float64 -> float64 := SFadd prec emax.
Definition mul : float64 -> float64 -> float64 := SFmul prec emax.
Definition div : float64 -> float64 -> float64 := SFdiv prec emax.

Definition zero : float64 := S754_zero false.
Definition nan : float64 := S754_nan.

(** Conversion of an integer, rounded to nearest even ([float64(n)] in Go,
    the Number value of an integer in JavaScript). *)
Definition of_Z (z : Z) : float64 := binary_normalize prec emax z 0 false.

Definition is_nan (f : float64) : bool :=
  match f with S754_nan => true | _ => false end.

Definition is_infinite (f : float64) : bool :=
  match f with S754_infinity _ => true | _ => false end.

Definition is_finite (f : float64) : bool :=
  match f with S754_zero _ | S754_finite _ _ _ => true | _ => false end.

(** The binary64 nearest to the rational [num / den] (ties to even), with
    sign [neg]; an infinity when the quotient is too large. *)
Definition round_ratio (neg : bool) (num den : positive) : float64 :=
  let '(mz, ez, lz) := SFdiv_core_binary prec emax (Zpos num) 0 (Zpos den) 0 in
  binary_round_aux prec emax neg mz ez lz.

(** The binary64 nearest to [m * base ^ e], with sign [neg]: what a
    correctly rounding parser returns for the digits [m] scaled by the
    exponent [e]. *)
Definition of_scaled (neg : bool) (m : N) (base : Z) (e : Z) : float64 :=
  match m with
  | N0 => S754_zero neg
  | Npos p =>
      match e with
      | Zneg k => round_ratio neg p (Z.to_pos (base ^ Zpos k))
      | _ => round_ratio neg (p * Z.to_pos (base ^ e)) 1
      end
  end.

(** The integer part of a finite number (truncation towards zero). *)
Definition truncate (f : float64) : option Z :=
  match f with
  | S754_zero _ => Some 0
  | S754_finite s m e =>
      let a := match e with
               | Zneg k => Zpos m / 2 ^ Zpos k
               | _ => Zpos m * 2 ^ e
               end in
      Some (if s then - a else a)
  | _ => None
  end.

(** [num / den] rounded to the nearest integer, ties to even
    ([0 <= num], [0 < den]). *)
Definition div_half_even (num den : Z) : Z :=
  let q := num / den in
  let r := num mod den in
  match 2 * r ?= den with
  | Lt => q
  | Gt => q + 1
  | Eq => if Z.even q then q else q + 1
  end.

(** The arithmetic mean as the drivers compute it: the values are added
    from left to right, starting from 0, and the sum is divided by their
    number. *)
Definition mean (values : list float64) : float64 :=
  div (fold_left add values zero) (of_Z (Z.of_nat (List.length values))).

(** The absolute value of [m * 2 ^ e] in hundredths, rounded to the
    nearest integer, ties to even. *)
Definition hundredths (m : positive) (e : Z) : Z :=
  match e with
  | Zneg k => div_half_even (Zpos m * 100) (2 ^ Zpos k)
  | _ => Zpos m * 100 * 2 ^ e
  end.

(** [100 * v] is an integer: [v] is a whole number of quarters (a zero,
    an infinity and NaN are let through). *)
Definition hundredths_exact (v : float64) : bool :=
  match v with
  | S754_finite _ m (Zneg k) => (Zpos m * 100) mod 2 ^ Zpos k =? 0
  | _ => true
  end.

(** [v] is a binary64: its mantissa and exponent are in range and in
    normal form. *)
Definition is_binary64 (v : float64) : bool := valid_binary prec emax v.

(** *** Notions used in the proofs about rounding *)

(** [y] is [x] shifted by [k] bits to the right: the mantissa is divided
    by [2 ^ k]; when the bits shifted out are all zero and [x] carried no
    rounding information, [y] carries none. *)
Definition shifted (k : Z) (x y : shr_record) : Prop :=
  0 <= shr_m x ->
  0 <= shr_m y /\
  shr_m y = shr_m x / 2 ^ k /\
  (shr_r x = false -> shr_s x = false -> shr_m x mod 2 ^ k = 0 ->
   shr_r y = false /\ shr_s y = false).

(** The exponent at which [SFdiv_core_binary] computes the quotient of
    [num] by [den]. *)
Definition quotient_exponent (num den : positive) : Z :=
  Z.min (fexp prec emax (Zpos (digits2_pos num) - Zpos (digits2_pos den))) 0.

End F64.

(** ** The Go driver ([src/unnamed/part_001]) *)

Module Go.

Import F64.

(** *** Errors and results

    A Go [error] is a value carrying a message.  [fmt.Errorf] builds one
    from its formatted message; strconv returns a [*NumError] whose cause is
    [ErrSyntax] or [ErrRange]; the connection returns errors of its own.

    A function returning [(v, err)] is modelled by a sum.  Every [return]
    of the driver that carries a non-nil error carries the zero values
    beside it, and no caller reads them. *)

Inductive NumErr : Type := ErrSyntax | ErrRange.

Inductive error : Type :=
| Errorf (msg : string)
| NumError (func num : string) (err : NumErr)
| NetError (msg : string).

Inductive result (A : Type) : Type :=
| Ok (a : A)
| Err (e : error).

Arguments Ok {A} a.
Arguments Err {A} e.

(** *** Machine integers: [int64] (and [int] on a 64-bit platform) *)

Definition int64 (z : Z) : Z := (z + 2 ^ 63) mod 2 ^ 64 - 2 ^ 63.

Definition minInt64 : Z := - 2 ^ 63.
Definition maxInt64 : Z := 2 ^ 63 - 1.

(** *** Package [strings] *)

Definition strings_Split (s : string) (sep : ascii) : list string :=
  Bytes.split sep s.

(** The UTF-8 encodings of the code points for which [unicode.IsSpace]
    holds: tab, LF, VT, FF, CR, space, U+0085, U+00A0, U+1680,
    U+2000..U+200A, U+2028, U+2029, U+202F, U+205F, U+3000. *)
Definition space_runes : list (list N) :=
  [ [9]; [10]; [11]; [12]; [13]; [32];
    [194; 133]; [194; 160];
    [225; 154; 128];
    [226; 128; 128]; [226; 128; 129]; [226; 128; 130]; [226; 128; 131];
    [226; 128; 132]; [226; 128; 133]; [226; 128; 134]; [226; 128; 135];
    [226; 128; 136]; [226; 128; 137]; [226; 128; 138];
    [226; 128; 168]; [226; 128; 169]; [226; 128; 175];
    [226; 129; 159];
    [227; 128; 128] ]%N.

(** [strings.TrimSpace]: all leading and trailing white space removed, as
    defined by Unicode. *)
Definition strings_TrimSpace (s : string) : string :=
  Bytes.trim space_runes s.

(** *** Package [fmt]: the verbs the driver uses *)

(** [%d] of a signed integer. *)
Definition fmt_d (z : Z) : string := Bytes.decimal_Z z.

Definition two_digits (n : N) : string :=
  String (Bytes.digit_char (n / 10)) (String (Bytes.digit_char (n mod 10)) "").

(** [%.2f] of a float64: the exact value rounded to two decimals, ties to
    even; ["NaN"], ["+Inf"] and ["-Inf"] for the special values. *)
Definition fmt_2f (v : float64) : string :=
  match v with
  | S754_nan => "NaN"
  | S754_infinity false => "+Inf"
  | S754_infinity true => "-Inf"
  | S754_zero s => (if s then "-" else "") ++ "0.00"
  | S754_finite s m e =>
      let n := Z.to_N (hundredths m e) in
      (if s then "-" else "") ++ Bytes.decimal (n / 100) ++ "." ++ two_digits (n mod 100)
  end.

(** *** Package [strconv] *)

Definition maxUint64 : N := 2 ^ 64 - 1.

(** The loop of [strconv.ParseUint(s, 10, 64)] over the bytes of [s],
    with [n] read so far: a byte that is not a digit is a syntax error; a
    digit that takes the number past [maxUint64] is a range error, and the
    loop stops there, so what follows that digit is not looked at. *)
Fixpoint ParseUint_loop (s : string) (n : N) : N + NumErr :=
  match s with
  | EmptyString => inl n
  | String c rest =>
      match Bytes.digit_value c with
      | None => inr ErrSyntax
      | Some d =>
          if (maxUint64 / 10 + 1 <=? n)%N then inr ErrRange
          else
            let n1 := (n * 10 + d)%N in
            if (maxUint64 <? n1)%N then inr ErrRange
            else ParseUint_loop rest n1
      end
  end.

(** [strconv.ParseInt(s, 10, 64)]: an optional sign, then decimal digits
    only; [ErrRange] outside of int64. *)
Definition strconv_ParseInt (s : string) : result Z :=
  match s with
  | EmptyString => Err (NumError "ParseInt" s ErrSyntax)
  | String c rest =>
      let neg := Ascii.eqb c "-" in
      let digits := if Ascii.eqb c "+" || neg then rest else s in
      match digits with
      | EmptyString => Err (NumError "ParseInt" s ErrSyntax)
      | _ =>
          match ParseUint_loop digits 0 with
          | inr err => Err (NumError "ParseInt" s err)
          | inl un =>
              let cutoff := 2 ^ 63 in
              if negb neg && (cutoff <=? Z.of_N un) then Err (NumError "ParseInt" s ErrRange)
              else if neg && (cutoff <? Z.of_N un) then Err (NumError "ParseInt" s ErrRange)
              else Ok (if neg then - Z.of_N un else Z.of_N un)
          end
      end
  end.

(** [lower(c)] of strconv: [c | ('x' - 'X')]. *)
Definition lower (c : ascii) : ascii := Bytes.byte (N.lor (Bytes.code c) 32).

(** [commonPrefixLenIgnoreCase(s, prefix)]; only ['A'..'Z'] of [s] are
    lowered, [prefix] is lower case already. *)
Fixpoint commonPrefixLenIgnoreCase (s prefix : string) : nat :=
  match s, prefix with
  | String c s', String p prefix' =>
      if Ascii.eqb (Bytes.lower c) p then S (commonPrefixLenIgnoreCase s' prefix') else O
  | _, _ => O
  end.

(** [special(s)]: the infinities and NaN; returns the value and the number
    of bytes it takes. *)
Definition special (s : string) : option (float64 * nat) :=
  match s with
  | EmptyString => None
  | String c rest =>
      let inf (sign : bool) (nsign : nat) (t : string) :=
        let n := commonPrefixLenIgnoreCase t "infinity" in
        let n := if Nat.ltb 3 n && Nat.ltb n 8 then 3%nat else n in
        if Nat.eqb n 3 || Nat.eqb n 8 then Some (S754_infinity sign, (nsign + n)%nat)
        else None in
      if Ascii.eqb c "+" then inf false 1%nat rest
      else if Ascii.eqb c "-" then inf true 1%nat rest
      else if Ascii.eqb c "i" || Ascii.eqb c "I" then inf false 0%nat s
      else if Ascii.eqb c "n" || Ascii.eqb c "N" then
        if Nat.eqb (commonPrefixLenIgnoreCase s "nan") 3 then Some (S754_nan, 3%nat) else None
      else None
  end.

(** The state of the digit loop of [readFloat].  [mant] holds all the
    digits read ([readFloat] keeps the first 19, or 16 in base 16, and a
    flag telling whether it dropped a non-zero one; the conversion that
    follows rounds the exact value all the same). *)
Record digits_state : Type := {
  sawdot : bool;
  sawdigits : bool;
  nd : Z;
  dp : Z;
  mant : N;
  underscores : bool
}.

Definition hex_letter_value (c : ascii) : option N :=
  let n := Bytes.code (lower c) in
  if (97 <=? n)%N && (n <=? 102)%N then Some (n - 97 + 10)%N else None.

(** The digit loop of [readFloat]; returns the state and the bytes it did
    not consume. *)
Fixpoint read_digits (hex : bool) (s : string) (st : digits_state) : digits_state * string :=
  match s with
  | EmptyString => (st, s)
  | String c rest =>
      if Ascii.eqb c "_" then
        read_digits hex rest
          {| sawdot := sawdot st; sawdigits := sawdigits st; nd := nd st;
             dp := dp st; mant := mant st; underscores := true |}
      else if Ascii.eqb c "." then
        if sawdot st then (st, s)
        else read_digits hex rest
          {| sawdot := true; sawdigits := sawdigits st; nd := nd st;
             dp := nd st; mant := mant st; underscores := underscores st |}
      else
        match Bytes.digit_value c with
        | Some d =>
            if (d =? 0)%N && (nd st =? 0) then
              read_digits hex rest
                {| sawdot := sawdot st; sawdigits := true; nd := nd st;
                   dp := dp st - 1; mant := mant st; underscores := underscores st |}
            else
              read_digits hex rest
                {| sawdot := sawdot st; sawdigits := true; nd := nd st + 1;
                   dp := dp st;
                   mant := (mant st * (if hex then 16 else 10) + d)%N;
                   underscores := underscores st |}
        | None =>
            match (if hex then hex_letter_value c else None) with
            | Some d =>
                read_digits hex rest
                  {| sawdot := sawdot st; sawdigits := true; nd := nd st + 1;
                     dp := dp st; mant := (mant st * 16 + d)%N;
                     underscores := underscores st |}
            | None => (st, s)
            end
        end
  end.

(** The digit loop of the exponent: digits and underscores; the exponent
    stops growing once it has reached 10000.  Returns the exponent, whether
    an underscore was seen, and the bytes not consumed. *)
Fixpoint read_exponent (s : string) (e : Z) (us : bool) : Z * bool * string :=
  match s with
  | EmptyString => (e, us, s)
  | String c rest =>
      if Ascii.eqb c "_" then read_exponent rest e true
      else match Bytes.digit_value c with
           | Some d => read_exponent rest (if e <? 10000 then e * 10 + Z.of_N d else e) us
           | None => (e, us, s)
           end
  end.

Fixpoint underscoreOK_loop (hex : bool) (s : string) (saw : ascii) : bool :=
  match s with
  | EmptyString => negb (Ascii.eqb saw "_")
  | String c rest =>
      match Bytes.digit_value c, (if hex then hex_letter_value c else None) with
      | None, None =>
          if Ascii.eqb c "_" then
            if Ascii.eqb saw "0" then underscoreOK_loop hex rest "_" else false
          else if Ascii.eqb saw "_" then false
          else underscoreOK_loop hex rest "!"
      | _, _ => underscoreOK_loop hex rest "0"
      end
  end.

(** [underscoreOK(s)]: underscores only between digits, or between a base
    prefix and a digit. *)
Definition underscoreOK (s : string) : bool :=
  let s :=
    match s with
    | String c rest => if Ascii.eqb c "-" || Ascii.eqb c "+" then rest else s
    | EmptyString => s
    end in
  match s with
  | String c0 (String c1 rest) =>
      let l := lower c1 in
      if Ascii.eqb c0 "0" && (Ascii.eqb l "b" || Ascii.eqb l "o" || Ascii.eqb l "x")
      then underscoreOK_loop (Ascii.eqb l "x") rest "0"
      else underscoreOK_loop false s "^"
  | _ => underscoreOK_loop false s "^"
  end.

(** What [readFloat] found: the sign, the base (16 after a [0x] prefix),
    the digits as an integer, the exponent of the base-10 or base-2 scale,
    and the bytes left unread. *)
Record read_float : Type := {
  rf_neg : bool;
  rf_hex : bool;
  rf_mantissa : N;
  rf_exp : Z;
  rf_rest : string
}.

(** [readFloat(s)]; [None] when it reports [ok = false]. *)
Definition readFloat (s : string) : option read_float :=
  match s with
  | EmptyString => None
  | String c rest =>
      let neg := Ascii.eqb c "-" in
      let s1 := if Ascii.eqb c "+" || neg then rest else s in
      let '(hex, s2) :=
        match s1 with
        | String c0 (String c1 (String c2 rest2)) =>
            if Ascii.eqb c0 "0" && Ascii.eqb (lower c1) "x"
            then (true, String c2 rest2) else (false, s1)
        | _ => (false, s1)
        end in
      let '(st, s3) :=
        read_digits hex s2
          {| sawdot := false; sawdigits := false; nd := 0; dp := 0;
             mant := 0%N; underscores := false |} in
      if negb (sawdigits st) then None
      else
        let dp0 := if sawdot st then dp st else nd st in
        let '(dp1, nd1) := if hex then (dp0 * 4, nd st * 4) else (dp0, nd st) in
        let expChar : ascii := (if hex then "p" else "e")%char in
        let finish (dp2 : Z) (us : bool) (s5 : string) :=
          let consumed := (String.length s - String.length s5)%nat in
          if us && negb (underscoreOK (substring 0 consumed s)) then None
          else Some {| rf_neg := neg; rf_hex := hex; rf_mantissa := mant st;
                       rf_exp := if (mant st =? 0)%N then 0 else dp2 - nd1;
                       rf_rest := s5 |} in
        match s3 with
        | String ce s4 =>
            if Ascii.eqb (lower ce) expChar then
              match s4 with
              | EmptyString => None
              | String cs s4' =>
                  let esign := if Ascii.eqb cs "-" then -1 else 1 in
                  let s4'' := if Ascii.eqb cs "+" || Ascii.eqb cs "-" then s4' else s4 in
                  match s4'' with
                  | EmptyString => None
                  | String cd _ =>
                      match Bytes.digit_value cd with
                      | None => None
                      | Some _ =>
                          let '(e, us, s5) := read_exponent s4'' 0 (underscores st) in
                          finish (dp1 + e * esign) us s5
                      end
                  end
              end
            else if hex then None
            else finish dp1 (underscores st) s3
        | EmptyString => if hex then None else finish dp1 (underscores st) s3
        end
  end.

(** [strconv.ParseFloat(s, 64)]: the whole of [s] must be a number; the
    result is the nearest float64, ties to even; a value that rounds to an
    infinity is reported with [ErrRange]. *)
Definition strconv_ParseFloat (s : string) : result float64 :=
  match special s with
  | Some (f, n) =>
      if Nat.eqb n (String.length s) then Ok f
      else Err (NumError "ParseFloat" s ErrSyntax)
  | None =>
      match readFloat s with
      | None => Err (NumError "ParseFloat" s ErrSyntax)
      | Some r =>
          match rf_rest r with
          | String _ _ => Err (NumError "ParseFloat" s ErrSyntax)
          | EmptyString =>
              let f := of_scaled (rf_neg r) (rf_mantissa r)
                         (if rf_hex r then 2 else 10) (rf_exp r) in
              if is_infinite f then Err (NumError "ParseFloat" s ErrRange)
              else Ok f
          end
      end
  end.

(** *** Package [time] *)

(** A [time.Duration] is an int64 count of nanoseconds. *)
Definition Second : Z := 1000000000.
Definition Hour : Z := 3600 * Second.

(** [Duration.Seconds()]: [float64(d / Second) + float64(d % Second) / 1e9]
    (integer division truncates towards zero). *)
Definition Duration_Seconds (d : Z) : float64 :=
  let sec := Z.quot d Second in
  let nsec := Z.rem d Second in
  add (of_Z sec) (div (of_Z nsec) (of_Z 1000000000)).

(** The conversions [int64(f)] and [int(f)] of a float64: the fraction is
    discarded.  For a NaN, an infinity or a value outside of int64 the
    language leaves the result to the implementation; amd64 yields the
    least int64.  The driver only converts [Duration.Seconds()], which is
    finite and in range. *)
Definition int64_of_float (f : float64) : Z :=
  match truncate f with
  | Some z => if (minInt64 <=? z) && (z <=? maxInt64) then z else minInt64
  | None => minInt64
  end.

(** *** The connection

    [net.Conn] is an interface; the driver uses [Write] (through
    [fmt.Fprintf]), [Close], and reads one line with
    [bufio.NewReader(c.conn).ReadString('\n')]. *)
Class NetConn (C : Type) : Type := {
  conn_Write : C -> string -> C * option error;
  conn_ReadString : C -> C * result string;
  conn_Close : C -> C * option error
}.

(** The connection [net.Dial("tcp", address)] returns.  [tcp_sent] is what
    has been written; [tcp_inbound] is what the peer sends, one element for
    each [Read] of the buffered reader (at most its 4096 bytes).  After
    [Close], every operation fails with "use of closed network
    connection", [Close] included (the [*net.OpError] around that error,
    which names the operation and the addresses, is left out).  Faults of
    the network are not modelled: before [Close], a write succeeds. *)
Record TCPConn : Type := {
  tcp_closed : bool;
  tcp_sent : string;
  tcp_inbound : list string
}.

Definition ErrNetClosing : error := NetError "use of closed network connection".
Definition EOF : error := NetError "EOF".

(** The bytes of [seg] up to and including the first newline. *)
Fixpoint through_newline (seg : string) : option string :=
  match seg with
  | EmptyString => None
  | String c rest =>
      if Ascii.eqb c "010" then Some (String c EmptyString)
      else match through_newline rest with
           | Some line => Some (String c line)
           | None => None
           end
  end.

(** [ReadString('\n')] of a fresh buffered reader: reads until a newline is
    there.  What the reader has buffered after the newline is lost with the
    reader. *)
Fixpoint tcp_read_line (segs : list string) (acc : string) : option (string * list string) :=
  match segs with
  | [] => None
  | seg :: segs' =>
      match through_newline seg with
      | Some line => Some (acc ++ line, segs')
      | None => tcp_read_line segs' (acc ++ seg)
      end
  end.

Definition tcp_Write (c : TCPConn) (b : string) : TCPConn * option error :=
  if tcp_closed c then (c, Some ErrNetClosing)
  else ({| tcp_closed := false; tcp_sent := tcp_sent c ++ b;
           tcp_inbound := tcp_inbound c |}, None).

Definition tcp_ReadString (c : TCPConn) : TCPConn * result string :=
  if tcp_closed c then (c, Err ErrNetClosing)
  else match tcp_read_line (tcp_inbound c) "" with
       | Some (line, segs) =>
           ({| tcp_closed := false; tcp_sent := tcp_sent c; tcp_inbound := segs |},
            Ok line)
       | None =>
           ({| tcp_closed := false; tcp_sent := tcp_sent c; tcp_inbound := [] |},
            Err EOF)
       end.

Definition tcp_Close (c : TCPConn) : TCPConn * option error :=
  if tcp_closed c then (c, Some ErrNetClosing)
  else ({| tcp_closed := true; tcp_sent := tcp_sent c;
           tcp_inbound := tcp_inbound c |}, None).

#[global] Instance TCPConn_NetConn : NetConn TCPConn := {
  conn_Write := tcp_Write;
  conn_ReadString := tcp_ReadString;
  conn_Close := tcp_Close
}.

(** *** The client *)

Section Client.

Context {C : Type} `{NetConn C}.

(** [type TSDBClient struct { conn net.Conn }]: the connection is the only
    field. *)
Record TSDBClient : Type := { conn : C }.

(** [NewTSDBClient(address)], given what [net.Dial("tcp", address)]
    returns. *)
Definition NewTSDBClient (dial : result C) : result TSDBClient :=
  match dial with
  | Err err => Err err
  | Ok cn => Ok {| conn := cn |}
  end.

(** [Close]: [return c.conn.Close()]. *)
Definition Close (c : TSDBClient) : TSDBClient * option error :=
  let '(cn, err) := conn_Close (conn c) in ({| conn := cn |}, err).

(** [fmt.Fprintf(c.conn, ...)]: one [Write] of the formatted text. *)
Definition Fprintf (c : TSDBClient) (text : string) : TSDBClient * option error :=
  let '(cn, err) := conn_Write (conn c) text in ({| conn := cn |}, err).

Definition newline : string := String "010" EmptyString.

(** The line [WriteData] formats: ["%s,%d,%.2f\n"]. *)
Definition WriteData_line (key : string) (timestamp : Z) (value : float64) : string :=
  key ++ "," ++ fmt_d timestamp ++ "," ++ fmt_2f value ++ newline.

Definition WriteData (c : TSDBClient) (key : string) (timestamp : Z) (value : float64)
  : TSDBClient * option error :=
  Fprintf c (WriteData_line key timestamp value).

(** The line [ReadData] formats: ["%s,%d,%d,%d\n"]. *)
Definition ReadData_line (key : string) (startTime endTime downsampling : Z) : string :=
  key ++ "," ++ fmt_d startTime ++ "," ++ fmt_d endTime ++ "," ++ fmt_d downsampling ++ newline.

(** What [ReadData] returns for the line it has read. *)
Definition ReadData_decode (response : string) : list string :=
  strings_Split (strings_TrimSpace response) "|".

Definition ReadData (c : TSDBClient) (key : string) (startTime endTime downsampling : Z)
  : TSDBClient * result (list string) :=
  match Fprintf c (ReadData_line key startTime endTime downsampling) with
  | (c1, Some err) => (c1, Err err)
  | (c1, None) =>
      match conn_ReadString (conn c1) with
      | (cn, Err err) => ({| conn := cn |}, Err err)
      | (cn, Ok response) => ({| conn := cn |}, Ok (ReadData_decode response))
      end
  end.

Definition Subscribe (c : TSDBClient) (key : string) : TSDBClient * option error :=
  Fprintf c ("subscribe," ++ key ++ newline).

Definition Unsubscribe (c : TSDBClient) (key : string) : TSDBClient * option error :=
  Fprintf c ("unsubscribe," ++ key ++ newline).

(** [now] is what [time.Now().Unix()] returns. *)
Definition RecordMeasurement (now : Z) (c : TSDBClient) (sensorID : string) (value : float64)
  : TSDBClient * option error :=
  let timestamp := now in
  WriteData c sensorID timestamp value.

(** [GetLatestMeasurement] after [ReadData] has returned [data] without
    error.  The [time.Time] returned is [time.Unix(timestamp, 0)], given
    here by its seconds. *)
Definition GetLatestMeasurement_of (sensorID : string) (data : list string)
  : result (float64 * Z) :=
  if Nat.eqb (List.length data) 0 then
    Err (Errorf ("no data found for sensor " ++ sensorID))
  else
    let parts := strings_Split (nth (List.length data - 1) data "") "," in
    if negb (Nat.eqb (List.length parts) 3) then Err (Errorf "invalid data format")
    else
      match strconv_ParseInt (nth 1 parts "") with
      | Err err => Err err
      | Ok timestamp =>
          match strconv_ParseFloat (nth 2 parts "") with
          | Err err => Err err
          | Ok value => Ok (value, timestamp)
          end
      end.

Definition GetLatestMeasurement (now : Z) (c : TSDBClient) (sensorID : string)
  : TSDBClient * result (float64 * Z) :=
  let endTime := now in
  let startTime := int64 (endTime - 3600) in
  match ReadData c sensorID startTime endTime 0 with
  | (c1, Err err) => (c1, Err err)
  | (c1, Ok data) => (c1, GetLatestMeasurement_of sensorID data)
  end.

(** One turn of the loop of [GetAverageMeasurement] over [data]; the state
    is [(sum, count)].  ([count] cannot overflow: it is at most
    [len(data)], an [int].) *)
Definition average_step (acc : float64 * Z) (measurement : string) : float64 * Z :=
  let '(sum, count) := acc in
  let parts := strings_Split measurement "," in
  if negb (Nat.eqb (List.length parts) 3) then acc
  else
    match strconv_ParseFloat (nth 2 parts "") with
    | Err _ => acc
    | Ok value => (add sum value, count + 1)
    end.

(** [GetAverageMeasurement] after [ReadData] has returned [data]. *)
Definition GetAverageMeasurement_of (sensorID : string) (data : list string)
  : result float64 :=
  if Nat.eqb (List.length data) 0 then
    Err (Errorf ("no data found for sensor " ++ sensorID ++ " in the specified time range"))
  else
    let '(sum, count) := fold_left average_step data (zero, 0) in
    if count =? 0 then Err (Errorf "no valid measurements found")
    else Ok (div sum (of_Z count)).

Definition GetAverageMeasurement (now : Z) (c : TSDBClient) (sensorID : string) (duration : Z)
  : TSDBClient * result float64 :=
  let endTime := now in
  let startTime := int64 (endTime - int64_of_float (Duration_Seconds duration)) in
  match ReadData c sensorID startTime endTime 0 with
  | (c1, Err err) => (c1, Err err)
  | (c1, Ok data) => (c1, GetAverageMeasurement_of sensorID data)
  end.

(** One turn of the loop of [GetMeasurementHistory]: the entry appended is
    [{Timestamp: time.Unix(timestamp, 0), Value: value}]. *)
Definition history_step (history : list (Z * float64)) (measurement : string)
  : list (Z * float64) :=
  let parts := strings_Split measurement "," in
  if negb (Nat.eqb (List.length parts) 3) then history
  else
    match strconv_ParseInt (nth 1 parts "") with
    | Err _ => history
    | Ok timestamp =>
        match strconv_ParseFloat (nth 2 parts "") with
        | Err _ => history
        | Ok value => history ++ [(timestamp, value)]
        end
    end.

Definition GetMeasurementHistory_of (data : list string) : list (Z * float64) :=
  fold_left history_step data [].

(** The downsampling [GetMeasurementHistory] asks for. *)
Definition downsamplingSeconds (interval : Z) : Z :=
  let downsamplingSeconds := int64_of_float (Duration_Seconds interval) in
  if downsamplingSeconds <? 1 then 1 else downsamplingSeconds.

(** [startTime] and [endTime] are the [Unix()] seconds of the two
    [time.Time] arguments. *)
Definition GetMeasurementHistory (c : TSDBClient) (sensorID : string)
    (startTime endTime : Z) (interval : Z)
  : TSDBClient * result (list (Z * float64)) :=
  match ReadData c sensorID startTime endTime (downsamplingSeconds interval) with
  | (c1, Err err) => (c1, Err err)
  | (c1, Ok data) => (c1, Ok (GetMeasurementHistory_of data))
  end.

(** The decoding of a query response into [(key, timestamp, value)]
    records, as the loop of [GetMeasurementHistory] does it on what
    [ReadData] returns; the loop itself drops the key ([parts[0]]), here it
    is kept. *)
Definition decode_step (records : list (string * Z * float64)) (measurement : string)
  : list (string * Z * float64) :=
  let parts := strings_Split measurement "," in
  if negb (Nat.eqb (List.length parts) 3) then records
  else
    match strconv_ParseInt (nth 1 parts "") with
    | Err _ => records
    | Ok timestamp =>
        match strconv_ParseFloat (nth 2 parts "") with
        | Err _ => records
        | Ok value => records ++ [(nth 0 parts "", timestamp, value)]
        end
    end.

Definition decodeQueryResponse (response : string) : list (string * Z * float64) :=
  fold_left decode_step (ReadData_decode response) [].

End Client.

Arguments TSDBClient C : clear implicits.

(** *** Notions used to state the properties of the driver *)

(** [s] starts with white space (which [strings.TrimSpace] removes). *)
Definition leading_space (s : string) : bool :=
  Bytes.starts_with_any space_runes s.

(** The float64 nearest to the value of [v] rounded to two decimals: what
    is left of [v] once [%.2f] has printed it. *)
Definition two_decimals (v : float64) : float64 :=
  match v with
  | S754_finite s m e => of_scaled s (Z.to_N (hundredths m e)) 10 (-2)
  | _ => v
  end.

(** The digit loop of [readFloat] keeps these two facts: no digit counted
    yet means a zero mantissa, and conversely. *)
Definition consistent (st : digits_state) : Prop :=
  (mant st = 0%N <-> nd st = 0) /\ 0 <= nd st.

(** The bytes [%d] can print, and those [%.2f] can print. *)
Definition digit_or_minus (c : ascii) : bool :=
  Bytes.is_digit c || Ascii.eqb c "-".

Definition float_char (c : ascii) : bool :=
  Bytes.is_digit c || existsb (Ascii.eqb c) ["."; "-"; "+"; "N"; "a"; "I"; "n"; "f"]%char.

(** The value of a record the loop of [GetAverageMeasurement] does not
    skip: one with three fields, the third of which [strconv.ParseFloat]
    accepts. *)
Definition valid_value (measurement : string) : option float64 :=
  match strings_Split measurement "," with
  | [_; _; field] =>
      match strconv_ParseFloat field with
      | Ok value => Some value
      | Err _ => None
      end
  | _ => None
  end.

(** The values of the valid records of [data], in order. *)
Fixpoint valid_values (data : list string) : list float64 :=
  match data with
  | [] => []
  | measurement :: rest =>
      match valid_value measurement with
      | Some value => value :: valid_values rest
      | None => valid_values rest
      end
  end.

(** The bytes of successive reads, put end to end. *)
Fixpoint concat_segments (segs : list string) : string :=
  match segs with
  | [] => ""
  | seg :: segs' => seg ++ concat_segments segs'
  end.

(** A record as [WriteData] formats it, without the line feed, and the
    response line that carries such records joined by ['|'], which is what
    [ReadData] splits. *)
Definition record_text (r : string * Z * float64) : string :=
  let '(key, timestamp, value) := r in
  key ++ "," ++ fmt_d timestamp ++ "," ++ fmt_2f value.

Fixpoint join_records (texts : list string) : string :=
  match texts with
  | [] => ""
  | [text] => text
  | text :: rest => text ++ "|" ++ join_records rest
  end.

Definition response_line (records : list (string * Z * float64)) : string :=
  join_records (map record_text records) ++ newline.

(** A key that can be written and read back: no [','], no ['|'], no
    leading white space. *)
Definition plain_key (key : string) : bool :=
  negb (Bytes.contains "," key) && negb (Bytes.contains "|" key)
  && negb (leading_space key).

(** A record with a plain key, an int64 timestamp and a float64 value. *)
Definition plain_record (r : string * Z * float64) : bool :=
  let '(key, timestamp, value) := r in
  plain_key key && (minInt64 <=? timestamp) && (timestamp <=? maxInt64)
  && is_binary64 value.

End Go.

(** ** The forwarding server ([src/main.go]) *)

Module Main.

Import F64.

(** The constant [3.33]: the float64 nearest to it. *)
Definition measurement : float64 := S754_finite false 7498493379571876 (-51).

(** *** [bufio.Scanner] with its default split function, [ScanLines] *)

(** [bufio.MaxScanTokenSize]: the size the buffer of the scanner grows
    to. *)
Definition MaxScanTokenSize : N := 65536.

(** [dropCR]: a carriage return at the end is dropped. *)
Definition dropCR (data : string) : string :=
  match Bytes.rev data with
  | String c rest => if Ascii.eqb c "013" then Bytes.rev rest else data
  | EmptyString => data
  end.

(** The buffer fills up before the end of this line is seen: the scanner
    stops with [ErrTooLong]. *)
Definition too_long (data : string) : bool :=
  (MaxScanTokenSize <=? N.of_nat (String.length data))%N.

(** The tokens [Scan] yields, given the stretches of the input between
    line feeds; the last stretch is what follows the last line feed, a
    token only if it is not empty.  An empty line is a token. *)
Fixpoint scan_fields (fields : list string) : list string :=
  match fields with
  | [] => []
  | [final] =>
      if too_long final then []
      else match final with
           | EmptyString => []
           | _ => [dropCR final]
           end
  | line :: rest =>
      if too_long line then [] else dropCR line :: scan_fields rest
  end.

(** What [scanner.Text()] is in the successive turns of
    [for scanner.Scan()], for a connection that delivers [input] and is then
    closed by the peer. *)
Definition Scanner_lines (input : string) : list string :=
  scan_fields (Bytes.split "010" input).

(** *** The handler of a connection *)

Section Handler.

Context {C : Type} `{Go.NetConn C}.

(** One turn of the loop: [log.Println(scanner.Text())], then
    [tsdbClient.RecordMeasurement("111", 3.33)], whose result is dropped.
    The state is what has been logged, the client, and the number of turns
    done; [now turn] is what [time.Now().Unix()] returns in that turn. *)
Definition handle_line (now : nat -> Z) (st : list string * Go.TSDBClient C * nat)
    (text : string) : list string * Go.TSDBClient C * nat :=
  let '(logged, tsdbClient, turn) := st in
  let '(tsdbClient', _) := Go.RecordMeasurement (now turn) tsdbClient "111" measurement in
  ((logged ++ [text])%list, tsdbClient', S turn).

(** The function [main] starts for each connection it accepts, run on its
    own: returns what it logs and the client it leaves.  ([defer c.Close()]
    closes the accepted connection, not the client's.) *)
Definition handle (now : nat -> Z) (tsdbClient : Go.TSDBClient C) (input : string)
  : list string * Go.TSDBClient C :=
  let '(logged, tsdbClient', _) :=
    fold_left (handle_line now) (Scanner_lines input) ([], tsdbClient, O) in
  (logged, tsdbClient').

End Handler.

(** The lines [count] calls of [RecordMeasurement("111", 3.33)] write, the
    first one in turn [turn]. *)
Fixpoint recorded (now : nat -> Z) (turn count : nat) : string :=
  match count with
  | O => ""
  | S count' => Go.WriteData_line "111" (now turn) measurement ++ recorded now (S turn) count'
  end.

End Main.

(** ** The JavaScript driver ([src/unnamed/part_000]) *)

Module JS.

Import F64.

(** *** Values

    A Number is a binary64.  [undefined] is what indexing or destructuring
    past the end of an array yields: an array element read this way is an
    [option string], [None] for [undefined]. *)

(** [ToString] of a string or of [undefined]. *)
Definition ToString (v : option string) : string :=
  match v with
  | Some s => s
  | None => "undefined"
  end.

(** An [Error] object, given by its message. *)
Inductive Error : Type := mkError (message : string).

(** The outcome of a promise. *)
Inductive settled (A : Type) : Type :=
| Fulfilled (v : A)
| Rejected (e : Error).

Arguments Fulfilled {A} v.
Arguments Rejected {A} e.

(** *** String methods *)

Definition split (s : string) (sep : ascii) : list string := Bytes.split sep s.

(** The UTF-8 encodings of the white space and line terminator code
    points of ECMAScript: tab, LF, VT, FF, CR, space, U+00A0, U+1680,
    U+2000..U+200A, U+2028, U+2029, U+202F, U+205F, U+3000, U+FEFF. *)
Definition space_runes : list (list N) :=
  [ [9]; [10]; [11]; [12]; [13]; [32];
    [194; 160];
    [225; 154; 128];
    [226; 128; 128]; [226; 128; 129]; [226; 128; 130]; [226; 128; 131];
    [226; 128; 132]; [226; 128; 133]; [226; 128; 134]; [226; 128; 135];
    [226; 128; 136]; [226; 128; 137]; [226; 128; 138];
    [226; 128; 168]; [226; 128; 169]; [226; 128; 175];
    [226; 129; 159];
    [227; 128; 128];
    [239; 187; 191] ]%N.

(** [String.prototype.trim]. *)
Definition trim (s : string) : string := Bytes.trim space_runes s.

(** [TrimString(s, start)], the first step of [parseInt] and
    [parseFloat]. *)
Definition trimStart (s : string) : string := Bytes.trim_left space_runes s.

(** *** [parseInt] and [parseFloat] *)

(** The longest prefix of [s] made of decimal digits: its value and
    length, and the rest of [s]. *)
Fixpoint take_digits (s : string) (acc : N) (len : Z) : N * Z * string :=
  match s with
  | EmptyString => (acc, len, s)
  | String c rest =>
      match Bytes.digit_value c with
      | Some d => take_digits rest (acc * 10 + d)%N (len + 1)
      | None => (acc, len, s)
      end
  end.

Definition hex_digit_value (c : ascii) : option N :=
  match Bytes.digit_value c with
  | Some d => Some d
  | None =>
      let n := Bytes.code (Bytes.lower c) in
      if (97 <=? n)%N && (n <=? 102)%N then Some (n - 97 + 10)%N else None
  end.

Fixpoint take_hex_digits (s : string) (acc : N) (len : Z) : N * Z * string :=
  match s with
  | EmptyString => (acc, len, s)
  | String c rest =>
      match hex_digit_value c with
      | Some d => take_hex_digits rest (acc * 16 + d)%N (len + 1)
      | None => (acc, len, s)
      end
  end.

(** Splits a leading sign off: [(negative, rest)]. *)
Definition take_sign (s : string) : bool * string :=
  match s with
  | String c rest =>
      if Ascii.eqb c "-" then (true, rest)
      else if Ascii.eqb c "+" then (false, rest)
      else (false, s)
  | EmptyString => (false, s)
  end.

(** [parseInt(string)] with no radix: leading white space is skipped; an
    optional sign; base 16 after [0x] or [0X], base 10 otherwise; the
    longest run of digits is read; [NaN] when there is none. *)
Definition parseInt (v : option string) : float64 :=
  let '(neg, s) := take_sign (trimStart (ToString v)) in
  let '(hex, s) :=
    match s with
    | String c0 (String c1 rest) =>
        if Ascii.eqb c0 "0" && (Ascii.eqb c1 "x" || Ascii.eqb c1 "X")
        then (true, rest) else (false, s)
    | _ => (false, s)
    end in
  let '(n, len, _) := if hex then take_hex_digits s 0 0 else take_digits s 0 0 in
  if len =? 0 then nan
  else of_scaled neg n 10 0.

Definition starts_with (prefix s : string) : bool :=
  String.eqb (substring 0 (String.length prefix) s) prefix.

(** [parseFloat(string)]: leading white space is skipped; the longest
    prefix that is a decimal literal (an optional sign, then [Infinity], or
    digits with an optional fraction and an optional exponent) is read;
    [NaN] when there is none. *)
Definition parseFloat (v : option string) : float64 :=
  let '(neg, s) := take_sign (trimStart (ToString v)) in
  if starts_with "Infinity" s then S754_infinity neg
  else
    let '(int_part, int_len, s1) := take_digits s 0 0 in
    let '(m, frac_len, s2) :=
      match s1 with
      | String c rest =>
          if Ascii.eqb c "." then take_digits rest int_part 0
          else (int_part, 0, s1)
      | EmptyString => (int_part, 0, s1)
      end in
    if int_len + frac_len =? 0 then nan
    else
      let e :=
        match s2 with
        | String c rest =>
            if Ascii.eqb c "e" || Ascii.eqb c "E" then
              let '(eneg, s3) := take_sign rest in
              let '(e, elen, _) := take_digits s3 0 0 in
              if elen =? 0 then 0
              else if eneg then - Z.of_N e else Z.of_N e
            else 0
        | EmptyString => 0
        end in
      of_scaled neg m 10 (e - frac_len).

(** *** Dates *)

(** A [Date] object, given by its time value in milliseconds ([NaN] for an
    invalid date). *)
Record Date : Type := { DateValue : float64 }.

(** [TimeClip]: [NaN] for a time that is not finite or beyond 8.64e15 in
    absolute value; otherwise its integer part (and never -0). *)
Definition TimeClip (time : float64) : float64 :=
  match truncate time with
  | None => nan
  | Some t => if 8640000000000000 <? Z.abs t then nan else of_Z t
  end.

(** [new Date(number)]. *)
Definition new_Date (tv : float64) : Date := {| DateValue := TimeClip tv |}.

(** *** The socket and the client

    The socket is an event emitter.  Its ['data'] listeners are those the
    driver registers: [readData] registers one with [once], which resolves
    the promise of that call; [onSubscriptionData] registers one with [on],
    which decodes the chunk and calls the callback given.  Promises and
    callbacks are told apart by numbers. *)

Inductive listener : Type :=
| OnceData (query : nat)
| OnData (callback : nat).

(** [write_error] is what the callback of [socket.write] receives:
    [Some err] when the socket cannot be written to ([end] has been called,
    or the socket has failed), [None] when the write succeeds. *)
Record Socket : Type := {
  write_error : option Error;
  written : string;
  data_listeners : list listener
}.

Record TSDBClient : Type := {
  connected : bool;
  socket : Socket;
  next_query : nat
}.

Record DataPoint : Type := {
  key : option string;
  timestamp : Date;
  value : float64
}.

(** What happens when a chunk is emitted: a pending [readData] is resolved
    with a value, or a subscription callback is called with a point. *)
Inductive effect : Type :=
| Resolve (query : nat) (data : list string)
| Invoke (callback : nat) (point : DataPoint).

Definition newline : string := String "010" EmptyString.

Definition Error_eqb (a b : Error) : bool :=
  match a, b with
  | mkError x, mkError y => String.eqb x y
  end.

Definition ERR_STREAM_WRITE_AFTER_END : Error := mkError "write after end".

Definition ERR_STREAM_DESTROYED : Error :=
  mkError "Cannot call write after a stream was destroyed".

(** What the callback of the next write receives, after a write that
    failed with [err].  The stream destroys itself on the error of a
    write, and a write to a destroyed stream fails with
    [ERR_STREAM_DESTROYED]; but a stream that [end] was called on refuses
    every write with [ERR_STREAM_WRITE_AFTER_END], destroyed or not. *)
Definition after_failed_write (err : Error) : Error :=
  if Error_eqb err ERR_STREAM_WRITE_AFTER_END then err else ERR_STREAM_DESTROYED.

(** [socket.write(text, cb)]: returns the socket and what [cb] receives.
    A write that fails writes nothing and destroys the socket.  The socket
    then emits ['error']: the driver listens to it from [connect] on (the
    listener rejects the promise of [connect], which is settled by then).
    On a socket that [connect] was never called on nothing listens to it,
    and Node throws the error as an uncaught exception, which ends the
    program unless the caller has provided for it. *)
Definition socket_write (sk : Socket) (text : string) : Socket * option Error :=
  match write_error sk with
  | Some err =>
      ({| write_error := Some (after_failed_write err); written := written sk;
          data_listeners := data_listeners sk |}, Some err)
  | None =>
      ({| write_error := None; written := written sk ++ text;
          data_listeners := data_listeners sk |}, None)
  end.

(** [socket.end(...)]: no write succeeds afterwards. *)
Definition socket_end (sk : Socket) : Socket :=
  {| write_error :=
       match write_error sk with
       | Some err => Some err
       | None => Some (mkError "write after end")
       end;
     written := written sk;
     data_listeners := data_listeners sk |}.

Definition with_socket (c : TSDBClient) (sk : Socket) : TSDBClient :=
  {| connected := connected c; socket := sk; next_query := next_query c |}.

(** [constructor(host, port)]. *)
Definition new_TSDBClient : TSDBClient :=
  {| connected := false;
     socket := {| write_error := Some (mkError "Socket is closed");
                  written := ""; data_listeners := [] |};
     next_query := 0 |}.

(** [connect()], given how the connection attempt ends. *)
Definition connect (failure : option Error) (c : TSDBClient) : TSDBClient * settled unit :=
  match failure with
  | Some err => (c, Rejected err)
  | None =>
      ({| connected := true;
          socket := {| write_error := None; written := written (socket c);
                       data_listeners := data_listeners (socket c) |};
          next_query := next_query c |}, Fulfilled tt)
  end.

(** [close()]: [this.socket.end(cb)], in a promise that has no reject
    path.  [cb] clears [connected] and resolves the promise; it takes no
    argument, so an error the socket may hand it goes unseen.  [finished]
    tells whether the socket calls [cb]; the promise stays pending ([None])
    if it does not. *)
Definition close (finished : bool) (c : TSDBClient) : TSDBClient * option (settled unit) :=
  if finished then
    ({| connected := false; socket := socket_end (socket c);
        next_query := next_query c |}, Some (Fulfilled tt))
  else
    ({| connected := connected c; socket := socket_end (socket c);
        next_query := next_query c |}, None).

Section Driver.

(** [Number::toString], which a template literal applies to a Number. *)
Variable Number_toString : float64 -> string.

Definition writeData_line (key : string) (timestamp value : float64) : string :=
  key ++ "," ++ Number_toString timestamp ++ "," ++ Number_toString value ++ newline.

Definition writeData (c : TSDBClient) (key : string) (timestamp value : float64)
  : TSDBClient * settled unit :=
  match socket_write (socket c) (writeData_line key timestamp value) with
  | (sk, Some err) => (with_socket c sk, Rejected err)
  | (sk, None) => (with_socket c sk, Fulfilled tt)
  end.

Definition readData_line (key : string) (startTime endTime downsampling : float64) : string :=
  key ++ "," ++ Number_toString startTime ++ "," ++ Number_toString endTime ++ ","
      ++ Number_toString downsampling ++ newline.

(** What the listener of [readData] resolves the promise with. *)
Definition readData_decode (data : string) : list string :=
  split (trim data) "|".

(** [readData]: writes the query and registers the one-shot listener.
    Returns the client, the number of the promise, and the error the
    promise is rejected with when the write fails (the listener is
    registered all the same). *)
Definition readData (c : TSDBClient) (key : string) (startTime endTime downsampling : float64)
  : TSDBClient * nat * option Error :=
  let '(sk, err) := socket_write (socket c) (readData_line key startTime endTime downsampling) in
  let query := next_query c in
  ({| connected := connected c;
      socket := {| write_error := write_error sk; written := written sk;
                   data_listeners := data_listeners sk ++ [OnceData query] |};
      next_query := S query |}, query, err).

End Driver.

Definition subscribe (c : TSDBClient) (key : string) : TSDBClient * settled unit :=
  match socket_write (socket c) ("subscribe," ++ key ++ newline) with
  | (sk, Some err) => (with_socket c sk, Rejected err)
  | (sk, None) => (with_socket c sk, Fulfilled tt)
  end.

Definition unsubscribe (c : TSDBClient) (key : string) : TSDBClient * settled unit :=
  match socket_write (socket c) ("unsubscribe," ++ key ++ newline) with
  | (sk, Some err) => (with_socket c sk, Rejected err)
  | (sk, None) => (with_socket c sk, Fulfilled tt)
  end.

(** [onSubscriptionData(callback)]: registers the listener. *)
Definition onSubscriptionData (c : TSDBClient) (callback : nat) : TSDBClient :=
  with_socket c
    {| write_error := write_error (socket c); written := written (socket c);
       data_listeners := data_listeners (socket c) ++ [OnData callback] |}.

(** The object the subscription listener builds from one message:
    [const [key, timestamp, value] = message.split(',')]. *)
Definition decodePushLine (message : string) : DataPoint :=
  let parts := split message "," in
  {| key := nth_error parts 0;
     timestamp := new_Date (mul (parseInt (nth_error parts 1)) (of_Z 1000));
     value := parseFloat (nth_error parts 2) |}.

(** The messages the subscription listener finds in a chunk. *)
Definition messages (data : string) : list string :=
  split (trim data) "010".

(** What one listener does with a chunk. *)
Definition run_listener (data : string) (l : listener) : list effect :=
  match l with
  | OnceData query => [Resolve query (readData_decode data)]
  | OnData callback => map (fun message => Invoke callback (decodePushLine message)) (messages data)
  end.

Definition is_once (l : listener) : bool :=
  match l with OnceData _ => true | OnData _ => false end.

(** The socket emits ['data']: every listener registered is called with the
    chunk, in the order of registration; the one-shot listeners are
    removed. *)
Definition emit_data (c : TSDBClient) (data : string) : TSDBClient * list effect :=
  let ls := data_listeners (socket c) in
  (with_socket c
     {| write_error := write_error (socket c); written := written (socket c);
        data_listeners := filter (fun l => negb (is_once l)) ls |},
   flat_map (run_listener data) ls).

(** A query is in flight: a one-shot listener of [readData] is
    registered. *)
Definition in_flight (c : TSDBClient) : bool :=
  existsb is_once (data_listeners (socket c)).

(** [getLatestMeasurement] after [readData] has resolved with [data]. *)
Definition getLatestMeasurement_of (sensorID : string) (data : list string)
  : settled (float64 * Date) :=
  if Nat.eqb (List.length data) 0 then
    Rejected (mkError ("No data found for sensor " ++ sensorID))
  else
    let latestMeasurement := split (nth (List.length data - 1) data "") "," in
    Fulfilled (parseFloat (nth_error latestMeasurement 2),
               new_Date (mul (parseInt (nth_error latestMeasurement 1)) (of_Z 1000))).

(** One turn of the loop of [getAverageMeasurement]; the state is
    [(sum, count)]. *)
Definition average_step (acc : float64 * Z) (measurement : string) : float64 * Z :=
  let '(sum, count) := acc in
  let parts := split measurement "," in
  if Nat.eqb (List.length parts) 3 then (add sum (parseFloat (nth_error parts 2)), count + 1)
  else acc.

(** [getAverageMeasurement] after [readData] has resolved with [data]. *)
Definition getAverageMeasurement_of (sensorID : string) (data : list string)
  : settled float64 :=
  if Nat.eqb (List.length data) 0 then
    Rejected (mkError ("No data found for sensor " ++ sensorID ++ " in the specified time range"))
  else
    let '(sum, count) := fold_left average_step data (zero, 0) in
    if count =? 0 then Rejected (mkError "No valid measurements found")
    else Fulfilled (div sum (of_Z count)).

(** The value of a record the loop of [getAverageMeasurement] counts: one
    with three fields; the value is what [parseFloat] makes of the third,
    [NaN] included. *)
Definition valid_value (measurement : string) : option float64 :=
  match split measurement "," with
  | [_; _; field] => Some (parseFloat (Some field))
  | _ => None
  end.

Fixpoint valid_values (data : list string) : list float64 :=
  match data with
  | [] => []
  | measurement :: rest =>
      match valid_value measurement with
      | Some value => value :: valid_values rest
      | None => valid_values rest
      end
  end.

(** [getMeasurementHistory] after [readData] has resolved with [data]. *)
Definition getMeasurementHistory_of (data : list string) : list (Date * float64) :=
  map (fun measurement =>
         let parts := split measurement "," in
         (new_Date (mul (parseInt (nth_error parts 1)) (of_Z 1000)),
          parseFloat (nth_error parts 2)))
      data.

(** *** The downsampling of [getMeasurementHistory] *)

(** [Math.floor]: the greatest integer not above [x]; [x] itself when it
    is an integer, a zero, an infinity or [NaN]. *)
Definition Math_floor (x : float64) : float64 :=
  match x with
  | S754_finite s m (Zneg k) =>
      let q := Zpos m / 2 ^ Zpos k in
      let z := if s then (if Zpos m mod 2 ^ Zpos k =? 0 then - q else - q - 1) else q in
      if z =? 0 then S754_zero s else of_Z z
  | _ => x
  end.

(** [Math.max] of two Numbers: [NaN] if one of them is; [+0] is above
    [-0]. *)
Definition Math_max (x y : float64) : float64 :=
  if is_nan x || is_nan y then nan
  else
    match SFcompare x y with
    | Some Lt => y
    | Some Gt => x
    | _ => match x with S754_zero true => y | _ => x end
    end.

(** [Math.max(1, Math.floor(intervalMs / 1000))]. *)
Definition downsamplingSeconds (intervalMs : float64) : float64 :=
  Math_max (of_Z 1) (Math_floor (div intervalMs (of_Z 1000))).

(** A record that the JavaScript driver reads as the Go driver does: a
    plain record whose key does not start with what [trim] removes, whose
    timestamp is a date JavaScript can hold, and whose value is finite. *)
Definition readable_record (r : string * Z * float64) : bool :=
  let '(key, timestamp, value) := r in
  Go.plain_record r && negb (Bytes.starts_with_any space_runes key)
  && (0 <=? timestamp) && (timestamp * 1000 <=? 8640000000000000)
  && is_finite value.

(** The query [getMeasurementHistory] has [readData] write; the two
    timestamps are [Math.floor(time.getTime() / 1000)] of the two [Date]
    arguments. *)
Definition getMeasurementHistory_line (Number_toString : float64 -> string)
    (sensorID : string) (startTimestamp endTimestamp intervalMs : float64) : string :=
  readData_line Number_toString sensorID startTimestamp endTimestamp
    (downsamplingSeconds intervalMs).

End JS.

(** ** The PHP driver ([src/gtsdbDriver.php]) *)

Module PHP.

(** [$this->socket]: [null] until [connect()], then a [Socket] object,
    which [socket_close] closes. *)
Inductive SocketValue : Type := Null | OpenSocket | ClosedSocket.

Record TSDBClient : Type := {
  socket : SocketValue;
  sent : string
}.

(** What a call throws, given by its message. *)
Inductive Throwable : Type :=
| TypeError (message : string)
| Error (message : string)
| Exception (message : string).

(** [close()]: [socket_close($this->socket)].  As of PHP 8, [socket_close]
    throws a [TypeError] for [null] and an [Error] for a socket that has
    been closed. *)
Definition close (c : TSDBClient) : TSDBClient + Throwable :=
  match socket c with
  | OpenSocket => inl {| socket := ClosedSocket; sent := sent c |}
  | ClosedSocket =>
      inr (Error "socket_close(): Argument #1 ($socket) has already been closed")
  | Null =>
      inr (TypeError "socket_close(): Argument #1 ($socket) must be of type Socket, null given")
  end.

Definition explode (sep : ascii) (s : string) : list string := Bytes.split sep s.

(** [trim($s)]: space, LF, CR, tab, VT and NUL are stripped at both
    ends. *)
Definition trim (s : string) : string :=
  Bytes.trim [ [32]; [10]; [13]; [9]; [11]; [0] ]%N s.

(** What [readData] returns for what [socket_read] returned: a string, or
    [false] ([None]), which [trim] takes for the empty string. *)
Definition readData_decode (response : option string) : list string :=
  explode "|" (trim (match response with Some r => r | None => "" end)).

Definition newline : string := String "010" EmptyString.

(** The query [readData] writes, for integer times and downsampling. *)
Definition readData_query (key : string) (startTime endTime downsampling : Z) : string :=
  key ++ "," ++ Bytes.decimal_Z startTime ++ "," ++ Bytes.decimal_Z endTime ++ ","
      ++ Bytes.decimal_Z downsampling ++ newline.

(** [$downsamplingSeconds = max(1, $intervalSeconds)], for an int. *)
Definition downsamplingSeconds (intervalSeconds : Z) : Z := Z.max 1 intervalSeconds.

(** The query [getMeasurementHistory] has [readData] write; the two
    timestamps are those of the [DateTime] arguments. *)
Definition getMeasurementHistory_query (sensorID : string)
    (startTimestamp endTimestamp intervalSeconds : Z) : string :=
  readData_query sensorID startTimestamp endTimestamp (downsamplingSeconds intervalSeconds).

(** *** The average *)

Section Average.

(** [floatval] of a string is taken as it is. *)
Variable floatval : string -> F64.float64.

(** One turn of the loop of [getAverageMeasurement]; the state is
    [($sum, $count)].  [$sum] starts as the integer 0 and is a float from
    the first addition on. *)
Definition average_step (acc : F64.float64 * Z) (measurement : string) : F64.float64 * Z :=
  let '(sum, count) := acc in
  let parts := explode "," measurement in
  if Nat.eqb (List.length parts) 3 then (F64.add sum (floatval (nth 2 parts "")), count + 1)
  else acc.

(** [getAverageMeasurement] after [readData] has returned [data]. *)
Definition getAverageMeasurement_of (sensorID : string) (data : list string)
  : F64.float64 + Throwable :=
  if Nat.eqb (List.length data) 0 then
    inr (Exception ("No data found for sensor " ++ sensorID ++ " in the specified time range"))
  else
    let '(sum, count) := fold_left average_step data (F64.zero, 0) in
    if count =? 0 then inr (Exception "No valid measurements found")
    else inl (F64.div sum (F64.of_Z count)).

(** The values of the records the loop counts, those with three fields,
    in order. *)
Fixpoint valid_values (data : list string) : list F64.float64 :=
  match data with
  | [] => []
  | measurement :: rest =>
      match explode "," measurement with
      | [_; _; field] => floatval field :: valid_values rest
      | _ => valid_values rest
      end
  end.

End Average.

End PHP.

(** ** The R driver ([src/gtsdbDriver.r]) *)

Module R.

Import F64.

(** A numeric value: [None] is [NA]. *)
Definition numeric : Type := option float64.

(** The outcome of a call: a value, or the condition [stop] signals. *)
Inductive outcome (A : Type) : Type :=
| Value (v : A)
| Stop (message : string).

Arguments Value {A} v.
Arguments Stop {A} message.

(** [strsplit(x, sep)[[1]]] for a separator matching one byte: the fields
    between the matches, without the empty field after a match at the end
    of the string; no field at all for the empty string. *)
Definition strsplit (x : string) (sep : ascii) : list string :=
  let fields := Bytes.split sep x in
  match last fields "x" with
  | EmptyString => removelast fields
  | _ => fields
  end.

(** What [readData] returns for the line [readLines] has read. *)
Definition readData_decode (response : string) : list string :=
  strsplit response "|".

Section Driver.

(** [as.numeric] of a string ([NA] when it is not a number), the mean
    [mean] computes for a vector that is not empty, and [as_datetime] of
    lubridate are taken as they are. *)
Variable as_numeric : string -> numeric.
Variable mean_nonempty : list float64 -> float64.
Variable datetime : Type.
Variable as_datetime : numeric -> datetime.
(** [as.character] of a number, which [paste] applies. *)
Variable as_character : Z -> string.

(** [as.numeric(x[i])], [i] counted from 1: [NA] past the end of [x]. *)
Definition as_numeric_at (x : list string) (i : nat) : numeric :=
  match nth_error x (i - 1) with
  | Some s => as_numeric s
  | None => None
  end.

(** The values that are neither [NA] nor [NaN]. *)
Fixpoint na_rm (values : list numeric) : list float64 :=
  match values with
  | [] => []
  | Some v :: rest => if is_nan v then na_rm rest else v :: na_rm rest
  | None :: rest => na_rm rest
  end.

(** [mean(values, na.rm = TRUE)]: [NaN] when nothing is left. *)
Definition mean_na_rm (values : list numeric) : numeric :=
  match na_rm values with
  | [] => Some nan
  | v :: vs => Some (mean_nonempty (v :: vs))
  end.

(** [getLatestMeasurement] after [readData] has returned [data]. *)
Definition getLatestMeasurement_of (sensorID : string) (data : list string)
  : outcome (numeric * datetime) :=
  if Nat.eqb (List.length data) 0 then
    Stop ("No data found for sensor " ++ sensorID)
  else
    let latestMeasurement := strsplit (nth (List.length data - 1) data "") "," in
    Value (as_numeric_at latestMeasurement 3,
           as_datetime (as_numeric_at latestMeasurement 2)).

(** [getAverageMeasurement] after [readData] has returned [data]. *)
Definition getAverageMeasurement_of (sensorID : string) (data : list string)
  : outcome numeric :=
  if Nat.eqb (List.length data) 0 then
    Stop ("No data found for sensor " ++ sensorID ++ " in the specified time range")
  else
    let values := map (fun record => as_numeric_at (strsplit record ",") 3) data in
    Value (mean_na_rm values).

(** [downsamplingSeconds <- max(1, intervalSeconds)], for a whole number
    of seconds. *)
Definition downsamplingSeconds (intervalSeconds : Z) : Z := Z.max 1 intervalSeconds.

(** The query [readData] writes with [writeLines]: [paste(..., sep = ",")]. *)
Definition readData_query (key : string) (startTime endTime downsampling : Z) : string :=
  key ++ "," ++ as_character startTime ++ "," ++ as_character endTime ++ ","
      ++ as_character downsampling.

Definition getMeasurementHistory_query (sensorID : string)
    (startTimestamp endTimestamp intervalSeconds : Z) : string :=
  readData_query sensorID startTimestamp endTimestamp (downsamplingSeconds intervalSeconds).

End Driver.

End R.

(* ===================================================================== *)
(** * Part II: properties                                                 *)
(* ===================================================================== *)

(** ** Byte strings *)

Module BytesFacts.

Import Bytes.

Lemma split_not_nil (sep : ascii) (s : string) : split sep s <> [].
Proof.
  induction s as [|c rest IH]; simpl; [discriminate|].
  destruct (Ascii.eqb c sep); [discriminate|].
  destruct (split sep rest); discriminate.
Qed.

Lemma split_length_pos (sep : ascii) (s : string) :
  (1 <= List.length (split sep s))%nat.
Proof.
  pose proof (split_not_nil sep s) as Hne.
  destruct (split sep s); [congruence | simpl; lia].
Qed.

(** A string without the separator is one field. *)
Lemma split_no_sep (sep : ascii) (s : string) :
  contains sep s = false -> split sep s = [s].
Proof.
  induction s as [|c rest IH]; simpl; intros Hc; [reflexivity|].
  apply orb_false_iff in Hc as [Hc Hrest].
  rewrite Hc, (IH Hrest). reflexivity.
Qed.

(** The first field ends at the first separator. *)
Lemma split_app_sep (sep : ascii) (a b : string) :
  contains sep a = false ->
  split sep (a ++ String sep b) = a :: split sep b.
Proof.
  induction a as [|c rest IH]; simpl; intros Hc.
  - rewrite Ascii.eqb_refl. reflexivity.
  - apply orb_false_iff in Hc as [Hc Hrest].
    rewrite Hc, (IH Hrest). reflexivity.
Qed.

Lemma contains_app (c : ascii) (a b : string) :
  contains c (a ++ b) = contains c a || contains c b.
Proof.
  induction a as [|x rest IH]; simpl; [reflexivity|].
  rewrite IH, orb_assoc. reflexivity.
Qed.

(** A byte that fails [p] does not occur in a string all of whose bytes
    satisfy [p]. *)
Lemma all_chars_contains (p : ascii -> bool) (c : ascii) (s : string) :
  all_chars p s = true -> p c = false -> contains c s = false.
Proof.
  induction s as [|x rest IH]; simpl; intros Hall Hp; [reflexivity|].
  apply andb_true_iff in Hall as [Hx Hrest].
  rewrite (IH Hrest Hp), orb_false_r.
  destruct (Ascii.eqb_spec x c) as [->|]; [congruence | reflexivity].
Qed.

Lemma all_chars_app (p : ascii -> bool) (a b : string) :
  all_chars p (a ++ b) = all_chars p a && all_chars p b.
Proof.
  induction a as [|x rest IH]; simpl; [reflexivity|].
  rewrite IH, andb_assoc. reflexivity.
Qed.

Lemma append_assoc (a b c : string) : (a ++ b) ++ c = a ++ (b ++ c).
Proof. induction a as [|x rest IH]; simpl; [|rewrite IH]; reflexivity. Qed.

(** *** Reversal *)

Lemma rev_acc_app (s acc : string) : rev_acc s acc = rev s ++ acc.
Proof.
  unfold rev. revert acc.
  induction s as [|c rest IH]; intros acc; simpl; [reflexivity|].
  rewrite (IH (String c acc)), (IH (String c "")).
  rewrite append_assoc. reflexivity.
Qed.

Lemma rev_cons (c : ascii) (s : string) : rev (String c s) = rev s ++ String c "".
Proof. unfold rev at 1. simpl. apply rev_acc_app. Qed.

Lemma append_empty_r (s : string) : s ++ "" = s.
Proof. induction s as [|c rest IH]; simpl; [|rewrite IH]; reflexivity. Qed.

Lemma rev_app (a b : string) : rev (a ++ b) = rev b ++ rev a.
Proof.
  induction a as [|c rest IH]; simpl.
  - symmetry. apply append_empty_r.
  - rewrite !rev_cons, IH, append_assoc. reflexivity.
Qed.

Lemma rev_involutive (s : string) : rev (rev s) = s.
Proof.
  induction s as [|c rest IH]; [reflexivity|].
  rewrite rev_cons, rev_app, IH. reflexivity.
Qed.

Lemma length_app (a b : string) :
  String.length (a ++ b) = (String.length a + String.length b)%nat.
Proof. induction a as [|c rest IH]; simpl; [|rewrite IH]; reflexivity. Qed.

(** *** Trimming *)

Lemma strip_codes_length (l : list N) (s rest : string) :
  strip_codes l s = Some rest ->
  String.length s = (List.length l + String.length rest)%nat.
Proof.
  revert s. induction l as [|n l IH]; intros s; simpl.
  - intros [= ->]. reflexivity.
  - destruct s as [|c s']; [discriminate|].
    destruct (N.eqb (code c) n); [|discriminate].
    intros Hs. simpl. rewrite (IH _ Hs). reflexivity.
Qed.

Lemma strip_first_length (runes : list (list N)) (s rest : string) :
  strip_first runes s = Some rest -> (String.length rest <= String.length s)%nat.
Proof.
  induction runes as [|l runes IH]; simpl; [discriminate|].
  destruct (strip_codes l s) as [r|] eqn:Hl.
  - intros [= <-]. apply strip_codes_length in Hl. lia.
  - exact IH.
Qed.

(** Nothing is trimmed from a string that starts with none of the
    sequences. *)
Lemma trim_left_fuel_none (runes : list (list N)) (fuel : nat) (s : string) :
  strip_first runes s = None -> trim_left_fuel runes fuel s = s.
Proof. intros Hs. destruct fuel; simpl; [|rewrite Hs]; reflexivity. Qed.

Lemma trim_left_none (runes : list (list N)) (s : string) :
  starts_with_any runes s = false -> trim_left runes s = s.
Proof.
  unfold starts_with_any, trim_left. intros Hs.
  apply trim_left_fuel_none. destruct (strip_first runes s); [discriminate | reflexivity].
Qed.

(** A sequence found at the start of [a ++ String c b] lies within [a]
    when [c] is not one of its bytes. *)
Lemma strip_codes_within (l : list N) (a b : string) (c : ascii) :
  forallb (fun n => negb (N.eqb (code c) n)) l = true ->
  strip_codes l a = None ->
  strip_codes l (a ++ String c b) = None.
Proof.
  revert a. induction l as [|n l IH]; intros a; simpl; [discriminate|].
  intros Hc Ha. apply andb_true_iff in Hc as [Hn Hl].
  destruct a as [|x a']; simpl.
  - apply negb_true_iff in Hn. rewrite Hn. reflexivity.
  - simpl in Ha. destruct (N.eqb (code x) n); [|reflexivity].
    apply IH; assumption.
Qed.

Lemma strip_first_within (runes : list (list N)) (a b : string) (c : ascii) :
  forallb (forallb (fun n => negb (N.eqb (code c) n))) runes = true ->
  starts_with_any runes a = false ->
  starts_with_any runes (a ++ String c b) = false.
Proof.
  unfold starts_with_any.
  induction runes as [|l runes IH]; simpl; [reflexivity|].
  intros Hc Ha. apply andb_true_iff in Hc as [Hl Hrunes].
  destruct (strip_codes l a) eqn:Hla; [discriminate|].
  rewrite (strip_codes_within l a b c Hl Hla).
  apply IH; assumption.
Qed.

(** No sequence starts with the first byte of the string. *)
Lemma strip_first_head (runes : list (list N)) (c : ascii) (s : string) :
  forallb (fun l => match l with
                    | [] => false
                    | n :: _ => negb (N.eqb (code c) n)
                    end) runes = true ->
  starts_with_any runes (String c s) = false.
Proof.
  unfold starts_with_any.
  induction runes as [|l runes IH]; simpl; [reflexivity|].
  intros Hc. apply andb_true_iff in Hc as [Hl Hrunes].
  destruct l as [|n l]; [discriminate|]. simpl.
  apply negb_true_iff in Hl. rewrite Hl. apply IH, Hrunes.
Qed.

(** Trimming a string that starts with no such sequence and ends with
    [last], a byte no sequence ends with, followed by one line feed:
    only the line feed goes. *)
Lemma trim_line (runes : list (list N)) (body : string) (last : ascii) :
  starts_with_any runes (body ++ String last (String "010" "")) = false ->
  strip_first (map (@List.rev N) runes) (String "010" (String last (rev body)))
    = Some (String last (rev body)) ->
  starts_with_any (map (@List.rev N) runes) (String last (rev body)) = false ->
  trim runes (body ++ String last (String "010" "")) = body ++ String last "".
Proof.
  intros Hleft Hnl Hlast. unfold trim.
  rewrite (trim_left_none _ _ Hleft). unfold trim_right.
  assert (Hrev : rev (body ++ String last (String "010" ""))
                 = String "010" (String last (rev body))).
  { rewrite rev_app. reflexivity. }
  rewrite Hrev. unfold trim_left. simpl String.length.
  cbn [trim_left_fuel]. rewrite Hnl.
  unfold starts_with_any in Hlast.
  destruct (strip_first _ (String last (rev body))); [discriminate|].
  change (String last (rev body)) with (rev (String last "") ++ rev body).
  rewrite <- rev_app, rev_involutive. reflexivity.
Qed.

(** *** Decimal digits *)

Lemma code_byte (n : N) : (n < 256)%N -> code (byte n) = n.
Proof. intros Hn. unfold code, byte. apply N_ascii_embedding. exact Hn. Qed.

Lemma digit_value_digit_char (d : N) :
  (d < 10)%N -> digit_value (digit_char d) = Some d.
Proof.
  intros Hd. unfold digit_value, digit_char.
  rewrite code_byte by lia.
  replace ((48 <=? 48 + d)%N && (48 + d <=? 57)%N) with true.
  - f_equal. lia.
  - symmetry. apply andb_true_iff. split; apply N.leb_le; lia.
Qed.

Lemma is_digit_digit_char (d : N) : (d < 10)%N -> is_digit (digit_char d) = true.
Proof. intros Hd. unfold is_digit. rewrite digit_value_digit_char by exact Hd. reflexivity. Qed.

Lemma is_digit_range (c : ascii) :
  is_digit c = true -> (48 <= code c <= 57)%N.
Proof.
  unfold is_digit, digit_value.
  destruct ((48 <=? code c)%N && (code c <=? 57)%N) eqn:Hr; [|discriminate].
  intros _. apply andb_true_iff in Hr as [H1 H2].
  apply N.leb_le in H1. apply N.leb_le in H2. lia.
Qed.

Lemma digits_value_app (a b : string) (acc : N) :
  digits_value (a ++ b) acc
  = match digits_value a acc with
    | Some v => digits_value b v
    | None => None
    end.
Proof.
  revert acc. induction a as [|c rest IH]; intros acc; simpl; [reflexivity|].
  destruct (digit_value c); [apply IH | reflexivity].
Qed.

(** The digits printed for [n] stand before the accumulator, are digits,
    and read back as [n]. *)
Lemma digits_fuel_spec (fuel : nat) :
  forall (n : N) (acc : string),
    (n < 2 ^ N.of_nat fuel)%N -> fuel <> O ->
    exists ds,
      digits_fuel fuel n acc = ds ++ acc /\
      ds <> "" /\
      all_chars is_digit ds = true /\
      forall a : N,
        digits_value ds a = Some (a * 10 ^ N.of_nat (String.length ds) + n)%N.
Proof.
  induction fuel as [|fuel IH]; intros n acc Hn Hfuel; [congruence|].
  - cbn [digits_fuel].
    assert (Hmod : (n mod 10 < 10)%N) by (apply N.mod_lt; lia).
    destruct (N.ltb_spec n 10) as [Hsmall|Hbig].
    + exists (String (digit_char (n mod 10)) "").
      split; [reflexivity|]. split; [discriminate|]. split.
      * simpl. rewrite is_digit_digit_char by exact Hmod. reflexivity.
      * intros a. cbn [digits_value String.length].
        rewrite digit_value_digit_char by exact Hmod.
        change (N.of_nat 1) with 1%N. rewrite N.pow_1_r.
        rewrite N.mod_small by exact Hsmall. reflexivity.
    + assert (Hdiv : (n / 10 < 2 ^ N.of_nat fuel)%N).
      { apply N.Div0.div_lt_upper_bound.
        rewrite Nat2N.inj_succ, N.pow_succ_r' in Hn. lia. }
      assert (Hfuel' : fuel <> O).
      { intros ->. simpl in Hn. lia. }
      destruct (IH (n / 10)%N (String (digit_char (n mod 10)) acc) Hdiv Hfuel')
        as (ds & Heq & Hne & Hall & Hval).
      exists (ds ++ String (digit_char (n mod 10)) "").
      split; [|split; [|split]].
      * rewrite Heq, append_assoc. reflexivity.
      * destruct ds; [congruence | discriminate].
      * rewrite all_chars_app, Hall. simpl.
        rewrite is_digit_digit_char by exact Hmod. reflexivity.
      * intros a. rewrite digits_value_app, Hval. cbn [digits_value].
        rewrite digit_value_digit_char by exact Hmod.
        f_equal. rewrite length_app. cbn [String.length].
        rewrite Nat2N.inj_add. change (N.of_nat 1) with 1%N.
        rewrite N.pow_add_r, N.pow_1_r.
        pose proof (N.div_mod n 10 ltac:(lia)) as Hdm.
        set (k := (10 ^ N.of_nat (String.length ds))%N) in *.
        lia.
Qed.

Lemma decimal_spec (n : N) :
  exists d c,
    decimal n = String c d /\
    all_chars is_digit (String c d) = true /\
    digits_value (String c d) 0 = Some n.
Proof.
  unfold decimal.
  assert (Hn : (n < 2 ^ N.of_nat (S (N.to_nat (N.log2 n))))%N).
  { rewrite Nat2N.inj_succ, N2Nat.id.
    destruct n as [|p]; [reflexivity|].
    apply N.log2_spec. reflexivity. }
  destruct (digits_fuel_spec _ n "" Hn ltac:(discriminate))
    as (ds & Heq & Hne & Hall & Hval).
  rewrite append_empty_r in Heq.
  destruct ds as [|c d]; [congruence|].
  exists d, c. split; [exact Heq|]. split; [exact Hall|].
  rewrite Hval. reflexivity.
Qed.

Lemma decimal_digits (n : N) : all_chars is_digit (decimal n) = true.
Proof. destruct (decimal_spec n) as (d & c & -> & Hall & _). exact Hall. Qed.

Lemma decimal_value (n : N) : digits_value (decimal n) 0 = Some n.
Proof. destruct (decimal_spec n) as (d & c & -> & _ & Hval). exact Hval. Qed.

Lemma decimal_head (n : N) :
  exists c d, decimal n = String c d /\ is_digit c = true.
Proof.
  destruct (decimal_spec n) as (d & c & -> & Hall & _).
  exists c, d. split; [reflexivity|]. simpl in Hall.
  apply andb_true_iff in Hall as [Hc _]. exact Hc.
Qed.

End BytesFacts.

(** ** The Go driver: formatting and parsing *)

Module GoFacts.

Import Bytes BytesFacts F64 Go.

Lemma printable_range (c : ascii) :
  printable c = true -> (33 <= code c < 128)%N.
Proof.
  unfold printable. intros Hc. apply andb_true_iff in Hc as [H1 H2].
  apply N.leb_le in H1. apply N.ltb_lt in H2. lia.
Qed.

Lemma is_digit_printable (c : ascii) : is_digit c = true -> printable c = true.
Proof.
  intros Hc. apply is_digit_range in Hc. unfold printable.
  apply andb_true_iff. split; [apply N.leb_le | apply N.ltb_lt]; lia.
Qed.

Ltac no_rune :=
  cbn -[N.eqb code];
  repeat (apply andb_true_iff; split); try reflexivity;
  apply negb_true_iff, N.eqb_neq; lia.

(** No white space starts with a printable byte, none ends with one, and
    none contains one. *)
Lemma printable_not_leading (c : ascii) (s : string) :
  printable c = true -> starts_with_any space_runes (String c s) = false.
Proof.
  intros Hc. apply printable_range in Hc.
  apply strip_first_head. no_rune.
Qed.

Lemma printable_not_trailing (c : ascii) (s : string) :
  printable c = true ->
  starts_with_any (map (@List.rev N) space_runes) (String c s) = false.
Proof.
  intros Hc. apply printable_range in Hc.
  apply strip_first_head. no_rune.
Qed.

Lemma printable_in_no_rune (c : ascii) :
  printable c = true ->
  forallb (forallb (fun n => negb (N.eqb (code c) n))) space_runes = true.
Proof. intros Hc. apply printable_range in Hc. no_rune. Qed.

(** What [strings.TrimSpace] makes of a line: a body that does not start
    with white space, a last printable byte, a line feed. *)
Lemma TrimSpace_line (body : string) (last : ascii) :
  leading_space (body ++ String last newline) = false ->
  printable last = true ->
  strings_TrimSpace (body ++ String last newline) = body ++ String last "".
Proof.
  intros Hbody Hlast. unfold strings_TrimSpace. apply trim_line.
  - exact Hbody.
  - reflexivity.
  - apply printable_not_trailing, Hlast.
Qed.

(** *** [%d] and [strconv.ParseInt] *)

Lemma all_chars_weaken (p q : ascii -> bool) (s : string) :
  (forall c, p c = true -> q c = true) ->
  all_chars p s = true -> all_chars q s = true.
Proof.
  intros Hpq. induction s as [|c rest IH]; simpl; [reflexivity|].
  intros Hall. apply andb_true_iff in Hall as [Hc Hrest].
  rewrite (Hpq c Hc), (IH Hrest). reflexivity.
Qed.

Lemma fmt_d_chars (z : Z) : all_chars digit_or_minus (fmt_d z) = true.
Proof.
  assert (Hd : forall n, all_chars digit_or_minus (decimal n) = true).
  { intros n. apply (all_chars_weaken is_digit); [|apply decimal_digits].
    intros c Hc. unfold digit_or_minus. rewrite Hc. reflexivity. }
  unfold fmt_d, decimal_Z. destruct z; [apply Hd | apply Hd |].
  cbn [append all_chars]. rewrite Hd. reflexivity.
Qed.

Lemma fmt_d_no (c : ascii) (z : Z) :
  digit_or_minus c = false -> contains c (fmt_d z) = false.
Proof. intros Hc. apply (all_chars_contains digit_or_minus); [apply fmt_d_chars | exact Hc]. Qed.

Lemma digits_value_ge (s : string) :
  forall acc v : N, digits_value s acc = Some v -> (acc <= v)%N.
Proof.
  induction s as [|c rest IH]; intros acc v Hv; cbn [digits_value] in Hv.
  - injection Hv as <-. lia.
  - destruct (digit_value c) as [d|]; [|discriminate].
    apply IH in Hv. lia.
Qed.

(** On digits whose value fits in uint64 the loop of [ParseUint] returns
    the value. *)
Lemma ParseUint_loop_value (s : string) :
  forall acc v : N,
    digits_value s acc = Some v -> (v <= maxUint64)%N -> ParseUint_loop s acc = inl v.
Proof.
  unfold maxUint64.
  induction s as [|c rest IH]; intros acc v Hv Hmax;
    cbn [digits_value ParseUint_loop] in *.
  - injection Hv as <-. reflexivity.
  - destruct (digit_value c) as [d|]; [|discriminate].
    pose proof (digits_value_ge _ _ _ Hv) as Hge.
    change (maxUint64 / 10 + 1)%N with 1844674407370955162%N.
    unfold maxUint64. change (2 ^ 64 - 1)%N with 18446744073709551615%N in *.
    destruct (N.leb_spec 1844674407370955162 acc) as [Hcut|Hcut]; [lia|].
    destruct (N.ltb_spec 18446744073709551615 (acc * 10 + d)) as [Hover|Hover]; [lia|].
    apply IH; assumption.
Qed.

(** Printing an int64 with [%d] and parsing it back gives the integer. *)
Lemma ParseInt_fmt_d (z : Z) :
  minInt64 <= z <= maxInt64 -> strconv_ParseInt (fmt_d z) = Ok z.
Proof.
  unfold minInt64, maxInt64. intros Hz.
  unfold fmt_d, decimal_Z. destruct z as [|p|p].
  - reflexivity.
  - destruct (decimal_head (Z.to_N (Z.pos p))) as (c & d & Heq & Hc).
    pose proof (decimal_value (Z.to_N (Z.pos p))) as Hval.
    rewrite Heq in *. unfold strconv_ParseInt.
    assert (Hsign : Ascii.eqb c "+" = false /\ Ascii.eqb c "-" = false).
    { apply is_digit_range in Hc.
      split; apply Ascii.eqb_neq; intros ->;
        [change (code "+") with 43%N in Hc | change (code "-") with 45%N in Hc]; lia. }
    destruct Hsign as [-> ->]. cbn [orb].
    rewrite (ParseUint_loop_value _ _ _ Hval) by (unfold maxUint64; simpl Z.to_N; lia).
    cbn [negb andb].
    replace (2 ^ 63 <=? Z.of_N (Z.to_N (Z.pos p))) with false; [reflexivity|].
    symmetry. apply Z.leb_gt. simpl Z.to_N. lia.
  - destruct (decimal_head (N.pos p)) as (c & d & Heq & Hc).
    pose proof (decimal_value (N.pos p)) as Hval.
    rewrite Heq in *. cbn [append]. unfold strconv_ParseInt.
    change (Ascii.eqb "-" "-") with true.
    change (Ascii.eqb "-" "+") with false. cbn [orb].
    rewrite (ParseUint_loop_value _ _ _ Hval) by (unfold maxUint64; lia).
    cbn [negb andb].
    replace (2 ^ 63 <? Z.of_N (N.pos p)) with false; [reflexivity|].
    symmetry. apply Z.ltb_ge. lia.
Qed.

(** The errors of strconv are [NumError]s. *)
Lemma ParseInt_error (s : string) (e : error) :
  strconv_ParseInt s = Err e -> exists k, e = NumError "ParseInt" s k.
Proof.
  unfold strconv_ParseInt. destruct s as [|c rest].
  - intros [= <-]. eexists. reflexivity.
  - destruct (if (c =? "+")%char || (c =? "-")%char then rest else String c rest).
    + intros [= <-]. eexists. reflexivity.
    + destruct (ParseUint_loop _ 0); [|intros [= <-]; eexists; reflexivity].
      destruct (negb _ && _); [intros [= <-]; eexists; reflexivity|].
      destruct (_ && _); [intros [= <-]; eexists; reflexivity | discriminate].
Qed.

Lemma ParseFloat_error (s : string) (e : error) :
  strconv_ParseFloat s = Err e -> exists k, e = NumError "ParseFloat" s k.
Proof.
  unfold strconv_ParseFloat. destruct (special s) as [[f n]|].
  - destruct (Nat.eqb n _); [discriminate | intros [= <-]; eexists; reflexivity].
  - destruct (readFloat s) as [r|]; [|intros [= <-]; eexists; reflexivity].
    destruct (rf_rest r); [|intros [= <-]; eexists; reflexivity].
    destruct (is_infinite _); [intros [= <-]; eexists; reflexivity | discriminate].
Qed.

(** *** [%.2f] *)

Lemma two_digits_chars (n : N) :
  (n < 100)%N -> all_chars is_digit (two_digits n) = true.
Proof.
  intros Hn. unfold two_digits. simpl.
  rewrite !is_digit_digit_char; [reflexivity | apply N.mod_lt; lia |].
  apply N.Div0.div_lt_upper_bound. lia.
Qed.

Lemma fmt_2f_chars (v : float64) : all_chars float_char (fmt_2f v) = true.
Proof.
  assert (Hd : forall s, all_chars is_digit s = true -> all_chars float_char s = true).
  { intros s. apply all_chars_weaken. intros c Hc. unfold float_char.
    rewrite Hc. reflexivity. }
  destruct v as [s|s| |s m e]; simpl.
  - destruct s; reflexivity.
  - destruct s; reflexivity.
  - reflexivity.
  - assert (Hbody : forall n,
      all_chars float_char (decimal (n / 100) ++ "." ++ two_digits (n mod 100)) = true).
    { intros n. rewrite all_chars_app, (Hd _ (decimal_digits _)).
      cbn [append all_chars andb]. rewrite (Hd (two_digits _)).
      - reflexivity.
      - apply two_digits_chars, N.mod_lt. lia. }
    destruct s; [cbn [append all_chars]; rewrite Hbody; reflexivity | apply Hbody].
Qed.

Lemma fmt_2f_no (c : ascii) (v : float64) :
  float_char c = false -> contains c (fmt_2f v) = false.
Proof. intros Hc. apply (all_chars_contains float_char); [apply fmt_2f_chars | exact Hc]. Qed.

(** What [%.2f] prints ends with a printable byte. *)
Lemma fmt_2f_last (v : float64) :
  exists body last, fmt_2f v = body ++ String last "" /\ printable last = true.
Proof.
  destruct v as [s|s| |s m e]; simpl.
  - exists ((if s then "-" else "") ++ "0.0"), "0"%char.
    split; [destruct s|]; reflexivity.
  - destruct s; [exists "-In" | exists "+In"]; exists "f"%char; split; reflexivity.
  - exists "Na", "N"%char. split; reflexivity.
  - set (n := Z.to_N (hundredths m e)).
    exists ((if s then "-" else "") ++ decimal (n / 100) ++ "."
              ++ String (digit_char (n mod 100 / 10)) ""),
           (digit_char ((n mod 100) mod 10)).
    split.
    + unfold two_digits. rewrite !append_assoc. reflexivity.
    + apply is_digit_printable, is_digit_digit_char, N.mod_lt. lia.
Qed.

End GoFacts.

(** ** Rounding to binary64 *)

Module RoundFacts.

Import F64.

(** *** Number of binary digits *)

Lemma digits2_size (p : positive) : digits2_pos p = Pos.size p.
Proof. induction p as [p IH|p IH|]; simpl; [rewrite IH | rewrite IH |]; reflexivity. Qed.

Lemma digits2_bounds (p : positive) :
  2 ^ (Zpos (digits2_pos p) - 1) <= Zpos p < 2 ^ Zpos (digits2_pos p).
Proof.
  rewrite digits2_size.
  pose proof (Pos.size_gt p) as Hgt. pose proof (Pos.size_le p) as Hle.
  apply Pos2Z.pos_lt_pos in Hgt. apply Pos2Z.pos_le_pos in Hle.
  rewrite Pos2Z.inj_pow in Hgt, Hle.
  rewrite (Pos2Z.inj_xO p) in Hle.
  assert (Hpow : 2 ^ Z.pos (Pos.size p) = 2 * 2 ^ (Z.pos (Pos.size p) - 1)).
  { rewrite <- Z.pow_succ_r by lia. f_equal. lia. }
  set (a := 2 ^ Z.pos (Pos.size p)) in *.
  set (b := 2 ^ (Z.pos (Pos.size p) - 1)) in *.
  lia.
Qed.

Lemma pow2_lt_inv (a b : Z) : 0 <= b -> 2 ^ a < 2 ^ b -> a < b.
Proof.
  intros Hb Hlt. destruct (Z.lt_ge_cases a b) as [H|H]; [exact H|].
  assert (2 ^ b <= 2 ^ a) by (apply Z.pow_le_mono_r; lia). lia.
Qed.

(** A positive number below [2 ^ k] has at most [k] digits; one that is
    at least [2 ^ k] has more than [k]. *)
Lemma digits2_le (p : positive) (k : Z) :
  0 <= k -> Zpos p < 2 ^ k -> Zpos (digits2_pos p) <= k.
Proof.
  intros Hk Hp. pose proof (digits2_bounds p) as [Hlo _].
  assert (Zpos (digits2_pos p) - 1 < k) by (apply pow2_lt_inv; lia). lia.
Qed.

Lemma digits2_gt (p : positive) (k : Z) :
  2 ^ k <= Zpos p -> k < Zpos (digits2_pos p).
Proof.
  intros Hp. pose proof (digits2_bounds p) as [_ Hhi].
  apply pow2_lt_inv; lia.
Qed.

Lemma Zdigits2_nonneg (z : Z) : 0 <= Zdigits2 z.
Proof. destruct z; cbn [Zdigits2]; lia. Qed.

Lemma Zdigits2_le (z k : Z) : 0 <= k -> 0 <= z < 2 ^ k -> Zdigits2 z <= k.
Proof.
  intros Hk [Hz Hlt]. destruct z as [|p|p]; cbn [Zdigits2]; [lia | | lia].
  apply digits2_le; assumption.
Qed.

(** Multiplying by [2 ^ k] adds [k] digits. *)
Lemma digits2_shift (p : positive) (k : Z) :
  0 <= k -> Zdigits2 (Zpos p * 2 ^ k) = Zpos (digits2_pos p) + k.
Proof.
  intros Hk. pose proof (digits2_bounds p) as [Hlo Hhi].
  assert (Hpow : 0 < 2 ^ k) by (apply Z.pow_pos_nonneg; lia).
  destruct (Zpos p * 2 ^ k) as [|q|q] eqn:Hq; [lia | | lia].
  cbn [Zdigits2]. pose proof (digits2_bounds q) as [Hqlo Hqhi].
  rewrite <- Hq in Hqlo, Hqhi.
  assert (H1 : Zpos (digits2_pos q) <= Zpos (digits2_pos p) + k).
  { apply digits2_le; [lia|]. rewrite <- Hq, Z.pow_add_r by lia. nia. }
  assert (H2 : Zpos (digits2_pos p) - 1 + k < Zpos (digits2_pos q)).
  { apply digits2_gt. rewrite <- Hq, Z.pow_add_r by lia. nia. }
  clear - H1 H2. lia.
Qed.

(** *** Shifting a mantissa to the right *)

Lemma shifted_1 (x : shr_record) : shifted 1 x (shr_1 x).
Proof.
  destruct x as [m r s]. unfold shifted. cbn [shr_m shr_r shr_s]. intros Hm.
  change (2 ^ 1) with 2.
  destruct m as [|[p|p|]|p]; cbn [shr_1 shr_m shr_r shr_s]; try lia.
  - split; [lia|]. split; [reflexivity|]. intros -> -> _. split; reflexivity.
  - split; [lia|]. split; [rewrite Pos2Z.inj_xI; Z.div_mod_to_equations; lia|].
    intros _ _ Hmod. rewrite Pos2Z.inj_xI in Hmod. Z.div_mod_to_equations. lia.
  - split; [lia|]. split; [rewrite Pos2Z.inj_xO; Z.div_mod_to_equations; lia|].
    intros -> -> _. split; reflexivity.
  - split; [lia|]. split; [reflexivity|]. intros _ _ Hmod. discriminate Hmod.
Qed.

Lemma shifted_trans (a b : Z) (x y z : shr_record) :
  0 < a -> 0 < b -> shifted a x y -> shifted b y z -> shifted (a + b) x z.
Proof.
  unfold shifted. intros Ha Hb Hxy Hyz Hx.
  destruct (Hxy Hx) as (Hy & Hym & Hyexact).
  destruct (Hyz Hy) as (Hz & Hzm & Hzexact).
  assert (Hpa : 0 < 2 ^ a) by (apply Z.pow_pos_nonneg; lia).
  assert (Hpb : 0 < 2 ^ b) by (apply Z.pow_pos_nonneg; lia).
  split; [exact Hz|]. split.
  - rewrite Hzm, Hym, Z.pow_add_r by lia. apply Z.div_div; lia.
  - intros Hr Hs Hmod.
    rewrite Z.pow_add_r in Hmod by lia.
    apply Z.mod_divide in Hmod; [|lia]. destruct Hmod as [t Ht].
    assert (Hxa : shr_m x mod 2 ^ a = 0).
    { apply Z.mod_divide; [lia|]. exists (t * 2 ^ b). rewrite Ht. ring. }
    destruct (Hyexact Hr Hs Hxa) as [Hyr Hys].
    apply Hzexact; [exact Hyr | exact Hys |].
    rewrite Hym. apply Z.mod_divide; [lia|]. exists t.
    rewrite Ht. replace (t * (2 ^ a * 2 ^ b)) with (t * 2 ^ b * 2 ^ a) by ring.
    apply Z.div_mul. lia.
Qed.

Lemma iter_pos_shifted (n : positive) :
  forall x : shr_record, shifted (Zpos n) x (iter_pos shr_1 n x).
Proof.
  induction n as [n IH|n IH|]; intros x; cbn [iter_pos].
  - replace (Zpos n~1) with (1 + (Zpos n + Zpos n)) by lia.
    apply (shifted_trans _ _ _ (shr_1 x)); [lia | lia | apply shifted_1 |].
    apply (shifted_trans _ _ _ (iter_pos shr_1 n (shr_1 x))); [lia | lia | apply IH | apply IH].
  - replace (Zpos n~0) with (Zpos n + Zpos n) by lia.
    apply (shifted_trans _ _ _ (iter_pos shr_1 n x)); [lia | lia | apply IH | apply IH].
  - apply shifted_1.
Qed.

(** [shr] shifts by [n] when [n] is positive and does nothing otherwise;
    the exponent grows by as much. *)
Lemma shr_spec (x : shr_record) (e n : Z) :
  snd (shr x e n) = e + Z.max n 0 /\ shifted (Z.max n 0) x (fst (shr x e n)).
Proof.
  assert (Hz : shifted 0 x x).
  { unfold shifted. intros Hx. change (2 ^ 0) with 1.
    rewrite Z.div_1_r. repeat split; assumption. }
  destruct n as [|p|p]; cbn [shr fst snd].
  - split; [lia | exact Hz].
  - rewrite Z.max_l by lia. split; [reflexivity | apply iter_pos_shifted].
  - rewrite Z.max_r by lia. split; [lia | exact Hz].
Qed.

(** *** The quotient of two integers *)

Lemma div_core (num den : positive) :
  SFdiv_core_binary prec emax (Zpos num) 0 (Zpos den) 0
  = (Zpos num * 2 ^ (- quotient_exponent num den) / Zpos den,
     quotient_exponent num den,
     new_location (Zpos den) (Zpos num * 2 ^ (- quotient_exponent num den) mod Zpos den)).
Proof.
  unfold SFdiv_core_binary. cbn [Zdigits2].
  rewrite !Z.add_0_r, !Z.sub_0_r.
  fold (quotient_exponent num den). set (e' := quotient_exponent num den).
  assert (He' : e' <= 0) by (unfold e', quotient_exponent; lia).
  replace (0 - e') with (- e') by lia.
  set (m' := match - e' with
             | 0 => Zpos num
             | Zpos _ => Z.shiftl (Zpos num) (- e')
             | Zneg _ => 0
             end).
  assert (Hm' : m' = Zpos num * 2 ^ (- e')).
  { unfold m'. destruct (- e') as [|p|p] eqn:Hs.
    - change (2 ^ 0) with 1. lia.
    - apply Z.shiftl_mul_pow2. lia.
    - lia. }
  rewrite Hm'. unfold Z.div, Z.modulo.
  destruct (Z.div_eucl (Zpos num * 2 ^ (- e')) (Zpos den)) as [q r].
  reflexivity.
Qed.

Lemma new_location_exact (den : Z) : new_location den 0 = loc_Exact.
Proof.
  unfold new_location, new_location_even, new_location_odd.
  destruct (Z.even den); reflexivity.
Qed.

Lemma bounded_spec (m : positive) (e : Z) :
  bounded prec emax m e = true ->
  fexp prec emax (Zpos (digits2_pos m) + e) = e /\ e <= 971.
Proof.
  unfold bounded, canonical_mantissa. intros H.
  apply andb_true_iff in H as [Hc He].
  apply Z.eqb_eq in Hc. apply Z.leb_le in He.
  unfold emax, prec in He. split; [exact Hc | lia].
Qed.

(** A quotient that is a binary64 is left as it is. *)
Lemma round_ratio_exact (neg : bool) (num den m : positive) (e : Z) :
  bounded prec emax m e = true ->
  Zpos num * 2 ^ Z.max (- e) 0 = Zpos den * Zpos m * 2 ^ Z.max e 0 ->
  round_ratio neg num den = S754_finite neg m e.
Proof.
  intros Hb Heq. destruct (bounded_spec m e Hb) as [Hcanon Hemax].
  unfold round_ratio. rewrite div_core.
  set (e' := quotient_exponent num den).
  pose proof (digits2_bounds num) as [Hn1 Hn2].
  pose proof (digits2_bounds den) as [Hd1 Hd2].
  pose proof (digits2_bounds m) as [Hm1 Hm2].
  set (d1 := Zpos (digits2_pos num)) in *.
  set (d2 := Zpos (digits2_pos den)) in *.
  set (dm := Zpos (digits2_pos m)) in *.
  assert (Hd1pos : 1 <= d1) by (unfold d1; lia).
  assert (Hd2pos : 1 <= d2) by (unfold d2; lia).
  assert (Hdmpos : 1 <= dm) by (unfold dm; lia).
  (* the digits of the quotient *)
  assert (Hdig : dm + e - 1 <= d1 - d2 <= dm + e).
  { destruct (Z.le_gt_cases 0 e) as [He|He].
    - rewrite Z.max_r, Z.max_l in Heq by lia. change (2 ^ 0) with 1 in Heq.
      rewrite Z.mul_1_r in Heq.
      assert (Hpe : 0 < 2 ^ e) by (apply Z.pow_pos_nonneg; lia).
      assert (Hup : Zpos num < 2 ^ (d2 + dm + e)).
      { rewrite Heq, !Z.pow_add_r by lia.
        apply Z.mul_lt_mono_pos_r; [exact Hpe|]. nia. }
      assert (Hlow : 2 ^ (d2 - 1 + (dm - 1) + e) <= Zpos num).
      { rewrite Heq, !Z.pow_add_r by lia.
        apply Z.mul_le_mono_nonneg_r; [lia|]. 
        apply Z.mul_le_mono_nonneg; try lia; apply Z.pow_nonneg; lia. }
      assert (d1 - 1 < d2 + dm + e) by (apply pow2_lt_inv; lia).
      assert (d2 - 1 + (dm - 1) + e < d1) by (apply pow2_lt_inv; lia).
      clear - H H0. lia.
    - rewrite Z.max_l, Z.max_r in Heq by lia. change (2 ^ 0) with 1 in Heq.
      rewrite Z.mul_1_r in Heq.
      assert (Hpe : 0 < 2 ^ (- e)) by (apply Z.pow_pos_nonneg; lia).
      assert (Hup : 2 ^ (d1 - 1 + - e) < 2 ^ (d2 + dm)).
      { rewrite !Z.pow_add_r by lia.
        apply Z.le_lt_trans with (Zpos num * 2 ^ (- e)).
        - apply Z.mul_le_mono_nonneg_r; lia.
        - rewrite Heq. apply Z.mul_lt_mono_nonneg; lia. }
      assert (Hlow : 2 ^ (d2 - 1 + (dm - 1)) < 2 ^ (d1 + - e)).
      { rewrite !Z.pow_add_r by lia.
        apply Z.le_lt_trans with (Zpos num * 2 ^ (- e)).
        - rewrite Heq. apply Z.mul_le_mono_nonneg; try lia; apply Z.pow_nonneg; lia.
        - apply Z.mul_lt_mono_pos_r; lia. }
      apply pow2_lt_inv in Hup; [|lia]. apply pow2_lt_inv in Hlow; [|lia].
      clear - Hup Hlow. lia. }
  assert (He' : e' <= e /\ e' <= 0).
  { unfold e', quotient_exponent. fold d1 d2.
    unfold fexp in *. clear - Hdig Hcanon. fold dm in Hcanon. lia. }
  destruct He' as [He'e He'0].
  (* the quotient is exact *)
  assert (Hq : Zpos num * 2 ^ (- e') = Zpos m * 2 ^ (e - e') * Zpos den).
  { destruct (Z.le_gt_cases 0 e) as [He|He].
    - rewrite Z.max_r, Z.max_l in Heq by lia. change (2 ^ 0) with 1 in Heq.
      rewrite Z.mul_1_r in Heq.
      replace (e - e') with (e + - e') by lia.
      rewrite Heq, Z.pow_add_r by lia. ring.
    - rewrite Z.max_l, Z.max_r in Heq by lia. change (2 ^ 0) with 1 in Heq.
      rewrite Z.mul_1_r in Heq.
      replace (- e') with (- e + (e - e')) by lia.
      rewrite Z.pow_add_r by lia.
      rewrite Z.mul_assoc, Heq. ring. }
  rewrite Hq, Z.div_mul, Z.mod_mul, new_location_exact by lia.
  (* rounding leaves it as it is *)
  set (k := e - e') in *.
  assert (Hk : 0 <= k) by (unfold k; lia).
  assert (Hpk : 0 < 2 ^ k) by (apply Z.pow_pos_nonneg; lia).
  unfold binary_round_aux, shr_fexp.
  rewrite digits2_shift by exact Hk. fold dm.
  replace (dm + k + e') with (dm + e) by (unfold k; lia).
  rewrite Hcanon. cbn [shr_record_of_loc]. fold k.
  pose proof (shr_spec {| shr_m := Zpos m * 2 ^ k; shr_r := false; shr_s := false |}
                e' k) as [Hexp Hshift].
  destruct (shr _ e' k) as [y e1]. cbn [fst snd] in Hexp, Hshift.
  rewrite Z.max_l in Hexp, Hshift by exact Hk.
  destruct Hshift as (_ & Hym & Hyexact); [cbn [shr_m]; lia|].
  cbn [shr_m shr_r shr_s] in Hym, Hyexact.
  rewrite Z.div_mul in Hym by lia.
  destruct Hyexact as [Hyr Hys]; [reflexivity | reflexivity | apply Z.mod_mul; lia |].
  destruct y as [ym yr ys]. cbn [shr_m shr_r shr_s] in Hym, Hyr, Hys. subst ym yr ys.
  cbn [shr_m loc_of_shr_record round_nearest_even Zdigits2]. fold dm.
  replace e1 with e by (unfold k in Hexp; lia).
  rewrite Hcanon, Z.sub_diag. cbn [shr shr_m].
  replace (e <=? emax - prec) with true; [reflexivity|].
  symmetry. apply Z.leb_le. unfold emax, prec. lia.
Qed.

Lemma shr_record_of_loc_m (m : Z) (l : location) : shr_m (shr_record_of_loc m l) = m.
Proof. destruct l as [|[| |]]; reflexivity. Qed.

Lemma round_nearest_even_bounds (m : Z) (l : location) :
  m <= round_nearest_even m l <= m + 1.
Proof.
  unfold round_nearest_even. destruct l as [|[| |]]; try lia.
  destruct (Z.even m); lia.
Qed.

(** A quotient below [2 ^ K], with [K] at most 1023, does not round to
    an infinity. *)
Lemma round_ratio_finite (neg : bool) (num den : positive) (K : Z) :
  0 <= K <= 1023 ->
  Zpos num < Zpos den * 2 ^ K ->
  is_infinite (round_ratio neg num den) = false.
Proof.
  intros HK Hlt. unfold round_ratio. rewrite div_core.
  set (e' := quotient_exponent num den).
  assert (He' : e' <= 0) by (unfold e', quotient_exponent; lia).
  set (q := Zpos num * 2 ^ (- e') / Zpos den).
  set (l := new_location _ _).
  assert (Hpe : 0 < 2 ^ (- e')) by (apply Z.pow_pos_nonneg; lia).
  assert (Hq0 : 0 <= q).
  { unfold q. apply Z.div_pos; [|lia]. apply Z.mul_nonneg_nonneg; lia. }
  assert (Hq : q < 2 ^ (K - e')).
  { unfold q. apply Z.div_lt_upper_bound; [lia|].
    replace (K - e') with (K + - e') by lia. rewrite Z.pow_add_r by lia.
    rewrite Z.mul_assoc. apply Z.mul_lt_mono_pos_r; [exact Hpe | exact Hlt]. }
  unfold binary_round_aux, shr_fexp.
  (* the first shift *)
  set (n1 := fexp prec emax (Zdigits2 q + e') - e').
  pose proof (shr_spec (shr_record_of_loc q l) e' n1) as [He1 Hshift1].
  destruct (shr (shr_record_of_loc q l) e' n1) as [y1 e1].
  cbn [fst snd] in He1, Hshift1.
  destruct Hshift1 as (Hm1pos & Hm1 & _); [rewrite shr_record_of_loc_m; exact Hq0|].
  rewrite shr_record_of_loc_m in Hm1.
  assert (Hdq : Zdigits2 q <= K - e') by (apply Zdigits2_le; lia).
  assert (Hn1 : e1 <= K /\ e1 <= 970 /\ e' <= e1).
  { unfold n1, fexp, prec, emax, emin in He1. clear - He1 Hdq HK He'. lia. }
  destruct Hn1 as (He1K & He1max & He1min).
  assert (Hm1lt : shr_m y1 < 2 ^ (K - e1)).
  { rewrite Hm1. replace (Z.max n1 0) with (e1 - e') by (clear - He1; lia).
    assert (Hpj : 0 < 2 ^ (e1 - e')) by (apply Z.pow_pos_nonneg; lia).
    apply Z.div_lt_upper_bound; [exact Hpj|].
    rewrite <- Z.pow_add_r by lia.
    replace (e1 - e' + (K - e1)) with (K - e') by lia. exact Hq. }
  (* rounding adds at most one *)
  set (r1 := round_nearest_even (shr_m y1) (loc_of_shr_record y1)).
  pose proof (round_nearest_even_bounds (shr_m y1) (loc_of_shr_record y1)) as Hr1.
  fold r1 in Hr1.
  assert (Hr1lt : 0 <= r1 < 2 ^ (K - e1 + 1)).
  { rewrite Z.pow_add_r by lia. change (2 ^ 1) with 2.
    assert (0 < 2 ^ (K - e1)) by (apply Z.pow_pos_nonneg; lia).
    set (b := 2 ^ (K - e1)) in *. clearbody b. clear - Hr1 Hm1pos Hm1lt H. lia. }
  (* the second shift *)
  set (n2 := fexp prec emax (Zdigits2 r1 + e1) - e1).
  pose proof (shr_spec (shr_record_of_loc r1 loc_Exact) e1 n2) as [He2 _].
  destruct (shr (shr_record_of_loc r1 loc_Exact) e1 n2) as [y2 e2].
  cbn [fst snd] in He2.
  assert (Hdr : Zdigits2 r1 <= K - e1 + 1) by (apply Zdigits2_le; lia).
  assert (He2max : e2 <= 971).
  { unfold n2, fexp, prec, emax, emin in He2. clear - He2 Hdr HK He1max. lia. }
  destruct (shr_m y2); [reflexivity | | reflexivity].
  replace (e2 <=? emax - prec) with true; [reflexivity|].
  symmetry. apply Z.leb_le. unfold emax, prec. lia.
Qed.

(** *** Two decimals *)

Lemma div_half_even_exact (num den : Z) :
  0 < den -> num mod den = 0 -> div_half_even num den = num / den.
Proof.
  intros Hden Hmod. unfold div_half_even. rewrite Hmod.
  destruct (Z.compare_spec (2 * 0) den); [lia | reflexivity | lia].
Qed.

Lemma div_half_even_bounds (num den : Z) :
  num / den <= div_half_even num den <= num / den + 1.
Proof.
  unfold div_half_even. destruct (2 * (num mod den) ?= den); try lia.
  destruct (Z.even (num / den)); lia.
Qed.

(** A binary64 whose hundredfold is an integer is what [%.2f] prints,
    exactly: it is read back as it was. *)
Lemma two_decimals_exact (v : float64) :
  is_binary64 v = true -> hundredths_exact v = true -> Go.two_decimals v = v.
Proof.
  destruct v as [s|s| |s m e]; try reflexivity.
  unfold is_binary64. cbn [valid_binary hundredths_exact Go.two_decimals].
  intros Hb Hexact. unfold hundredths.
  destruct e as [|pe|pe].
  - destruct (Z.to_N (Zpos m * 100 * 2 ^ 0)) as [|p] eqn:Hp; [cbn in Hp; lia|].
    cbn [of_scaled]. change (Z.to_pos (10 ^ Zpos 2)) with 100%positive.
    apply round_ratio_exact; [exact Hb|].
    cbn [Z.opp Z.max]. change (2 ^ 0) with 1 in *.
    assert (Zpos p = Zpos m * 100 * 1) by (clear - Hp; lia). lia.
  - assert (Hpow : 0 < 2 ^ Zpos pe) by (apply Z.pow_pos_nonneg; lia).
    destruct (Z.to_N (Zpos m * 100 * 2 ^ Zpos pe)) as [|p] eqn:Hp.
    { assert (0 < Zpos m * 100 * 2 ^ Zpos pe) by (apply Z.mul_pos_pos; lia).
      clear - Hp H. lia. }
    cbn [of_scaled]. change (Z.to_pos (10 ^ Zpos 2)) with 100%positive.
    apply round_ratio_exact; [exact Hb|].
    rewrite Z.max_r, Z.max_l by lia. change (2 ^ 0) with 1.
    assert (Zpos p = Zpos m * 100 * 2 ^ Zpos pe).
    { assert (0 < Zpos m * 100 * 2 ^ Zpos pe) by (apply Z.mul_pos_pos; lia).
      clear - Hp H. lia. }
    rewrite H. ring.
  - assert (Hpow : 0 < 2 ^ Zpos pe) by (apply Z.pow_pos_nonneg; lia).
    apply Z.eqb_eq in Hexact.
    rewrite (div_half_even_exact _ _ Hpow Hexact).
    assert (Hq : Zpos m * 100 = Zpos m * 100 / 2 ^ Zpos pe * 2 ^ Zpos pe).
    { pose proof (Z.div_mod (Zpos m * 100) (2 ^ Zpos pe) ltac:(lia)) as Hdm.
      rewrite Hexact in Hdm. clear - Hdm. lia. }
    set (n := Zpos m * 100 / 2 ^ Zpos pe) in *.
    assert (Hn : 0 < n).
    { destruct (Z.lt_ge_cases 0 n) as [H|H]; [exact H | exfalso].
      assert (n * 2 ^ Zpos pe <= 0) by (apply Z.mul_nonpos_nonneg; lia).
      clear - Hq H0. lia. }
    destruct (Z.to_N n) as [|p] eqn:Hp; [clear - Hp Hn; lia|].
    cbn [of_scaled]. change (Z.to_pos (10 ^ Zpos 2)) with 100%positive.
    apply round_ratio_exact; [exact Hb|].
    change (- Zneg pe) with (Zpos pe).
    rewrite Z.max_l, Z.max_r by lia. change (2 ^ 0) with 1.
    assert (Zpos p = n) by (clear - Hp Hn; lia).
    rewrite H, <- Hq. ring.
Qed.

(** What is left of a finite binary64 after [%.2f] is finite. *)
Lemma two_decimals_not_infinite (v : float64) :
  is_binary64 v = true -> is_finite v = true ->
  is_infinite (Go.two_decimals v) = false.
Proof.
  destruct v as [s|s| |s m e]; try reflexivity; try discriminate.
  intros Hb _. destruct e as [|pe|pe].
  - rewrite (two_decimals_exact (S754_finite s m 0) Hb eq_refl). reflexivity.
  - rewrite (two_decimals_exact (S754_finite s m (Zpos pe)) Hb eq_refl). reflexivity.
  - cbn [Go.two_decimals hundredths].
    set (n := div_half_even (Zpos m * 100) (2 ^ Zpos pe)).
    destruct (Z.to_N n) as [|p] eqn:Hp; [reflexivity|].
    cbn [of_scaled]. change (Z.to_pos (10 ^ Zpos 2)) with 100%positive.
    apply (round_ratio_finite s p 100 53); [lia|].
    assert (Hn : Zpos p = n) by (clear - Hp; lia).
    unfold is_binary64 in Hb. cbn [valid_binary] in Hb.
    destruct (bounded_spec m _ Hb) as [Hcanon _].
    pose proof (digits2_bounds m) as [_ Hm].
    assert (Hdm : Zpos (digits2_pos m) <= 53).
    { unfold fexp, prec, emax, emin in Hcanon. clear - Hcanon. lia. }
    assert (Hm53 : Zpos m < 2 ^ 53).
    { apply Z.lt_le_trans with (2 ^ Zpos (digits2_pos m)); [exact Hm|].
      apply Z.pow_le_mono_r; lia. }
    pose proof (div_half_even_bounds (Zpos m * 100) (2 ^ Zpos pe)) as [_ Hup].
    fold n in Hup.
    assert (Hdiv : Zpos m * 100 / 2 ^ Zpos pe <= Zpos m * 100 / 2).
    { apply Z.div_le_compat_l; [lia|]. split; [lia|].
      change 2 with (2 ^ 1) at 1. apply Z.pow_le_mono_r; lia. }
    assert (Hhalf : Zpos m * 100 / 2 = Zpos m * 50).
    { replace (Zpos m * 100) with (Zpos m * 50 * 2) by ring. apply Z.div_mul. lia. }
    rewrite Hn. change (2 ^ 53) with 9007199254740992 in *.
    clear - Hup Hdiv Hhalf Hm53. lia.
Qed.

End RoundFacts.

(** ** The Go driver: [strconv.ParseFloat] of what [%.2f] prints *)

Module ParseFloatFacts.

Import Bytes BytesFacts F64 Go.

Lemma digit_not_special (c : ascii) :
  is_digit c = true ->
  Ascii.eqb c "_" = false /\ Ascii.eqb c "." = false /\
  Ascii.eqb c "+" = false /\ Ascii.eqb c "-" = false /\
  Ascii.eqb c "i" = false /\ Ascii.eqb c "I" = false /\
  Ascii.eqb c "n" = false /\ Ascii.eqb c "N" = false /\
  Ascii.eqb (Bytes.lower c) "i" = false /\
  Ascii.eqb (Go.lower c) "x" = false /\ Ascii.eqb (Go.lower c) "e" = false.
Proof.
  intros Hc. apply is_digit_range in Hc.
  assert (Hne : forall d : ascii, ~ (48 <= code d <= 57)%N -> Ascii.eqb c d = false).
  { intros d Hd. apply Ascii.eqb_neq. intros ->. exact (Hd Hc). }
  assert (Hlow : Bytes.lower c = c).
  { unfold Bytes.lower.
    destruct ((65 <=? code c)%N && (code c <=? 90)%N) eqn:Hup; [|reflexivity].
    apply andb_true_iff in Hup as [H1 _]. apply N.leb_le in H1. lia. }
  assert (Hlor : Go.lower c = c).
  { unfold Go.lower.
    assert (Hcases : forall k, (48 <= k <= 57)%N -> N.lor k 32 = k).
    { intros k Hk.
      assert (Hk' : In k [48; 49; 50; 51; 52; 53; 54; 55; 56; 57]%N).
      { cbn. lia. }
      cbn in Hk'. repeat (destruct Hk' as [<-|Hk']; [reflexivity|]). destruct Hk'. }
    rewrite (Hcases _ Hc). unfold byte, code. apply ascii_N_embedding. }
  rewrite Hlow, Hlor.
  repeat split; apply Hne; cbn; lia.
Qed.

(** Reading a run of digits: the mantissa is the number read, and the
    digits counted minus the position of the point grow by the length of
    the run. *)
Lemma read_digits_run (ds : string) :
  all_chars is_digit ds = true ->
  forall (st : digits_state) (rest : string),
    consistent st ->
    exists st',
      read_digits false (ds ++ rest) st = read_digits false rest st' /\
      consistent st' /\
      sawdot st' = sawdot st /\
      underscores st' = underscores st /\
      (ds <> "" \/ sawdigits st = true -> sawdigits st' = true) /\
      digits_value ds (mant st) = Some (mant st') /\
      nd st' - dp st' = nd st - dp st + Z.of_nat (String.length ds).
Proof.
  induction ds as [|c ds IH]; intros Hall st rest Hst.
  - exists st. cbn [append String.length digits_value].
    repeat split; try apply Hst.
    + intros [H|H]; [congruence | exact H].
    + lia.
  - cbn [all_chars] in Hall. apply andb_true_iff in Hall as [Hc Hds].
    destruct (digit_not_special c Hc) as (Hu & Hdot & _).
    pose proof Hc as Hval. unfold is_digit in Hval.
    destruct (digit_value c) as [d|] eqn:Hd; [clear Hval | discriminate].
    destruct Hst as [Hzero Hnd].
    cbn [append read_digits]. rewrite Hu, Hdot, Hd.
    destruct ((d =? 0)%N && (nd st =? 0)) eqn:Hlead.
    + apply andb_true_iff in Hlead as [Hd0 Hnd0].
      apply N.eqb_eq in Hd0. apply Z.eqb_eq in Hnd0.
      match goal with
      | |- context [read_digits false (ds ++ rest) ?s] =>
          destruct (IH Hds s rest) as (st' & Hread & Hcons & Hsd & Hus & Hsaw & Hv & Hoff)
      end.
      { split; cbn [mant nd]; [exact Hzero | exact Hnd]. }
      exists st'. cbn [sawdot underscores sawdigits mant nd dp] in *.
      repeat split; try apply Hcons; try assumption.
      * intros _. apply Hsaw. right. reflexivity.
      * cbn [digits_value]. rewrite Hd.
        replace (mant st * 10 + d)%N with (mant st); [exact Hv|].
        apply Hzero in Hnd0. lia.
      * cbn [String.length]. lia.
    + match goal with
      | |- context [read_digits false (ds ++ rest) ?s] =>
          destruct (IH Hds s rest) as (st' & Hread & Hcons & Hsd & Hus & Hsaw & Hv & Hoff)
      end.
      { split; cbn [mant nd]; [|lia].
        apply andb_false_iff in Hlead as [Hd0|Hnd0].
        - apply N.eqb_neq in Hd0. split; intros H; lia.
        - apply Z.eqb_neq in Hnd0.
          assert (mant st <> 0%N) by (intros H; apply Hzero in H; lia).
          split; intros H'; lia. }
      exists st'. cbn [sawdot underscores sawdigits mant nd dp] in *.
      repeat split; try apply Hcons; try assumption.
      * intros _. apply Hsaw. right. reflexivity.
      * cbn [digits_value]. rewrite Hd. exact Hv.
      * cbn [String.length]. lia.
Qed.

Lemma digit_special_none (c : ascii) (rest : string) :
  is_digit c = true -> special (String c rest) = None.
Proof.
  intros Hc. destruct (digit_not_special c Hc)
    as (_ & _ & Hp & Hm & Hi & HI & Hn & HN & _).
  unfold special. rewrite Hp, Hm, Hi, HI, Hn, HN. reflexivity.
Qed.

Lemma minus_digit_special_none (c : ascii) (rest : string) :
  is_digit c = true -> special (String "-" (String c rest)) = None.
Proof.
  intros Hc. destruct (digit_not_special c Hc) as (_ & _ & _ & _ & _ & _ & _ & _ & Hl & _).
  unfold special. cbn [Ascii.eqb Bool.eqb]. cbn [commonPrefixLenIgnoreCase].
  rewrite Hl. reflexivity.
Qed.

(** [readFloat] on digits, a point and digits. *)
Lemma readFloat_fixed (neg : bool) (int_part frac_part : string) (ni n : N) :
  all_chars is_digit int_part = true ->
  int_part <> "" ->
  all_chars is_digit frac_part = true ->
  digits_value int_part 0 = Some ni ->
  digits_value frac_part ni = Some n ->
  readFloat ((if neg then "-" else "") ++ int_part ++ "." ++ frac_part)
  = Some {| rf_neg := neg; rf_hex := false; rf_mantissa := n;
            rf_exp := if (n =? 0)%N then 0
                      else - Z.of_nat (String.length frac_part);
            rf_rest := "" |}.
Proof.
  intros Hint Hne Hfrac Hni Hn.
  destruct int_part as [|c0 ip]; [congruence|].
  pose proof Hint as Hc0. cbn [all_chars] in Hc0.
  apply andb_true_iff in Hc0 as [Hc0 _].
  destruct (digit_not_special c0 Hc0) as (_ & _ & Hp & Hm & _).
  assert (Hbody : forall s1 : string,
    s1 = String c0 ip ++ "." ++ frac_part ->
    forall s : string,
    (let '(hex, s2) :=
        match s1 with
        | String c0 (String c1 (String c2 rest2)) =>
            if Ascii.eqb c0 "0" && Ascii.eqb (lower c1) "x"
            then (true, String c2 rest2) else (false, s1)
        | _ => (false, s1)
        end in
      let '(st, s3) :=
        read_digits hex s2
          {| sawdot := false; sawdigits := false; nd := 0; dp := 0;
             mant := 0%N; underscores := false |} in
      s2 = s1 /\ hex = false /\ s3 = "" /\ sawdigits st = true /\ sawdot st = true
      /\ underscores st = false /\ mant st = n
      /\ nd st - dp st = Z.of_nat (String.length frac_part))).
  { intros s1 Hs1 s.
    assert (Hhex : match s1 with
                   | String c0 (String c1 (String c2 rest2)) =>
                       if Ascii.eqb c0 "0" && Ascii.eqb (lower c1) "x"
                       then (true, String c2 rest2) else (false, s1)
                   | _ => (false, s1)
                   end = (false, s1)).
    { subst s1. cbn [append]. destruct ip as [|c1 ip'].
      - cbn [append]. destruct frac_part; [reflexivity|].
        change (Ascii.eqb (lower ".") "x") with false.
        rewrite andb_false_r. reflexivity.
      - assert (Hc1 : Ascii.eqb (lower c1) "x" = false).
        { cbn [all_chars] in Hint.
          apply andb_true_iff in Hint as [_ Hint].
          apply andb_true_iff in Hint as [Hc1 _].
          apply (digit_not_special c1 Hc1). }
        cbn [append]. destruct ip'; cbn [append];
          rewrite Hc1, andb_false_r; reflexivity. }
    rewrite Hhex. subst s1.
    destruct (read_digits_run (String c0 ip) Hint
                {| sawdot := false; sawdigits := false; nd := 0; dp := 0;
                   mant := 0%N; underscores := false |}
                ("." ++ frac_part))
      as (st1 & Hread1 & Hcons1 & Hsd1 & Hus1 & Hsaw1 & Hv1 & _).
    { split; cbn; [tauto | lia]. }
    rewrite Hread1. cbn [append read_digits].
    change (Ascii.eqb "." "_") with false. change (Ascii.eqb "." ".") with true.
    cbn [sawdot] in Hsd1. rewrite Hsd1.
    cbn [mant] in Hv1. rewrite Hni in Hv1. injection Hv1 as Hv1.
    match goal with
    | |- context [read_digits false frac_part ?s] =>
        destruct (read_digits_run frac_part Hfrac s "")
          as (st2 & Hread2 & Hcons2 & Hsd2 & Hus2 & Hsaw2 & Hv2 & Hoff2)
    end.
    { exact Hcons1. }
    rewrite append_empty_r in Hread2. rewrite Hread2. cbn [read_digits].
    cbn [sawdot sawdigits underscores mant nd dp] in *.
    repeat split; try assumption.
    - apply Hsaw2. right. apply Hsaw1. left. discriminate.
    - rewrite Hus2. exact Hus1.
    - rewrite <- Hv1, Hn in Hv2. injection Hv2 as <-. reflexivity.
    - lia. }
  destruct neg.
  - cbn [append]. unfold readFloat.
    change (Ascii.eqb "-" "-") with true. change (Ascii.eqb "-" "+") with false.
    cbn [orb].
    specialize (Hbody (String c0 ip ++ "." ++ frac_part) eq_refl "").
    cbn [append] in Hbody |- *.
    destruct (match ip ++ String "." frac_part with
              | String c1 (String c2 rest2) => _
              | _ => _
              end) as [hex s2].
    destruct (read_digits hex s2 _) as [st s3].
    destruct Hbody as (-> & -> & -> & Hsaw & Hdot & Hus & Hmant & Hoff).
    rewrite Hsaw, Hdot, Hus, Hmant. cbn [negb andb].
    f_equal. f_equal. destruct (n =? 0)%N; [reflexivity | lia].
  - cbn [append]. unfold readFloat. rewrite Hp, Hm. cbn [orb].
    specialize (Hbody (String c0 ip ++ "." ++ frac_part) eq_refl "").
    cbn [append] in Hbody |- *.
    destruct (match ip ++ String "." frac_part with
              | String c1 (String c2 rest2) => _
              | _ => _
              end) as [hex s2].
    destruct (read_digits hex s2 _) as [st s3].
    destruct Hbody as (-> & -> & -> & Hsaw & Hdot & Hus & Hmant & Hoff).
    rewrite Hsaw, Hdot, Hus, Hmant. cbn [negb andb].
    f_equal. f_equal. destruct (n =? 0)%N; [reflexivity | lia].
Qed.

Lemma two_digits_value (k ni : N) :
  (k < 100)%N -> digits_value (two_digits k) ni = Some (ni * 100 + k)%N.
Proof.
  intros Hk. unfold two_digits. cbn [digits_value].
  rewrite !digit_value_digit_char;
    [| apply N.mod_lt; lia | apply N.Div0.div_lt_upper_bound; lia].
  f_equal. pose proof (N.div_mod k 10 ltac:(lia)). lia.
Qed.

(** What [strconv.ParseFloat] reads from the text [%.2f] has printed for
    [v]: the float64 nearest to [v] rounded to two decimals; [v] itself
    when [v] is a zero, an infinity or NaN. *)
Lemma ParseFloat_fmt_2f (v : float64) :
  strconv_ParseFloat (fmt_2f v)
  = if is_finite v && is_infinite (two_decimals v)
    then Err (NumError "ParseFloat" (fmt_2f v) ErrRange)
    else Ok (two_decimals v).
Proof.
  destruct v as [s|s| |s m e].
  - destruct s; reflexivity.
  - destruct s; reflexivity.
  - reflexivity.
  - cbn [is_finite andb two_decimals fmt_2f].
    set (n := Z.to_N (hundredths m e)).
    destruct (decimal_spec (n / 100)) as (d & c & Hdec & Hall & Hval).
    assert (Hc : is_digit c = true).
    { cbn [all_chars] in Hall. apply andb_true_iff in Hall as [Hc _]. exact Hc. }
    assert (Hk : (n mod 100 < 100)%N) by (apply N.mod_lt; lia).
    assert (Hn : digits_value (two_digits (n mod 100)) (n / 100) = Some n).
    { rewrite (two_digits_value _ _ Hk). f_equal.
      pose proof (N.div_mod n 100 ltac:(lia)). lia. }
    pose proof (readFloat_fixed s (decimal (n / 100)) (two_digits (n mod 100))
                  (n / 100) n) as Hread.
    rewrite Hdec in Hread.
    specialize (Hread Hall ltac:(discriminate) (GoFacts.two_digits_chars _ Hk) Hval Hn).
    rewrite <- Hdec in Hread.
    unfold strconv_ParseFloat.
    assert (Hspecial : special ((if s then "-" else "") ++ decimal (n / 100) ++ "."
                                 ++ two_digits (n mod 100)) = None).
    { rewrite Hdec. destruct s; cbn [append];
        [apply minus_digit_special_none | apply digit_special_none]; exact Hc. }
    rewrite Hspecial, Hread. cbn [rf_rest rf_neg rf_mantissa rf_hex rf_exp].
    assert (Hsame : of_scaled s n 10
                      (if (n =? 0)%N
                       then 0 else - Z.of_nat (String.length (two_digits (n mod 100))))
                    = of_scaled s n 10 (-2)).
    { destruct (N.eqb_spec n 0) as [->|_]; reflexivity. }
    rewrite Hsame. reflexivity.
Qed.

End ParseFloatFacts.

(** ** Reading a line from the connection (Go) *)

Module ConnFacts.

Import Bytes BytesFacts.

Lemma through_newline_line (body extra : string) :
  contains "010" body = false ->
  Go.through_newline (body ++ Go.newline ++ extra) = Some (body ++ Go.newline).
Proof.
  induction body as [|c body IH]; intros Hbody; [reflexivity|].
  cbn [contains] in Hbody. apply orb_false_iff in Hbody as [Hc Hrest].
  cbn [append Go.through_newline]. rewrite Hc.
  cbn [append] in IH. rewrite (IH Hrest). reflexivity.
Qed.

Lemma through_newline_none (seg : string) :
  contains "010" seg = false -> Go.through_newline seg = None.
Proof.
  induction seg as [|c seg IH]; intros Hseg; [reflexivity|].
  cbn [contains] in Hseg. apply orb_false_iff in Hseg as [Hc Hrest].
  cbn [Go.through_newline]. rewrite Hc, (IH Hrest). reflexivity.
Qed.

(** The line is put together from the reads that hold no line feed and
    the start of the first read that holds one; what that read holds after
    the line feed is not returned, and not left to be read either. *)
Lemma tcp_read_line_spec (parts : list string) :
  forall (acc body extra : string) (rest : list string),
    Forall (fun seg => contains "010" seg = false) parts ->
    contains "010" body = false ->
    Go.tcp_read_line (parts ++ (body ++ Go.newline ++ extra) :: rest) acc
    = Some (acc ++ Go.concat_segments parts ++ body ++ Go.newline, rest).
Proof.
  induction parts as [|seg parts IH]; intros acc body extra rest Hparts Hbody.
  - cbn [app Go.tcp_read_line Go.concat_segments append].
    rewrite (through_newline_line body extra Hbody). reflexivity.
  - inversion Hparts as [|? ? Hseg Hrest]; subst.
    cbn [app Go.tcp_read_line Go.concat_segments].
    rewrite (through_newline_none seg Hseg), (IH _ _ _ _ Hrest Hbody).
    rewrite !append_assoc. reflexivity.
Qed.

Lemma tcp_read_line_eof (segs : list string) :
  forall acc : string,
    Forall (fun seg => contains "010" seg = false) segs ->
    Go.tcp_read_line segs acc = None.
Proof.
  induction segs as [|seg segs IH]; intros acc Hsegs; [reflexivity|].
  inversion Hsegs as [|? ? Hseg Hrest]; subst.
  cbn [Go.tcp_read_line]. rewrite (through_newline_none seg Hseg). apply IH, Hrest.
Qed.

(** [ReadData] on an open connection on which a whole line comes in. *)
Lemma ReadData_line_read (c : Go.TSDBClient Go.TCPConn) (key : string)
    (startTime endTime downsampling : Z)
    (parts : list string) (body extra : string) (rest : list string) :
  Go.tcp_closed (Go.conn c) = false ->
  Go.tcp_inbound (Go.conn c)
  = (parts ++ (body ++ Go.newline ++ extra)%string :: rest)%list ->
  Forall (fun seg => contains "010" seg = false) parts ->
  contains "010" body = false ->
  Go.ReadData c key startTime endTime downsampling
  = ({| Go.conn :=
          {| Go.tcp_closed := false;
             Go.tcp_sent := Go.tcp_sent (Go.conn c)
                              ++ Go.ReadData_line key startTime endTime downsampling;
             Go.tcp_inbound := rest |} |},
     Go.Ok (Go.ReadData_decode (Go.concat_segments parts ++ body ++ Go.newline))).
Proof.
  destruct c as [[closed sent inbound]].
  cbn [Go.conn Go.tcp_closed Go.tcp_sent Go.tcp_inbound].
  intros -> -> Hparts Hbody.
  unfold Go.ReadData, Go.Fprintf.
  cbn [Go.conn Go.conn_Write Go.conn_ReadString Go.TCPConn_NetConn].
  unfold Go.tcp_Write, Go.tcp_ReadString.
  cbn [Go.tcp_closed Go.tcp_sent Go.tcp_inbound Go.conn].
  rewrite (tcp_read_line_spec parts "" body extra rest Hparts Hbody).
  reflexivity.
Qed.

End ConnFacts.

(** ** The write line and the query response (Go) *)

Section WriteLine.

Import Bytes BytesFacts GoFacts.

(** The fields of a record [key,timestamp,value]. *)
Lemma Split_record (key field1 field2 : string) :
  contains "," key = false ->
  contains "," field1 = false ->
  contains "," field2 = false ->
  Go.strings_Split (key ++ "," ++ field1 ++ "," ++ field2) ","
  = [key; field1; field2].
Proof.
  intros Hkey H1 H2. unfold Go.strings_Split.
  change (key ++ "," ++ field1 ++ "," ++ field2)
    with (key ++ String "," (field1 ++ String "," field2)).
  rewrite (split_app_sep _ _ _ Hkey), (split_app_sep _ _ _ H1), (split_no_sep _ _ H2).
  reflexivity.
Qed.

(** What [ReadData] makes of the line [WriteData] writes: one record,
    the line without its line feed. *)
Lemma ReadData_decode_WriteData_line (key : string) (timestamp : Z) (value : F64.float64) :
  contains "|" key = false ->
  Go.leading_space key = false ->
  Go.ReadData_decode (Go.WriteData_line key timestamp value)
  = [key ++ "," ++ Go.fmt_d timestamp ++ "," ++ Go.fmt_2f value].
Proof.
  intros Hbar Hlead.
  destruct (fmt_2f_last value) as (body & last & Hfmt & Hlast).
  unfold Go.ReadData_decode, Go.WriteData_line.
  assert (Hline : key ++ "," ++ Go.fmt_d timestamp ++ "," ++ Go.fmt_2f value ++ Go.newline
                  = (key ++ "," ++ Go.fmt_d timestamp ++ "," ++ body)
                      ++ String last Go.newline).
  { rewrite Hfmt, !append_assoc. reflexivity. }
  rewrite Hline, TrimSpace_line.
  - assert (Hback : (key ++ "," ++ Go.fmt_d timestamp ++ "," ++ body) ++ String last ""
                    = key ++ "," ++ Go.fmt_d timestamp ++ "," ++ Go.fmt_2f value).
    { rewrite Hfmt, !append_assoc. reflexivity. }
    rewrite Hback. unfold Go.strings_Split. apply split_no_sep.
    rewrite !contains_app, Hbar.
    rewrite (fmt_d_no "|" timestamp eq_refl), (fmt_2f_no "|" value eq_refl).
    reflexivity.
  - rewrite <- Hline.
    change (Go.leading_space
              (key ++ String "," (Go.fmt_d timestamp ++ "," ++ Go.fmt_2f value ++ Go.newline))
            = false).
    apply strip_first_within; [|exact Hlead].
    apply (printable_in_no_rune ","). reflexivity.
  - exact Hlast.
Qed.

(** The loop of [GetMeasurementHistory] is the decoding of the records
    with the key left out. *)
Lemma history_is_decode_without_key (data : list string) :
  forall (records : list (string * Z * F64.float64)),
    fold_left Go.history_step data (map (fun r => (snd (fst r), snd r)) records)
    = map (fun r => (snd (fst r), snd r)) (fold_left Go.decode_step data records).
Proof.
  induction data as [|measurement rest IH]; intros records; [reflexivity|].
  cbn [fold_left]. rewrite <- IH. f_equal.
  unfold Go.history_step, Go.decode_step.
  destruct (negb _); [reflexivity|].
  destruct (Go.strconv_ParseInt _); [|reflexivity].
  destruct (Go.strconv_ParseFloat _); [|reflexivity].
  rewrite map_app. reflexivity.
Qed.

Lemma GetMeasurementHistory_of_decode (response : string) :
  Go.GetMeasurementHistory_of (Go.ReadData_decode response)
  = map (fun r => (snd (fst r), snd r)) (Go.decodeQueryResponse response).
Proof. exact (history_is_decode_without_key (Go.ReadData_decode response) []). Qed.

(** The line [WriteData] writes holds one line feed, its last byte, when
    the key holds none. *)
Lemma WriteData_line_body (key : string) (timestamp : Z) (value : F64.float64) :
  Go.WriteData_line key timestamp value
  = (key ++ "," ++ Go.fmt_d timestamp ++ "," ++ Go.fmt_2f value) ++ Go.newline.
Proof. unfold Go.WriteData_line. rewrite !append_assoc. reflexivity. Qed.

Lemma WriteData_body_no_newline (key : string) (timestamp : Z) (value : F64.float64) :
  contains "010" key = false ->
  contains "010" (key ++ "," ++ Go.fmt_d timestamp ++ "," ++ Go.fmt_2f value) = false.
Proof.
  intros Hkey. rewrite !contains_app, Hkey.
  rewrite (fmt_d_no "010" timestamp eq_refl), (fmt_2f_no "010" value eq_refl).
  reflexivity.
Qed.

End WriteLine.

(** C2 (as amended).  For every key that contains no [','], no line feed
    and no ['|'] and does not start with white space, every int64 timestamp
    and every float64 value, decoding the line [WriteData] writes yields
    exactly one record: the key and the timestamp are the original ones,
    and the value is the float64 nearest to the original value rounded to
    two decimals, as [%.2f] prints it.  The value comes back as it was when
    its hundredfold is an integer (and when it is a zero, an infinity or
    NaN).  The line written is one line for the reader of the driver as
    well: [ReadData], to which it comes in from an open connection,
    returns it whole. *)
Theorem WriteData_line_decodes (key : string) (timestamp : Z) (value : F64.float64) :
  Bytes.contains "," key = false ->
  Bytes.contains "010" key = false ->
  Bytes.contains "|" key = false ->
  Go.leading_space key = false ->
  Go.minInt64 <= timestamp <= Go.maxInt64 ->
  F64.is_binary64 value = true ->
  Go.decodeQueryResponse (Go.WriteData_line key timestamp value)
  = [(key, timestamp, Go.two_decimals value)]
  /\ (F64.hundredths_exact value = true -> Go.two_decimals value = value)
  /\ (forall (c : Go.TSDBClient Go.TCPConn) (query : string)
             (startTime endTime downsampling : Z) (rest : list string),
        Go.tcp_closed (Go.conn c) = false ->
        Go.tcp_inbound (Go.conn c) = Go.WriteData_line key timestamp value :: rest ->
        snd (Go.ReadData c query startTime endTime downsampling)
        = Go.Ok (Go.ReadData_decode (Go.WriteData_line key timestamp value))
        /\ Go.tcp_inbound (Go.conn (fst (Go.ReadData c query startTime endTime downsampling)))
           = rest).
Proof.
  intros Hcomma Hline Hbar Hlead Hrange Hvalid. split; [|split].
  - unfold Go.decodeQueryResponse.
    rewrite (ReadData_decode_WriteData_line key timestamp value Hbar Hlead).
    cbn [fold_left]. unfold Go.decode_step.
    rewrite (Split_record key _ _ Hcomma
               (GoFacts.fmt_d_no "," timestamp eq_refl)
               (GoFacts.fmt_2f_no "," value eq_refl)).
    cbn [List.length Nat.eqb negb nth].
    rewrite (GoFacts.ParseInt_fmt_d timestamp Hrange).
    rewrite ParseFloatFacts.ParseFloat_fmt_2f.
    destruct (F64.is_finite value) eqn:Hfinite; [|reflexivity].
    rewrite (RoundFacts.two_decimals_not_infinite value Hvalid Hfinite).
    reflexivity.
  - apply RoundFacts.two_decimals_exact, Hvalid.
  - intros c query startTime endTime downsampling rest Hopen Hin.
    rewrite WriteData_line_body in Hin |- *.
    rewrite (ConnFacts.ReadData_line_read c query startTime endTime downsampling
               [] (key ++ "," ++ Go.fmt_d timestamp ++ "," ++ Go.fmt_2f value) "" rest
               Hopen Hin (Forall_nil _)
               (WriteData_body_no_newline key timestamp value Hline)).
    split; reflexivity.
Qed.

(** The record written for sensor1 at 1700000000 with the value 25.5 is
    read back unchanged. *)
Lemma WriteData_line_decodes_witness :
  Go.decodeQueryResponse
    (Go.WriteData_line "sensor1" 1700000000 (S754_finite false 7177611906121728 (-48)))
  = [("sensor1", 1700000000, S754_finite false 7177611906121728 (-48))].
Proof.
  destruct (WriteData_line_decodes "sensor1" 1700000000
              (S754_finite false 7177611906121728 (-48)))
    as (Hdecode & Hexact & _).
  - reflexivity.
  - reflexivity.
  - reflexivity.
  - reflexivity.
  - unfold Go.minInt64, Go.maxInt64. lia.
  - reflexivity.
  - rewrite Hdecode, Hexact; reflexivity.
Defined.

(** C2 as stated fails.  The value 0.125 is written as ["0.12"] and comes
    back as 0.12; the key ["a|b"] comes back as ["b"]; the key [" a"]
    comes back as ["a"].  None of the three keys contains [','] or a line
    feed. *)
Lemma WriteData_roundtrip_counterexample :
  (let value := S754_finite false 4503599627370496 (-55) in
   Bytes.contains "," "s" = false /\ Bytes.contains "010" "s" = false /\
   Go.WriteData_line "s" 1 value = "s,1,0.12" ++ Go.newline /\
   Go.decodeQueryResponse (Go.WriteData_line "s" 1 value) <> [("s", 1, value)])
  /\
  (let value := F64.of_Z 1 in
   Bytes.contains "," "a|b" = false /\ Bytes.contains "010" "a|b" = false /\
   Go.decodeQueryResponse (Go.WriteData_line "a|b" 1 value) = [("b", 1, value)])
  /\
  (let value := F64.of_Z 1 in
   Bytes.contains "," " a" = false /\ Bytes.contains "010" " a" = false /\
   Go.decodeQueryResponse (Go.WriteData_line " a" 1 value) = [("a", 1, value)]).
Proof.
  repeat split; try reflexivity.
  vm_compute. discriminate.
Qed.

(** ** The decoded response is never empty *)

(** The R driver differs: [strsplit] returns no field for an empty line,
    so its [readData] can return an empty vector. *)
Lemma R_readData_decode_empty : R.readData_decode "" = [].
Proof. reflexivity. Qed.

(** C10.  Whatever the response line, the empty one included, what
    [ReadData] returns after trimming it and splitting it on ['|'] has at
    least one element (Go, JavaScript and PHP); an empty line gives the one
    record [""].  So the list handed to the three query functions is never
    empty, and their test for an empty list never fires. *)
Theorem ReadData_decode_never_empty :
  (forall response : string, (1 <= List.length (Go.ReadData_decode response))%nat)
  /\ Go.ReadData_decode "" = [""]
  /\ Go.ReadData_decode Go.newline = [""]
  /\ (forall data : string, (1 <= List.length (JS.readData_decode data))%nat)
  /\ JS.readData_decode "" = [""]
  /\ (forall response : option string, (1 <= List.length (PHP.readData_decode response))%nat)
  /\ PHP.readData_decode (Some "") = [""]
  /\ PHP.readData_decode None = [""]
  /\ (forall (C : Type) (NC : Go.NetConn C) (c c' : Go.TSDBClient C)
             (key : string) (startTime endTime downsampling : Z) (data : list string),
        Go.ReadData c key startTime endTime downsampling = (c', Go.Ok data) ->
        data <> [])
  /\ (forall (c : JS.TSDBClient) (chunk : string) (query : nat) (data : list string),
        In (JS.Resolve query data) (snd (JS.emit_data c chunk)) -> data <> [])
  /\ (forall (sensorID response : string),
        Go.GetLatestMeasurement_of sensorID (Go.ReadData_decode response)
          <> Go.Err (Go.Errorf ("no data found for sensor " ++ sensorID))
        /\ Go.GetAverageMeasurement_of sensorID (Go.ReadData_decode response)
          <> Go.Err (Go.Errorf ("no data found for sensor " ++ sensorID
                                  ++ " in the specified time range"))).
Proof.
  repeat match goal with |- _ /\ _ => split end; try reflexivity.
  - intros response. apply BytesFacts.split_length_pos.
  - intros data. apply BytesFacts.split_length_pos.
  - intros response. apply BytesFacts.split_length_pos.
  - intros C NC c c' key startTime endTime downsampling data.
    unfold Go.ReadData.
    destruct (Go.Fprintf c _) as [c1 [err|]]; [discriminate|].
    destruct (Go.conn_ReadString (Go.conn c1)) as [cn [response|err]]; [|discriminate].
    intros [= _ <-]. apply BytesFacts.split_not_nil.
  - intros c chunk query data. unfold JS.emit_data. cbn [snd].
    intros Hin. apply in_flat_map in Hin as (l & _ & Hl).
    destruct l as [q|cb]; cbn [JS.run_listener] in Hl.
    + destruct Hl as [[= _ <-]|[]]. apply BytesFacts.split_not_nil.
    + apply in_map_iff in Hl as (m & Hm & _). discriminate.
  - intros sensorID response.
    pose proof (BytesFacts.split_not_nil "|" (Go.strings_TrimSpace response)) as Hne.
    unfold Go.GetLatestMeasurement_of, Go.GetAverageMeasurement_of,
      Go.ReadData_decode, Go.strings_Split.
    destruct (Bytes.split "|" _) as [|r rs]; [congruence|].
    cbn [List.length Nat.eqb]. split.
    + destruct (negb _); [discriminate|].
      destruct (Go.strconv_ParseInt _) as [t|e] eqn:Hint.
      * destruct (Go.strconv_ParseFloat _) as [v|e] eqn:Hfloat; [discriminate|].
        apply GoFacts.ParseFloat_error in Hfloat as [k ->]. discriminate.
      * apply GoFacts.ParseInt_error in Hint as [k ->]. discriminate.
    + destruct (fold_left _ _ _) as [sum count].
      destruct (count =? 0); [|discriminate].
      discriminate.
Qed.

(** The response [""] read from a connection: [ReadData] returns the one
    record [""]. *)
Lemma ReadData_decode_never_empty_witness :
  snd (Go.ReadData
         {| Go.conn := {| Go.tcp_closed := false; Go.tcp_sent := "";
                          Go.tcp_inbound := [Go.newline] |} |} "sensor1" 0 10 0)
  = Go.Ok [""]
  /\ [""] <> @nil string.
Proof.
  split; [reflexivity|].
  destruct ReadData_decode_never_empty as (_ & _ & _ & _ & _ & _ & _ & _ & Hread & _).
  exact (Hread Go.TCPConn _
           {| Go.conn := {| Go.tcp_closed := false; Go.tcp_sent := "";
                            Go.tcp_inbound := [Go.newline] |} |}
           _ "sensor1" 0 10 0 [""] eq_refl).
Defined.

(** ** The latest measurement *)

(** C3.  When the decoded response is empty, [getLatestMeasurement] fails
    with the "no data found" error of its driver (Go, JavaScript, R), and
    it does so only then: no value, default or other, is returned for an
    empty response. *)
Theorem latest_of_empty_is_no_data :
  (forall sensorID : string,
     Go.GetLatestMeasurement_of sensorID []
     = Go.Err (Go.Errorf ("no data found for sensor " ++ sensorID)))
  /\ (forall (sensorID : string) (data : list string),
        Go.GetLatestMeasurement_of sensorID data
        = Go.Err (Go.Errorf ("no data found for sensor " ++ sensorID))
        <-> data = [])
  /\ (forall sensorID : string,
        JS.getLatestMeasurement_of sensorID []
        = JS.Rejected (JS.mkError ("No data found for sensor " ++ sensorID)))
  /\ (forall (sensorID : string) (data : list string),
        (exists e, JS.getLatestMeasurement_of sensorID data = JS.Rejected e)
        <-> data = [])
  /\ (forall (as_numeric : string -> R.numeric) (datetime : Type)
             (as_datetime : R.numeric -> datetime) (sensorID : string),
        R.getLatestMeasurement_of as_numeric datetime as_datetime sensorID []
        = R.Stop ("No data found for sensor " ++ sensorID))
  /\ (forall (as_numeric : string -> R.numeric) (datetime : Type)
             (as_datetime : R.numeric -> datetime) (sensorID : string)
             (data : list string),
        (exists message,
           R.getLatestMeasurement_of as_numeric datetime as_datetime sensorID data
           = R.Stop message)
        <-> data = []).
Proof.
  repeat match goal with |- _ /\ _ => split end.
  - intros sensorID. reflexivity.
  - intros sensorID data. split; [|intros ->; reflexivity].
    intros Hfail. destruct data as [|r rs]; [reflexivity|]. revert Hfail.
    unfold Go.GetLatestMeasurement_of. cbn [List.length Nat.eqb].
    destruct (negb _); [discriminate|].
    destruct (Go.strconv_ParseInt _) as [t|e] eqn:Hint.
    + destruct (Go.strconv_ParseFloat _) as [v|e] eqn:Hfloat; [discriminate|].
      apply GoFacts.ParseFloat_error in Hfloat as [k ->]. discriminate.
    + apply GoFacts.ParseInt_error in Hint as [k ->]. discriminate.
  - intros sensorID. reflexivity.
  - intros sensorID data. split; [|intros ->; eexists; reflexivity].
    intros [e He]. destruct data; [reflexivity | discriminate].
  - intros as_numeric datetime as_datetime sensorID. reflexivity.
  - intros as_numeric datetime as_datetime sensorID data.
    split; [|intros ->; eexists; reflexivity].
    intros [message Hm]. destruct data; [reflexivity | discriminate].
Qed.

(** Of the lists [[]] and [["a,1,2"]], the Go driver answers "no data
    found" for the first only. *)
Lemma latest_of_empty_is_no_data_witness :
  Go.GetLatestMeasurement_of "sensor1" []
  = Go.Err (Go.Errorf "no data found for sensor sensor1")
  /\ Go.GetLatestMeasurement_of "sensor1" ["a,1,2"]
     <> Go.Err (Go.Errorf "no data found for sensor sensor1").
Proof.
  destruct latest_of_empty_is_no_data as (Hempty & Honly & _).
  split.
  - exact (Hempty "sensor1").
  - intros Hfail. apply (Honly "sensor1" ["a,1,2"]) in Hfail. discriminate Hfail.
Defined.

(** ** The average *)

Section Average.

Import Bytes BytesFacts.

(** One turn of the Go loop adds the value of a valid record and skips
    any other record. *)
Lemma Go_average_step (sum : F64.float64) (count : Z) (measurement : string) :
  Go.average_step (sum, count) measurement
  = match Go.valid_value measurement with
    | Some value => (F64.add sum value, count + 1)
    | None => (sum, count)
    end.
Proof.
  unfold Go.average_step, Go.valid_value.
  destruct (Go.strings_Split measurement ",") as [|f0 [|f1 [|f2 [|f3 fs]]]];
    try reflexivity.
  cbn [List.length Nat.eqb negb nth].
  destruct (Go.strconv_ParseFloat f2); reflexivity.
Qed.

Lemma Go_average_loop (data : list string) :
  forall (sum : F64.float64) (count : Z),
    fold_left Go.average_step data (sum, count)
    = (fold_left F64.add (Go.valid_values data) sum,
       count + Z.of_nat (List.length (Go.valid_values data))).
Proof.
  induction data as [|measurement rest IH]; intros sum count; cbn [fold_left Go.valid_values].
  - rewrite Z.add_0_r. reflexivity.
  - rewrite Go_average_step.
    destruct (Go.valid_value measurement) as [value|]; rewrite IH; [|reflexivity].
    cbn [fold_left List.length]. f_equal. lia.
Qed.

(** On a response that is not empty, the Go driver returns the mean of
    the values of the valid records, or fails when there is none. *)
Lemma Go_average_of (sensorID : string) (data : list string) :
  data <> [] ->
  Go.GetAverageMeasurement_of sensorID data
  = match Go.valid_values data with
    | [] => Go.Err (Go.Errorf "no valid measurements found")
    | values => Go.Ok (F64.mean values)
    end.
Proof.
  intros Hne. unfold Go.GetAverageMeasurement_of.
  destruct data as [|r rs]; [congruence|].
  cbn [List.length Nat.eqb]. rewrite Go_average_loop.
  destruct (Go.valid_values (r :: rs)) as [|v vs]; [reflexivity|].
  cbn [List.length]. rewrite Z.add_0_l.
  destruct (Z.eqb_spec (Z.of_nat (S (List.length vs))) 0) as [H0|_]; [lia|].
  reflexivity.
Qed.

Lemma JS_average_step (sum : F64.float64) (count : Z) (measurement : string) :
  JS.average_step (sum, count) measurement
  = match JS.valid_value measurement with
    | Some value => (F64.add sum value, count + 1)
    | None => (sum, count)
    end.
Proof.
  unfold JS.average_step, JS.valid_value.
  destruct (JS.split measurement ",") as [|f0 [|f1 [|f2 [|f3 fs]]]]; reflexivity.
Qed.

Lemma JS_average_loop (data : list string) :
  forall (sum : F64.float64) (count : Z),
    fold_left JS.average_step data (sum, count)
    = (fold_left F64.add (JS.valid_values data) sum,
       count + Z.of_nat (List.length (JS.valid_values data))).
Proof.
  induction data as [|measurement rest IH]; intros sum count; cbn [fold_left JS.valid_values].
  - rewrite Z.add_0_r. reflexivity.
  - rewrite JS_average_step.
    destruct (JS.valid_value measurement) as [value|]; rewrite IH; [|reflexivity].
    cbn [fold_left List.length]. f_equal. lia.
Qed.

Lemma JS_average_of (sensorID : string) (data : list string) :
  data <> [] ->
  JS.getAverageMeasurement_of sensorID data
  = match JS.valid_values data with
    | [] => JS.Rejected (JS.mkError "No valid measurements found")
    | values => JS.Fulfilled (F64.mean values)
    end.
Proof.
  intros Hne. unfold JS.getAverageMeasurement_of.
  destruct data as [|r rs]; [congruence|].
  cbn [List.length Nat.eqb]. rewrite JS_average_loop.
  destruct (JS.valid_values (r :: rs)) as [|v vs]; [reflexivity|].
  cbn [List.length]. rewrite Z.add_0_l.
  destruct (Z.eqb_spec (Z.of_nat (S (List.length vs))) 0) as [H0|_]; [lia|].
  reflexivity.
Qed.

(** A record [key,timestamp,field] is valid in Go when [field] parses. *)
Lemma Go_valid_value_record (key timestamp field : string) :
  contains "," key = false ->
  contains "," timestamp = false ->
  contains "," field = false ->
  Go.valid_value (key ++ "," ++ timestamp ++ "," ++ field)
  = match Go.strconv_ParseFloat field with
    | Go.Ok value => Some value
    | Go.Err _ => None
    end.
Proof.
  intros Hk Ht Hf. unfold Go.valid_value.
  rewrite (Split_record key timestamp field Hk Ht Hf). reflexivity.
Qed.

Lemma JS_valid_value_record (key timestamp field : string) :
  contains "," key = false ->
  contains "," timestamp = false ->
  contains "," field = false ->
  JS.valid_value (key ++ "," ++ timestamp ++ "," ++ field)
  = Some (JS.parseFloat (Some field)).
Proof.
  intros Hk Ht Hf. unfold JS.valid_value, JS.split.
  pose proof (Split_record key timestamp field Hk Ht Hf) as Hs.
  unfold Go.strings_Split in Hs. rewrite Hs. reflexivity.
Qed.

End Average.

(** C4.  On a response that is not empty, [getAverageMeasurement] returns
    the arithmetic mean (the sum, from left to right, divided by the
    count) of the values of the valid records only: in Go the records with
    three fields whose third field [strconv.ParseFloat] accepts, in
    JavaScript the records with three fields.  A record that is not valid
    changes nothing.  Over two records whose values are ["10"] and ["20"]
    the result is exactly 15. *)
Theorem average_is_mean_of_valid_records :
  (forall (sensorID : string) (data : list string),
     data <> [] ->
     Go.valid_values data <> [] ->
     Go.GetAverageMeasurement_of sensorID data = Go.Ok (F64.mean (Go.valid_values data)))
  /\ (forall (sensorID : string) (data : list string),
        data <> [] ->
        JS.valid_values data <> [] ->
        JS.getAverageMeasurement_of sensorID data
        = JS.Fulfilled (F64.mean (JS.valid_values data)))
  /\ (forall (sensorID malformed : string) (before after : list string),
        Go.valid_value malformed = None ->
        (before ++ after)%list <> [] ->
        Go.GetAverageMeasurement_of sensorID (before ++ malformed :: after)%list
        = Go.GetAverageMeasurement_of sensorID (before ++ after)%list)
  /\ (forall (sensorID malformed : string) (before after : list string),
        JS.valid_value malformed = None ->
        (before ++ after)%list <> [] ->
        JS.getAverageMeasurement_of sensorID (before ++ malformed :: after)%list
        = JS.getAverageMeasurement_of sensorID (before ++ after)%list)
  /\ (forall sensorID key1 timestamp1 key2 timestamp2 : string,
        Bytes.contains "," key1 = false ->
        Bytes.contains "," timestamp1 = false ->
        Bytes.contains "," key2 = false ->
        Bytes.contains "," timestamp2 = false ->
        Go.GetAverageMeasurement_of sensorID
          [key1 ++ "," ++ timestamp1 ++ ",10"; key2 ++ "," ++ timestamp2 ++ ",20"]
        = Go.Ok (F64.of_Z 15)
        /\ JS.getAverageMeasurement_of sensorID
             [key1 ++ "," ++ timestamp1 ++ ",10"; key2 ++ "," ++ timestamp2 ++ ",20"]
           = JS.Fulfilled (F64.of_Z 15)).
Proof.
  assert (Hgo_app : forall a b, Go.valid_values (a ++ b)%list
                                = (Go.valid_values a ++ Go.valid_values b)%list).
  { intros a b. induction a as [|r a IH]; [reflexivity|]. cbn [app Go.valid_values].
    destruct (Go.valid_value r); rewrite IH; reflexivity. }
  assert (Hjs_app : forall a b, JS.valid_values (a ++ b)%list
                                = (JS.valid_values a ++ JS.valid_values b)%list).
  { intros a b. induction a as [|r a IH]; [reflexivity|]. cbn [app JS.valid_values].
    destruct (JS.valid_value r); rewrite IH; reflexivity. }
  repeat match goal with |- _ /\ _ => split end.
  - intros sensorID data Hne Hvalid. rewrite (Go_average_of sensorID data Hne).
    destruct (Go.valid_values data); [congruence | reflexivity].
  - intros sensorID data Hne Hvalid. rewrite (JS_average_of sensorID data Hne).
    destruct (JS.valid_values data); [congruence | reflexivity].
  - intros sensorID malformed before after Hbad Hne.
    rewrite !Go_average_of; [|exact Hne|destruct before; discriminate].
    rewrite !Hgo_app. cbn [Go.valid_values]. rewrite Hbad. reflexivity.
  - intros sensorID malformed before after Hbad Hne.
    rewrite !JS_average_of; [|exact Hne|destruct before; discriminate].
    rewrite !Hjs_app. cbn [JS.valid_values]. rewrite Hbad. reflexivity.
  - intros sensorID key1 timestamp1 key2 timestamp2 Hk1 Ht1 Hk2 Ht2.
    change (key1 ++ "," ++ timestamp1 ++ ",10")
      with (key1 ++ "," ++ timestamp1 ++ "," ++ "10").
    change (key2 ++ "," ++ timestamp2 ++ ",20")
      with (key2 ++ "," ++ timestamp2 ++ "," ++ "20").
    split.
    + rewrite Go_average_of by discriminate. cbn [Go.valid_values].
      rewrite !Go_valid_value_record by (assumption || reflexivity).
      vm_compute. reflexivity.
    + rewrite JS_average_of by discriminate. cbn [JS.valid_values].
      rewrite !JS_valid_value_record by (assumption || reflexivity).
      vm_compute. reflexivity.
Qed.

(** The average of ["a,1,10"], a malformed record and ["b,2,20"] is 15,
    in Go and in JavaScript. *)
Lemma average_is_mean_of_valid_records_witness :
  Go.GetAverageMeasurement_of "s" ["a,1,10"; "garbage"; "b,2,20"]
  = Go.Ok (S754_finite false 8444249301319680 (-49))
  /\ JS.getAverageMeasurement_of "s" ["a,1,10"; "garbage"; "b,2,20"]
     = JS.Fulfilled (S754_finite false 8444249301319680 (-49)).
Proof.
  destruct average_is_mean_of_valid_records as (Hgo & Hjs & Hgo_skip & Hjs_skip & H15).
  split.
  - refine (eq_trans (Hgo_skip "s" "garbage" ["a,1,10"] ["b,2,20"] _ _) _).
    + reflexivity.
    + discriminate.
    + exact (proj1 (H15 "s" "a" "1" "b" "2" eq_refl eq_refl eq_refl eq_refl)).
  - refine (eq_trans (Hjs_skip "s" "garbage" ["a,1,10"] ["b,2,20"] _ _) _).
    + reflexivity.
    + discriminate.
    + exact (proj2 (H15 "s" "a" "1" "b" "2" eq_refl eq_refl eq_refl eq_refl)).
Defined.

(** The scenario of the protocol: the server answers the query for
    sensor1 with the one record written before; the average is 25.5. *)
Example average_of_one_record :
  Go.GetAverageMeasurement 1700000100
    {| Go.conn := {| Go.tcp_closed := false; Go.tcp_sent := "";
                     Go.tcp_inbound := ["sensor1,1700000000,25.50" ++ Go.newline] |} |}
    "sensor1" Go.Hour
  = ({| Go.conn := {| Go.tcp_closed := false;
                      Go.tcp_sent := "sensor1,1699996500,1700000100,0" ++ Go.newline;
                      Go.tcp_inbound := [] |} |},
     Go.Ok (S754_finite false 7177611906121728 (-48))).
Proof. vm_compute. reflexivity. Qed.

(** Closes a goal that follows from the shape of the results at hand. *)
Ltac settle :=
  match goal with
  | H : exists _, _ |- _ => destruct H as [? H]; settle
  | H : _ /\ _ |- _ => destruct H as [? ?]; settle
  | |- _ /\ _ => split; settle
  | |- exists _, _ => eexists; reflexivity
  | _ => first [ reflexivity | discriminate | congruence
               | simpl in *; discriminate | simpl in *; congruence ]
  end.

Ltac three_iffs :=
  split; [split; intros H; settle | split; split; intros H; settle].

(** C5.  In Go and in JavaScript, [getAverageMeasurement] fails with "no
    valid measurements found" exactly when the response is not empty and
    none of its records is valid, with the "no data found" error exactly
    when the response is empty, and returns a number otherwise.  The R
    driver has no such failure: on the response ["garbage"], whose one
    record is malformed, it returns [NaN]. *)
Theorem average_failures :
  (forall (sensorID : string) (data : list string),
     (Go.GetAverageMeasurement_of sensorID data
      = Go.Err (Go.Errorf "no valid measurements found")
      <-> data <> [] /\ Go.valid_values data = [])
     /\ (Go.GetAverageMeasurement_of sensorID data
         = Go.Err (Go.Errorf ("no data found for sensor " ++ sensorID
                                ++ " in the specified time range"))
         <-> data = [])
     /\ ((exists value, Go.GetAverageMeasurement_of sensorID data = Go.Ok value)
         <-> data <> [] /\ Go.valid_values data <> []))
  /\ (forall (sensorID : string) (data : list string),
        (JS.getAverageMeasurement_of sensorID data
         = JS.Rejected (JS.mkError "No valid measurements found")
         <-> data <> [] /\ JS.valid_values data = [])
        /\ (JS.getAverageMeasurement_of sensorID data
            = JS.Rejected (JS.mkError ("No data found for sensor " ++ sensorID
                                         ++ " in the specified time range"))
            <-> data = [])
        /\ ((exists value, JS.getAverageMeasurement_of sensorID data = JS.Fulfilled value)
            <-> data <> [] /\ JS.valid_values data <> []))
  /\ (forall (as_numeric : string -> R.numeric)
             (mean_nonempty : list F64.float64 -> F64.float64),
        R.getAverageMeasurement_of as_numeric mean_nonempty "sensor1" ["garbage"]
        = R.Value (Some F64.nan)).
Proof.
  split; [|split].
  - intros sensorID data. destruct data as [|r rs].
    + three_iffs.
    + rewrite (Go_average_of sensorID (r :: rs)) by discriminate.
      destruct (Go.valid_values (r :: rs)) as [|v vs];
        three_iffs.
  - intros sensorID data. destruct data as [|r rs].
    + three_iffs.
    + rewrite (JS_average_of sensorID (r :: rs)) by discriminate.
      destruct (JS.valid_values (r :: rs)) as [|v vs];
        three_iffs.
  - intros as_numeric mean_nonempty. reflexivity.
Qed.

(** ** The downsampling of the history query *)

Lemma decimal_Z_not_zero (z : Z) : 1 <= z -> Bytes.decimal_Z z <> "0".
Proof.
  intros Hz Heq. destruct z as [|p|p]; try lia.
  unfold Bytes.decimal_Z in Heq.
  pose proof (BytesFacts.decimal_value (Z.to_N (Z.pos p))) as Hval.
  rewrite Heq in Hval. discriminate Hval.
Qed.

Lemma tcp_ReadString_sent (c : Go.TCPConn) :
  Go.tcp_sent (fst (Go.tcp_ReadString c)) = Go.tcp_sent c.
Proof.
  unfold Go.tcp_ReadString. destruct (Go.tcp_closed c); [reflexivity|].
  destruct (Go.tcp_read_line _ _) as [[line segs]|]; reflexivity.
Qed.

(** What an open TCP connection has been sent after [ReadData]. *)
Lemma ReadData_sent (c : Go.TSDBClient Go.TCPConn) (key : string)
    (startTime endTime downsampling : Z) :
  Go.tcp_closed (Go.conn c) = false ->
  Go.tcp_sent (Go.conn (fst (Go.ReadData c key startTime endTime downsampling)))
  = Go.tcp_sent (Go.conn c) ++ Go.ReadData_line key startTime endTime downsampling.
Proof.
  intros Hopen. unfold Go.ReadData, Go.Fprintf.
  cbn [Go.conn_Write Go.conn_ReadString Go.TCPConn_NetConn].
  unfold Go.tcp_Write. rewrite Hopen. cbn [Go.conn].
  match goal with
  | |- context [Go.tcp_ReadString ?x] =>
      pose proof (tcp_ReadString_sent x) as Hsent;
      destruct (Go.tcp_ReadString x) as [cn [response|err]]
  end; cbn [fst Go.conn Go.tcp_sent] in *; exact Hsent.
Qed.

(** C6.  [getMeasurementHistory] sends [max(1, intervalSeconds)] as the
    downsampling of its query line, so never 0, and 1 for an interval of 0.
    In Go the argument is a [time.Duration] and [intervalSeconds] is
    [int(interval.Seconds())]; in PHP and in R it is a number of
    seconds. *)
Theorem history_downsampling_at_least_one :
  (forall interval : Z,
     Go.downsamplingSeconds interval
     = Z.max 1 (Go.int64_of_float (Go.Duration_Seconds interval))
     /\ 1 <= Go.downsamplingSeconds interval
     /\ Go.fmt_d (Go.downsamplingSeconds interval) <> "0")
  /\ Go.downsamplingSeconds 0 = 1
  /\ (forall (c : Go.TSDBClient Go.TCPConn) (sensorID : string)
             (startTime endTime interval : Z),
        Go.tcp_closed (Go.conn c) = false ->
        Go.tcp_sent
          (Go.conn (fst (Go.GetMeasurementHistory c sensorID startTime endTime interval)))
        = Go.tcp_sent (Go.conn c)
            ++ sensorID ++ "," ++ Go.fmt_d startTime ++ "," ++ Go.fmt_d endTime ++ ","
            ++ Go.fmt_d (Z.max 1 (Go.int64_of_float (Go.Duration_Seconds interval)))
            ++ Go.newline)
  /\ (forall (sensorID : string) (startTimestamp endTimestamp intervalSeconds : Z),
        PHP.getMeasurementHistory_query sensorID startTimestamp endTimestamp intervalSeconds
        = sensorID ++ "," ++ Bytes.decimal_Z startTimestamp ++ ","
            ++ Bytes.decimal_Z endTimestamp ++ ","
            ++ Bytes.decimal_Z (Z.max 1 intervalSeconds) ++ PHP.newline
        /\ Bytes.decimal_Z (Z.max 1 intervalSeconds) <> "0")
  /\ PHP.getMeasurementHistory_query "s" 5 9 0 = "s,5,9,1" ++ PHP.newline
  /\ (forall (as_character : Z -> string) (sensorID : string)
             (startTimestamp endTimestamp intervalSeconds : Z),
        R.getMeasurementHistory_query as_character sensorID
          startTimestamp endTimestamp intervalSeconds
        = sensorID ++ "," ++ as_character startTimestamp ++ ","
            ++ as_character endTimestamp ++ ","
            ++ as_character (Z.max 1 intervalSeconds)
        /\ 1 <= Z.max 1 intervalSeconds).
Proof.
  assert (Hgo : forall interval,
             Go.downsamplingSeconds interval
             = Z.max 1 (Go.int64_of_float (Go.Duration_Seconds interval))).
  { intros interval. unfold Go.downsamplingSeconds.
    destruct (Z.ltb_spec (Go.int64_of_float (Go.Duration_Seconds interval)) 1); lia. }
  split; [|split; [|split; [|split; [|split]]]].
  - intros interval. split; [apply Hgo|]. split.
    + rewrite Hgo. lia.
    + apply decimal_Z_not_zero. rewrite Hgo. lia.
  - reflexivity.
  - intros c sensorID startTime endTime interval Hopen.
    rewrite <- Hgo. unfold Go.GetMeasurementHistory.
    pose proof (ReadData_sent c sensorID startTime endTime
                  (Go.downsamplingSeconds interval) Hopen) as Hsent.
    destruct (Go.ReadData c sensorID startTime endTime _) as [c1 [data|err]];
      exact Hsent.
  - intros sensorID startTimestamp endTimestamp intervalSeconds.
    split; [reflexivity|]. apply decimal_Z_not_zero. lia.
  - reflexivity.
  - intros as_character sensorID startTimestamp endTimestamp intervalSeconds.
    split; [reflexivity | lia].
Qed.

(** On an open connection, the history of sensor1 asked with an interval
    of 0 goes out with downsampling 1. *)
Lemma history_downsampling_at_least_one_witness :
  Go.tcp_sent
    (Go.conn (fst (Go.GetMeasurementHistory
                     {| Go.conn := {| Go.tcp_closed := false; Go.tcp_sent := "";
                                      Go.tcp_inbound := [] |} |}
                     "sensor1" 1700000000 1700003600 0)))
  = "sensor1,1700000000,1700003600,1" ++ Go.newline.
Proof.
  destruct history_downsampling_at_least_one as (_ & _ & Hsent & _).
  exact (Hsent {| Go.conn := {| Go.tcp_closed := false; Go.tcp_sent := "";
                                Go.tcp_inbound := [] |} |}
               "sensor1" 1700000000 1700003600 0 eq_refl).
Defined.

(** ** Closing *)

(** C8 (as amended).  After [close] the connection is closed, in every
    driver, and closing an open connection succeeds.  Closing again leaves
    the state as it is, but is not a no-op that succeeds everywhere: the Go
    driver returns what the connection's [Close] returns, which for a
    connection already closed is the error "use of closed network
    connection", and the PHP driver throws (as it does for a connection
    never opened).  The promise of the JavaScript driver cannot fail: once
    the socket has finished it is fulfilled and [connected] is false, the
    second time as the first. *)
Theorem close_leaves_closed :
  (forall c : Go.TSDBClient Go.TCPConn,
     Go.tcp_closed (Go.conn (fst (Go.Close c))) = true
     /\ (snd (Go.Close c) = None <-> Go.tcp_closed (Go.conn c) = false)
     /\ (snd (Go.Close c) = Some Go.ErrNetClosing <-> Go.tcp_closed (Go.conn c) = true)
     /\ Go.Close (fst (Go.Close c)) = (fst (Go.Close c), Some Go.ErrNetClosing))
  /\ (forall (C : Type) (NC : Go.NetConn C) (c : Go.TSDBClient C),
        snd (Go.Close c) = snd (Go.conn_Close (Go.conn c))
        /\ Go.conn (fst (Go.Close c)) = fst (Go.conn_Close (Go.conn c)))
  /\ (forall (c : JS.TSDBClient) (finished : bool),
        snd (JS.close true c) = Some (JS.Fulfilled tt)
        /\ JS.connected (fst (JS.close true c)) = false
        /\ JS.close true (fst (JS.close true c))
           = (fst (JS.close true c), Some (JS.Fulfilled tt))
        /\ (forall e, snd (JS.close finished c) <> Some (JS.Rejected e))
        /\ JS.write_error (JS.socket (fst (JS.close finished c))) <> None)
  /\ (forall c : PHP.TSDBClient,
        match PHP.close c with
        | inl c' => PHP.socket c = PHP.OpenSocket /\ PHP.socket c' = PHP.ClosedSocket
        | inr _ => PHP.socket c <> PHP.OpenSocket
        end).
Proof.
  split; [|split; [|split]].
  - intros [[closed sent inbound]]. unfold Go.Close.
    cbn [Go.conn_Close Go.TCPConn_NetConn Go.conn]. unfold Go.tcp_Close.
    cbn [Go.tcp_closed]. destruct closed; cbn; repeat split; intros H;
      reflexivity || discriminate.
  - intros C NC c. unfold Go.Close.
    destruct (Go.conn_Close (Go.conn c)) as [cn err]. split; reflexivity.
  - intros [connected [write_error written listeners] next] finished.
    unfold JS.close. cbn. repeat split.
    + destruct write_error; reflexivity.
    + intros e. destruct finished; discriminate.
    + destruct finished, write_error; discriminate.
  - intros [[| |] sent]; cbn; [discriminate | split; reflexivity | discriminate].
Qed.

(** Closing a connection that is closed already returns the error. *)
Lemma close_leaves_closed_witness :
  snd (Go.Close {| Go.conn := {| Go.tcp_closed := true; Go.tcp_sent := "";
                                 Go.tcp_inbound := [] |} |})
  = Some Go.ErrNetClosing.
Proof.
  destruct close_leaves_closed as (Hgo & _).
  destruct (Hgo {| Go.conn := {| Go.tcp_closed := true; Go.tcp_sent := "";
                                 Go.tcp_inbound := [] |} |})
    as (_ & _ & Herr & _).
  apply Herr. reflexivity.
Defined.

(** C8 as stated fails in the Go driver: the second [Close] of a
    connection returns an error. *)
Lemma close_twice_counterexample :
  let c := {| Go.conn := {| Go.tcp_closed := false; Go.tcp_sent := "";
                            Go.tcp_inbound := [] |} |} in
  snd (Go.Close c) = None
  /\ snd (Go.Close (fst (Go.Close c)))
     = Some (Go.NetError "use of closed network connection").
Proof. split; reflexivity. Qed.

(** ** Subscriptions *)

(** C9 (as amended).  The drivers keep no set of subscribed keys:
    [subscribe] and [unsubscribe] write their control line and change
    nothing else.  On a connection that can be written to, unsubscribing a
    key sends ["unsubscribe,key\n"] without error, whether the key was
    subscribed or not, and subscribing then unsubscribing leaves the two
    control lines sent, in this order. *)
Theorem subscribe_only_writes :
  (forall (c : Go.TSDBClient Go.TCPConn) (key : string),
     Go.tcp_closed (Go.conn c) = false ->
     Go.Subscribe c key
     = ({| Go.conn := {| Go.tcp_closed := false;
                         Go.tcp_sent := Go.tcp_sent (Go.conn c)
                                          ++ "subscribe," ++ key ++ Go.newline;
                         Go.tcp_inbound := Go.tcp_inbound (Go.conn c) |} |}, None)
     /\ Go.Unsubscribe c key
        = ({| Go.conn := {| Go.tcp_closed := false;
                            Go.tcp_sent := Go.tcp_sent (Go.conn c)
                                             ++ "unsubscribe," ++ key ++ Go.newline;
                            Go.tcp_inbound := Go.tcp_inbound (Go.conn c) |} |}, None)
     /\ Go.Unsubscribe (fst (Go.Subscribe c key)) key
        = ({| Go.conn := {| Go.tcp_closed := false;
                            Go.tcp_sent := (Go.tcp_sent (Go.conn c)
                                              ++ "subscribe," ++ key ++ Go.newline)
                                             ++ "unsubscribe," ++ key ++ Go.newline;
                            Go.tcp_inbound := Go.tcp_inbound (Go.conn c) |} |}, None))
  /\ (forall (c : JS.TSDBClient) (key : string),
        JS.write_error (JS.socket c) = None ->
        JS.subscribe c key
        = ({| JS.connected := JS.connected c;
              JS.socket := {| JS.write_error := None;
                              JS.written := JS.written (JS.socket c)
                                              ++ "subscribe," ++ key ++ JS.newline;
                              JS.data_listeners := JS.data_listeners (JS.socket c) |};
              JS.next_query := JS.next_query c |}, JS.Fulfilled tt)
        /\ JS.unsubscribe c key
           = ({| JS.connected := JS.connected c;
                 JS.socket := {| JS.write_error := None;
                                 JS.written := JS.written (JS.socket c)
                                                 ++ "unsubscribe," ++ key ++ JS.newline;
                                 JS.data_listeners := JS.data_listeners (JS.socket c) |};
                 JS.next_query := JS.next_query c |}, JS.Fulfilled tt)).
Proof.
  split.
  - intros [[closed sent inbound]] key Hopen. cbn [Go.conn Go.tcp_closed] in Hopen.
    subst closed. repeat split.
  - intros [connected [write_error written listeners] next] key Hw.
    cbn [JS.socket JS.write_error] in Hw. subst write_error. split; reflexivity.
Qed.

(** Subscribing to sensor1 and unsubscribing at once, on a fresh open
    connection. *)
Lemma subscribe_only_writes_witness :
  Go.Unsubscribe
    (fst (Go.Subscribe
            {| Go.conn := {| Go.tcp_closed := false; Go.tcp_sent := "";
                             Go.tcp_inbound := [] |} |} "sensor1")) "sensor1"
  = ({| Go.conn := {| Go.tcp_closed := false;
                      Go.tcp_sent := "subscribe,sensor1" ++ Go.newline
                                       ++ "unsubscribe,sensor1" ++ Go.newline;
                      Go.tcp_inbound := [] |} |}, None).
Proof.
  destruct subscribe_only_writes as [Hgo _].
  exact (proj2 (proj2 (Hgo {| Go.conn := {| Go.tcp_closed := false; Go.tcp_sent := "";
                                            Go.tcp_inbound := [] |} |}
                           "sensor1" eq_refl))).
Defined.

(** C9 as stated fails.  Unsubscribing a key that was never subscribed is
    not a no-op: the control line is written; and on a closed connection it
    is an error.  After subscribing and unsubscribing, the client is not
    back in the state it started from. *)
Lemma unsubscribe_counterexample :
  let c := {| Go.conn := {| Go.tcp_closed := false; Go.tcp_sent := "";
                            Go.tcp_inbound := [] |} |} in
  let closed := {| Go.conn := {| Go.tcp_closed := true; Go.tcp_sent := "";
                                 Go.tcp_inbound := [] |} |} in
  Go.tcp_sent (Go.conn (fst (Go.Unsubscribe c "k"))) = "unsubscribe,k" ++ Go.newline
  /\ fst (Go.Unsubscribe c "k") <> c
  /\ fst (Go.Unsubscribe (fst (Go.Subscribe c "k")) "k") <> c
  /\ snd (Go.Unsubscribe closed "k") = Some Go.ErrNetClosing.
Proof. repeat split; discriminate. Qed.

(** ** Inbound chunks (JavaScript) *)

Section Routing.

Lemma filter_not_once_in (callback : nat) (ls : list JS.listener) :
  In (JS.OnData callback) (filter (fun l => negb (JS.is_once l)) ls)
  <-> In (JS.OnData callback) ls.
Proof.
  rewrite filter_In. split; [intros [H _]; exact H | intros H; split; [exact H | reflexivity]].
Qed.

Lemma filter_not_once_none (ls : list JS.listener) :
  existsb JS.is_once (filter (fun l => negb (JS.is_once l)) ls) = false.
Proof.
  induction ls as [|l ls IH]; [reflexivity|].
  destruct l as [query|callback]; cbn; exact IH.
Qed.

(** Every effect of a chunk comes from a listener. *)
Lemma effect_origin (data : string) (ls : list JS.listener) (e : JS.effect) :
  In e (flat_map (JS.run_listener data) ls) ->
  (exists query,
     e = JS.Resolve query (JS.readData_decode data) /\ In (JS.OnceData query) ls)
  \/ (exists callback message,
        e = JS.Invoke callback (JS.decodePushLine message)
        /\ In (JS.OnData callback) ls /\ In message (JS.messages data)).
Proof.
  intros Hin. apply in_flat_map in Hin as (l & Hl & He).
  destruct l as [query|callback]; cbn [JS.run_listener] in He.
  - left. destruct He as [<-|[]]. exists query. split; [reflexivity | exact Hl].
  - right. apply in_map_iff in He as (message & <- & Hm).
    exists callback, message. repeat split; assumption.
Qed.

End Routing.

(** C1 (as amended).  A chunk the socket emits goes to every ['data']
    listener registered, whether a query is in flight or not.  Every query
    in flight is resolved with the chunk (trimmed and split on ['|']) and
    no query is in flight afterwards; every subscription callback stays
    registered and is called with the point decoded from each line of the
    chunk.  Nothing else happens.  So with no query in flight the chunk
    goes to the subscription callbacks only, and with no subscription
    callback registered it goes to the waiting callers only. *)
Theorem emit_data_reaches_every_listener (c : JS.TSDBClient) (data : string) :
  let listeners := JS.data_listeners (JS.socket c) in
  let c' := fst (JS.emit_data c data) in
  let effects := snd (JS.emit_data c data) in
  (forall query,
     In (JS.OnceData query) listeners ->
     In (JS.Resolve query (JS.readData_decode data)) effects)
  /\ JS.in_flight c' = false
  /\ (forall callback,
        In (JS.OnData callback) (JS.data_listeners (JS.socket c'))
        <-> In (JS.OnData callback) listeners)
  /\ (forall callback message,
        In (JS.OnData callback) listeners ->
        In message (JS.messages data) ->
        In (JS.Invoke callback (JS.decodePushLine message)) effects)
  /\ (forall e,
        In e effects ->
        (exists query,
           e = JS.Resolve query (JS.readData_decode data)
           /\ In (JS.OnceData query) listeners)
        \/ (exists callback message,
              e = JS.Invoke callback (JS.decodePushLine message)
              /\ In (JS.OnData callback) listeners /\ In message (JS.messages data)))
  /\ (JS.in_flight c = false ->
      forall e, In e effects -> exists callback point, e = JS.Invoke callback point)
  /\ ((forall callback, ~ In (JS.OnData callback) listeners) ->
      forall e, In e effects ->
                exists query, e = JS.Resolve query (JS.readData_decode data)).
Proof.
  intros listeners c' effects. subst c' effects. unfold JS.emit_data. cbn [fst snd].
  fold listeners. repeat match goal with |- _ /\ _ => split end.
  - intros query Hq. apply in_flat_map. exists (JS.OnceData query).
    split; [exact Hq | left; reflexivity].
  - unfold JS.in_flight, JS.with_socket. cbn [JS.socket JS.data_listeners].
    apply filter_not_once_none.
  - intros callback. unfold JS.with_socket. cbn [JS.socket JS.data_listeners].
    apply filter_not_once_in.
  - intros callback message Hcb Hm. apply in_flat_map. exists (JS.OnData callback).
    split; [exact Hcb|]. cbn [JS.run_listener]. apply in_map_iff.
    exists message. split; [reflexivity | exact Hm].
  - intros e. apply effect_origin.
  - intros Hidle e He. apply effect_origin in He as [(query & _ & Hq)|(cb & m & -> & _)].
    + unfold JS.in_flight in Hidle. fold listeners in Hidle.
      assert (Hex : existsb JS.is_once listeners = true).
      { apply existsb_exists. exists (JS.OnceData query). split; [exact Hq | reflexivity]. }
      congruence.
    + eexists. eexists. reflexivity.
  - intros Hnone e He. apply effect_origin in He as [(query & -> & _)|(cb & m & _ & Hcb & _)].
    + exists query. reflexivity.
    + exfalso. exact (Hnone cb Hcb).
Qed.

(** A subscription callback and a query in flight: the chunk reaches
    both. *)
Lemma emit_data_reaches_every_listener_witness :
  let c := {| JS.connected := true;
              JS.socket := {| JS.write_error := None; JS.written := "";
                              JS.data_listeners := [JS.OnData 0; JS.OnceData 0] |};
              JS.next_query := 1 |} in
  In (JS.Resolve 0 (JS.readData_decode ("k,1,2" ++ JS.newline)))
     (snd (JS.emit_data c ("k,1,2" ++ JS.newline)))
  /\ In (JS.Invoke 0 (JS.decodePushLine "k,1,2"))
        (snd (JS.emit_data c ("k,1,2" ++ JS.newline))).
Proof.
  intros c.
  destruct (emit_data_reaches_every_listener c ("k,1,2" ++ JS.newline))
    as (Hquery & _ & _ & Hcallback & _).
  split.
  - apply Hquery. right. left. reflexivity.
  - apply Hcallback; left; reflexivity.
Defined.

(** The state of the counterexample below is the one the driver is in
    after [connect], [onSubscriptionData] and [readData]. *)
Lemma subscription_then_query_listeners (Number_toString : F64.float64 -> string)
    (key : string) (startTime endTime downsampling : F64.float64) :
  let c := JS.onSubscriptionData (fst (JS.connect None JS.new_TSDBClient)) 0 in
  let '(c', query, err) := JS.readData Number_toString c key startTime endTime downsampling in
  JS.data_listeners (JS.socket c') = [JS.OnData 0; JS.OnceData 0]
  /\ query = 0%nat /\ err = None /\ JS.connected c' = true.
Proof. cbn. repeat split. Qed.

(** C1 as stated fails.  With a subscription callback registered and a
    query in flight, the chunk is delivered to the subscription callback
    as well as to the caller waiting on the query. *)
Lemma chunk_in_flight_counterexample :
  let c := {| JS.connected := true;
              JS.socket := {| JS.write_error := None; JS.written := "";
                              JS.data_listeners := [JS.OnData 0; JS.OnceData 0] |};
              JS.next_query := 1 |} in
  JS.in_flight c = true
  /\ snd (JS.emit_data c ("k,1,2" ++ JS.newline))
     = [JS.Invoke 0 (JS.decodePushLine "k,1,2"); JS.Resolve 0 ["k,1,2"]].
Proof. split; reflexivity. Qed.

(** ** Push lines (JavaScript) *)




(* ===================================================================== *)
(** * Part III: further properties of the drivers                         *)
(* ===================================================================== *)

(** ** Responses made of written records (Go) *)

Module ResponseFacts.

Import Bytes BytesFacts GoFacts.

Lemma plain_key_spec (key : string) :
  Go.plain_key key = true ->
  contains "," key = false /\ contains "|" key = false /\ Go.leading_space key = false.
Proof.
  unfold Go.plain_key. intros H.
  apply andb_true_iff in H as [H Hlead]. apply andb_true_iff in H as [Hcomma Hbar].
  apply negb_true_iff in Hlead, Hcomma, Hbar. repeat split; assumption.
Qed.

Lemma plain_record_spec (key : string) (timestamp : Z) (value : F64.float64) :
  Go.plain_record (key, timestamp, value) = true ->
  Go.plain_key key = true
  /\ Go.minInt64 <= timestamp <= Go.maxInt64
  /\ F64.is_binary64 value = true.
Proof.
  unfold Go.plain_record. intros H.
  apply andb_true_iff in H as [H Hvalue]. apply andb_true_iff in H as [H Hmax].
  apply andb_true_iff in H as [Hkey Hmin].
  apply Z.leb_le in Hmin, Hmax. repeat split; assumption.
Qed.

Lemma record_text_no_bar (r : string * Z * F64.float64) :
  Go.plain_record r = true -> contains "|" (Go.record_text r) = false.
Proof.
  destruct r as [[key timestamp] value]. intros Hr.
  apply plain_record_spec in Hr as (Hkey & _ & _).
  apply plain_key_spec in Hkey as (_ & Hbar & _).
  unfold Go.record_text. rewrite !contains_app, Hbar.
  rewrite (fmt_d_no "|" timestamp eq_refl), (fmt_2f_no "|" value eq_refl).
  reflexivity.
Qed.

Lemma record_text_last (r : string * Z * F64.float64) :
  exists body last, Go.record_text r = body ++ String last "" /\ printable last = true.
Proof.
  destruct r as [[key timestamp] value].
  destruct (fmt_2f_last value) as (body & last & Hfmt & Hlast).
  exists (key ++ "," ++ Go.fmt_d timestamp ++ "," ++ body), last.
  split; [|exact Hlast]. unfold Go.record_text.
  rewrite Hfmt, !append_assoc. reflexivity.
Qed.

Lemma record_text_leading (r : string * Z * F64.float64) (rest : string) :
  Go.plain_record r = true -> Go.leading_space (Go.record_text r ++ rest) = false.
Proof.
  destruct r as [[key timestamp] value]. intros Hr.
  apply plain_record_spec in Hr as (Hkey & _ & _).
  apply plain_key_spec in Hkey as (_ & _ & Hlead).
  unfold Go.record_text. rewrite !append_assoc.
  change (Go.leading_space
            (key ++ String "," (Go.fmt_d timestamp ++ "," ++ Go.fmt_2f value ++ rest))
          = false).
  apply strip_first_within; [|exact Hlead].
  apply (printable_in_no_rune ","). reflexivity.
Qed.

Lemma join_records_cons (text : string) (texts : list string) :
  texts <> [] ->
  Go.join_records (text :: texts) = text ++ String "|" (Go.join_records texts).
Proof. destruct texts as [|t texts]; [congruence | reflexivity]. Qed.

(** Splitting the joined records on ['|'] gives the records back. *)
Lemma join_records_split (texts : list string) :
  texts <> [] ->
  Forall (fun text => contains "|" text = false) texts ->
  Go.strings_Split (Go.join_records texts) "|" = texts.
Proof.
  unfold Go.strings_Split.
  induction texts as [|text texts IH]; [congruence|]. intros _ Hall.
  inversion Hall as [|? ? Htext Hrest]; subst.
  destruct texts as [|t texts].
  - cbn [Go.join_records]. apply split_no_sep, Htext.
  - rewrite join_records_cons by discriminate.
    rewrite (split_app_sep _ _ _ Htext), IH; [reflexivity | discriminate | exact Hrest].
Qed.

Lemma join_records_last (texts : list string) :
  texts <> [] ->
  Forall (fun text => exists body last,
                        text = body ++ String last "" /\ printable last = true) texts ->
  exists body last,
    Go.join_records texts = body ++ String last "" /\ printable last = true.
Proof.
  induction texts as [|text texts IH]; [congruence|]. intros _ Hall.
  inversion Hall as [|? ? Htext Hrest]; subst.
  destruct texts as [|t texts].
  - exact Htext.
  - destruct IH as (body & last & Hjoin & Hlast); [discriminate | exact Hrest |].
    exists (text ++ String "|" body), last. split; [|exact Hlast].
    rewrite join_records_cons by discriminate.
    rewrite Hjoin, append_assoc. reflexivity.
Qed.

Lemma join_records_head (text : string) (texts : list string) :
  exists rest, Go.join_records (text :: texts) = text ++ rest.
Proof.
  destruct texts as [|t texts].
  - exists "". cbn [Go.join_records]. symmetry. apply append_empty_r.
  - eexists. apply join_records_cons. discriminate.
Qed.

(** What [ReadData] makes of a response line that carries written
    records: the records, one string each. *)
Lemma ReadData_decode_response_line (records : list (string * Z * F64.float64)) :
  records <> [] ->
  forallb Go.plain_record records = true ->
  Go.ReadData_decode (Go.response_line records) = map Go.record_text records.
Proof.
  intros Hne Hall. rewrite forallb_forall in Hall.
  assert (Htexts : map Go.record_text records <> []).
  { destruct records; [congruence | discriminate]. }
  destruct (join_records_last (map Go.record_text records) Htexts)
    as (body & last & Hjoin & Hlast).
  { apply Forall_forall. intros text Hin. apply in_map_iff in Hin as (r & <- & _).
    apply record_text_last. }
  unfold Go.ReadData_decode, Go.response_line.
  assert (Hline : Go.join_records (map Go.record_text records) ++ Go.newline
                  = body ++ String last Go.newline).
  { rewrite Hjoin, append_assoc. reflexivity. }
  rewrite Hline, TrimSpace_line.
  - rewrite <- Hjoin. apply join_records_split; [exact Htexts|].
    apply Forall_forall. intros text Hin. apply in_map_iff in Hin as (r & <- & Hr).
    apply record_text_no_bar, Hall, Hr.
  - rewrite <- Hline. destruct records as [|r records]; [congruence|].
    cbn [map]. destruct (join_records_head (Go.record_text r) (map Go.record_text records))
      as [rest ->].
    rewrite append_assoc. apply record_text_leading, Hall. left. reflexivity.
  - exact Hlast.
Qed.

Lemma Split_record_text (key : string) (timestamp : Z) (value : F64.float64) :
  Go.plain_record (key, timestamp, value) = true ->
  Go.strings_Split (Go.record_text (key, timestamp, value)) ","
  = [key; Go.fmt_d timestamp; Go.fmt_2f value].
Proof.
  intros Hr. apply plain_record_spec in Hr as (Hkey & _ & _).
  apply plain_key_spec in Hkey as (Hcomma & _ & _).
  apply Split_record;
    [exact Hcomma | apply (fmt_d_no ","); reflexivity | apply (fmt_2f_no ","); reflexivity].
Qed.

(** A float64 that [%.2f] has printed is parsed back. *)
Lemma ParseFloat_written (value : F64.float64) :
  F64.is_binary64 value = true ->
  Go.strconv_ParseFloat (Go.fmt_2f value) = Go.Ok (Go.two_decimals value).
Proof.
  intros Hvalid. rewrite ParseFloatFacts.ParseFloat_fmt_2f.
  destruct (F64.is_finite value) eqn:Hfinite; [|reflexivity].
  rewrite (RoundFacts.two_decimals_not_infinite value Hvalid Hfinite). reflexivity.
Qed.

Lemma history_step_record_text (history : list (Z * F64.float64))
    (key : string) (timestamp : Z) (value : F64.float64) :
  Go.plain_record (key, timestamp, value) = true ->
  Go.history_step history (Go.record_text (key, timestamp, value))
  = (history ++ [(timestamp, Go.two_decimals value)])%list.
Proof.
  intros Hr. unfold Go.history_step. rewrite (Split_record_text _ _ _ Hr).
  apply plain_record_spec in Hr as (_ & Hrange & Hvalid).
  cbn [List.length Nat.eqb negb nth].
  rewrite (ParseInt_fmt_d timestamp Hrange), (ParseFloat_written value Hvalid).
  reflexivity.
Qed.

Lemma history_of_record_texts (records : list (string * Z * F64.float64)) :
  forall history : list (Z * F64.float64),
    forallb Go.plain_record records = true ->
    fold_left Go.history_step (map Go.record_text records) history
    = (history ++ map (fun r => (snd (fst r), Go.two_decimals (snd r))) records)%list.
Proof.
  induction records as [|[[key timestamp] value] records IH]; intros history Hall.
  - cbn [map fold_left]. symmetry. apply app_nil_r.
  - cbn [forallb] in Hall. apply andb_true_iff in Hall as [Hr Hrest].
    cbn [map fold_left fst snd].
    rewrite (history_step_record_text history key timestamp value Hr), (IH _ Hrest).
    rewrite <- app_assoc. reflexivity.
Qed.

Lemma valid_value_record_text (key : string) (timestamp : Z) (value : F64.float64) :
  Go.plain_record (key, timestamp, value) = true ->
  Go.valid_value (Go.record_text (key, timestamp, value)) = Some (Go.two_decimals value).
Proof.
  intros Hr. unfold Go.valid_value. rewrite (Split_record_text _ _ _ Hr).
  apply plain_record_spec in Hr as (_ & _ & Hvalid).
  rewrite (ParseFloat_written value Hvalid). reflexivity.
Qed.

Lemma valid_values_record_texts (records : list (string * Z * F64.float64)) :
  forallb Go.plain_record records = true ->
  Go.valid_values (map Go.record_text records)
  = map (fun r => Go.two_decimals (snd r)) records.
Proof.
  induction records as [|[[key timestamp] value] records IH]; intros Hall; [reflexivity|].
  cbn [forallb] in Hall. apply andb_true_iff in Hall as [Hr Hrest].
  cbn [map Go.valid_values snd].
  rewrite (valid_value_record_text key timestamp value Hr), (IH Hrest). reflexivity.
Qed.

(** The last element of a list that ends with [r]. *)
Lemma nth_last (A : Type) (data : list A) (r d : A) :
  nth (List.length (data ++ [r]) - 1) (data ++ [r])%list d = r.
Proof.
  rewrite List.length_app. cbn [List.length].
  replace (List.length data + 1 - 1)%nat with (List.length data) by lia.
  rewrite app_nth2 by lia. rewrite Nat.sub_diag. reflexivity.
Qed.

Lemma length_snoc (A : Type) (data : list A) (r : A) :
  Nat.eqb (List.length (data ++ [r])) 0 = false.
Proof. rewrite List.length_app. cbn [List.length]. apply Nat.eqb_neq. lia. Qed.

(** The three query functions on the records themselves. *)
Lemma latest_of_record_texts (sensorID : string)
    (earlier : list (string * Z * F64.float64))
    (key : string) (timestamp : Z) (value : F64.float64) :
  forallb Go.plain_record (earlier ++ [(key, timestamp, value)]) = true ->
  Go.GetLatestMeasurement_of sensorID
    (map Go.record_text (earlier ++ [(key, timestamp, value)]))
  = Go.Ok (Go.two_decimals value, timestamp).
Proof.
  intros Hall. rewrite map_app. cbn [map]. unfold Go.GetLatestMeasurement_of.
  rewrite length_snoc, nth_last.
  rewrite forallb_app in Hall. apply andb_true_iff in Hall as [_ Hr].
  cbn [forallb] in Hr. rewrite andb_true_r in Hr.
  rewrite (Split_record_text _ _ _ Hr).
  apply plain_record_spec in Hr as (_ & Hrange & Hvalid).
  cbn [List.length Nat.eqb negb nth].
  rewrite (ParseInt_fmt_d timestamp Hrange), (ParseFloat_written value Hvalid).
  reflexivity.
Qed.

Lemma average_of_record_texts (sensorID : string)
    (records : list (string * Z * F64.float64)) :
  records <> [] ->
  forallb Go.plain_record records = true ->
  Go.GetAverageMeasurement_of sensorID (map Go.record_text records)
  = Go.Ok (F64.mean (map (fun r => Go.two_decimals (snd r)) records)).
Proof.
  intros Hne Hall.
  rewrite Go_average_of by (destruct records; [congruence | discriminate]).
  rewrite (valid_values_record_texts records Hall).
  destruct records as [|r records]; [congruence | reflexivity].
Qed.

End ResponseFacts.

(** X1.  When the response line carries records in the form [WriteData]
    writes them, joined by ['|'], [GetMeasurementHistory] returns one entry
    for each record, in order, with the timestamp written and the value
    rounded to two decimals; for a response with no record it returns no
    entry.  (Keys without [','], ['|'] and leading white space, int64
    timestamps, float64 values.) *)
Theorem history_of_written_records (records : list (string * Z * F64.float64)) :
  forallb Go.plain_record records = true ->
  Go.GetMeasurementHistory_of (Go.ReadData_decode (Go.response_line records))
  = map (fun r => (snd (fst r), Go.two_decimals (snd r))) records.
Proof.
  intros Hall. destruct records as [|r records]; [reflexivity|].
  rewrite ResponseFacts.ReadData_decode_response_line by (congruence || exact Hall).
  unfold Go.GetMeasurementHistory_of.
  apply (ResponseFacts.history_of_record_texts (r :: records) [] Hall).
Qed.

(** Two records, 25.5 and 0.125: the second comes back as 0.12. *)
Lemma history_of_written_records_witness :
  Go.GetMeasurementHistory_of
    (Go.ReadData_decode
       (Go.response_line
          [("sensor1", 1700000000, S754_finite false 7177611906121728 (-48));
           ("sensor1", 1700000060, S754_finite false 4503599627370496 (-55))]))
  = [(1700000000, S754_finite false 7177611906121728 (-48));
     (1700000060, S754_finite false 8646911284551352 (-56))].
Proof.
  exact (history_of_written_records
           [("sensor1", 1700000000, S754_finite false 7177611906121728 (-48));
            ("sensor1", 1700000060, S754_finite false 4503599627370496 (-55))]
           eq_refl).
Defined.

(** X2.  When the response line carries written records,
    [GetLatestMeasurement] returns the timestamp of the last one and its
    value rounded to two decimals. *)
Theorem latest_of_written_records (sensorID : string)
    (records : list (string * Z * F64.float64))
    (key : string) (timestamp : Z) (value : F64.float64) :
  forallb Go.plain_record (records ++ [(key, timestamp, value)]) = true ->
  Go.GetLatestMeasurement_of sensorID
    (Go.ReadData_decode (Go.response_line (records ++ [(key, timestamp, value)])))
  = Go.Ok (Go.two_decimals value, timestamp).
Proof.
  intros Hall.
  rewrite ResponseFacts.ReadData_decode_response_line;
    [| destruct records; discriminate | exact Hall].
  apply ResponseFacts.latest_of_record_texts, Hall.
Qed.

(** The latest of two records is the second. *)
Lemma latest_of_written_records_witness :
  Go.GetLatestMeasurement_of "sensor1"
    (Go.ReadData_decode
       (Go.response_line
          ([("sensor1", 1700000000, S754_finite false 4503599627370496 (-55))]
             ++ [("sensor1", 1700000060, S754_finite false 7177611906121728 (-48))])))
  = Go.Ok (S754_finite false 7177611906121728 (-48), 1700000060).
Proof.
  exact (latest_of_written_records "sensor1"
           [("sensor1", 1700000000, S754_finite false 4503599627370496 (-55))]
           "sensor1" 1700000060 (S754_finite false 7177611906121728 (-48)) eq_refl).
Defined.

(** X3.  When the response line carries at least one written record,
    [GetAverageMeasurement] returns the mean of the values rounded to two
    decimals: every record counts, none is skipped. *)
Theorem average_of_written_records (sensorID : string)
    (records : list (string * Z * F64.float64)) :
  records <> [] ->
  forallb Go.plain_record records = true ->
  Go.GetAverageMeasurement_of sensorID (Go.ReadData_decode (Go.response_line records))
  = Go.Ok (F64.mean (map (fun r => Go.two_decimals (snd r)) records)).
Proof.
  intros Hne Hall.
  rewrite (ResponseFacts.ReadData_decode_response_line records Hne Hall).
  apply ResponseFacts.average_of_record_texts; assumption.
Qed.

(** The average of 10 and 20 is 15. *)
Lemma average_of_written_records_witness :
  Go.GetAverageMeasurement_of "sensor1"
    (Go.ReadData_decode
       (Go.response_line [("a", 1, F64.of_Z 10); ("b", 2, F64.of_Z 20)]))
  = Go.Ok (F64.of_Z 15).
Proof.
  exact (average_of_written_records "sensor1"
           [("a", 1, F64.of_Z 10); ("b", 2, F64.of_Z 20)]
           ltac:(discriminate) eq_refl).
Defined.

(** ** The last record, blank responses, the history loop (Go) *)

(** X4.  [getLatestMeasurement] reads the last record of the response and
    no other: the records before it change nothing, whether they are well
    formed or not (Go, JavaScript, R).  In Go a last record that does not
    have three fields is an "invalid data format" error, whatever comes
    before it. *)
Theorem latest_reads_last_record_only :
  (forall (sensorID : string) (data : list string) (r : string),
     Go.GetLatestMeasurement_of sensorID (data ++ [r])
     = Go.GetLatestMeasurement_of sensorID [r])
  /\ (forall (sensorID : string) (data : list string) (r : string),
        List.length (Go.strings_Split r ",") <> 3%nat ->
        Go.GetLatestMeasurement_of sensorID (data ++ [r])
        = Go.Err (Go.Errorf "invalid data format"))
  /\ (forall (sensorID : string) (data : list string) (r : string),
        JS.getLatestMeasurement_of sensorID (data ++ [r])
        = JS.getLatestMeasurement_of sensorID [r])
  /\ (forall (as_numeric : string -> R.numeric) (datetime : Type)
             (as_datetime : R.numeric -> datetime)
             (sensorID : string) (data : list string) (r : string),
        R.getLatestMeasurement_of as_numeric datetime as_datetime sensorID (data ++ [r])
        = R.getLatestMeasurement_of as_numeric datetime as_datetime sensorID [r]).
Proof.
  split; [|split; [|split]].
  - intros sensorID data r. unfold Go.GetLatestMeasurement_of.
    rewrite ResponseFacts.length_snoc, ResponseFacts.nth_last. reflexivity.
  - intros sensorID data r Hparts. unfold Go.GetLatestMeasurement_of.
    rewrite ResponseFacts.length_snoc, ResponseFacts.nth_last.
    apply Nat.eqb_neq in Hparts. rewrite Hparts. reflexivity.
  - intros sensorID data r. unfold JS.getLatestMeasurement_of.
    rewrite ResponseFacts.length_snoc, ResponseFacts.nth_last. reflexivity.
  - intros as_numeric datetime as_datetime sensorID data r.
    unfold R.getLatestMeasurement_of.
    rewrite ResponseFacts.length_snoc, ResponseFacts.nth_last. reflexivity.
Qed.

(** Two good records followed by a truncated one: the Go driver reports
    the format error. *)
Lemma latest_reads_last_record_only_witness :
  Go.GetLatestMeasurement_of "sensor1" (["a,1,2.00"; "a,2,3.00"] ++ ["a,3"])
  = Go.Err (Go.Errorf "invalid data format").
Proof.
  apply (proj1 (proj2 latest_reads_last_record_only)). vm_compute. discriminate.
Defined.

(** X5.  A response line that holds white space only (the empty line
    included) is one empty record for the Go driver: [GetLatestMeasurement]
    fails with "invalid data format", [GetAverageMeasurement] with "no
    valid measurements found", and [GetMeasurementHistory] returns an empty
    history without error. *)
Theorem blank_response_in_Go (sensorID response : string) :
  Go.strings_TrimSpace response = "" ->
  Go.ReadData_decode response = [""]
  /\ Go.GetLatestMeasurement_of sensorID (Go.ReadData_decode response)
     = Go.Err (Go.Errorf "invalid data format")
  /\ Go.GetAverageMeasurement_of sensorID (Go.ReadData_decode response)
     = Go.Err (Go.Errorf "no valid measurements found")
  /\ Go.GetMeasurementHistory_of (Go.ReadData_decode response) = [].
Proof.
  intros Hblank. unfold Go.ReadData_decode. rewrite Hblank.
  repeat split; reflexivity.
Qed.

(** The line made of a blank, a carriage return and a line feed. *)
Lemma blank_response_in_Go_witness :
  Go.GetLatestMeasurement_of "sensor1"
    (Go.ReadData_decode (String " " (String "013" Go.newline)))
  = Go.Err (Go.Errorf "invalid data format").
Proof.
  exact (proj1 (proj2 (blank_response_in_Go "sensor1"
                         (String " " (String "013" Go.newline)) eq_refl))).
Defined.

Module HistoryFacts.

Lemma history_step_app (history : list (Z * F64.float64)) (measurement : string) :
  Go.history_step history measurement
  = (history ++ Go.history_step [] measurement)%list.
Proof.
  unfold Go.history_step. destruct (negb _); [symmetry; apply app_nil_r|].
  destruct (Go.strconv_ParseInt _); [|symmetry; apply app_nil_r].
  destruct (Go.strconv_ParseFloat _); [reflexivity | symmetry; apply app_nil_r].
Qed.

Lemma history_step_length (measurement : string) :
  (List.length (Go.history_step [] measurement) <= 1)%nat.
Proof.
  unfold Go.history_step. destruct (negb _); [cbn; lia|].
  destruct (Go.strconv_ParseInt _); [|cbn; lia].
  destruct (Go.strconv_ParseFloat _); cbn; lia.
Qed.

Lemma history_loop (data : list string) :
  forall history : list (Z * F64.float64),
    fold_left Go.history_step data history
    = (history ++ flat_map (Go.history_step []) data)%list.
Proof.
  induction data as [|measurement data IH]; intros history.
  - cbn [fold_left flat_map]. symmetry. apply app_nil_r.
  - cbn [fold_left flat_map]. rewrite IH, history_step_app, <- app_assoc. reflexivity.
Qed.

Lemma flat_map_length_le (data : list string) :
  (List.length (flat_map (Go.history_step []) data) <= List.length data)%nat.
Proof.
  induction data as [|measurement data IH]; [cbn; lia|].
  cbn [flat_map]. rewrite List.length_app. cbn [List.length].
  pose proof (history_step_length measurement). lia.
Qed.

End HistoryFacts.

(** X6.  The loop of [GetMeasurementHistory] decodes each record on its
    own and keeps the order: the history of a response is the history of
    its first part followed by that of the rest, a record gives one entry
    or none (a malformed one is dropped, it never stops the loop), and the
    history is never longer than the response. *)
Theorem history_decodes_each_record (data more : list string) :
  Go.GetMeasurementHistory_of (data ++ more)
  = (Go.GetMeasurementHistory_of data ++ Go.GetMeasurementHistory_of more)%list
  /\ Go.GetMeasurementHistory_of data = flat_map (Go.history_step []) data
  /\ (forall measurement : string,
        (List.length (Go.history_step [] measurement) <= 1)%nat)
  /\ (List.length (Go.GetMeasurementHistory_of data) <= List.length data)%nat.
Proof.
  unfold Go.GetMeasurementHistory_of. rewrite !HistoryFacts.history_loop.
  cbn [app]. split; [apply flat_map_app|]. split; [reflexivity|].
  split; [apply HistoryFacts.history_step_length | apply HistoryFacts.flat_map_length_le].
Qed.

(** ** The connection (Go) *)

(** X7.  [ReadData] writes its query and reads one line with a buffered
    reader of its own.  The line may come in several reads; the bytes that
    the last of these reads holds after the line feed are lost with the
    reader: they are not part of the result and a later [ReadData] does not
    see them.  If the peer closes before a line feed has come, [ReadData]
    fails with [EOF]. *)
Theorem ReadData_reads_one_line (c : Go.TSDBClient Go.TCPConn) (key : string)
    (startTime endTime downsampling : Z) :
  Go.tcp_closed (Go.conn c) = false ->
  (forall (parts : list string) (body extra : string) (rest : list string),
     Go.tcp_inbound (Go.conn c)
     = (parts ++ (body ++ Go.newline ++ extra)%string :: rest)%list ->
     Forall (fun seg => Bytes.contains "010" seg = false) parts ->
     Bytes.contains "010" body = false ->
     Go.ReadData c key startTime endTime downsampling
     = ({| Go.conn :=
             {| Go.tcp_closed := false;
                Go.tcp_sent := Go.tcp_sent (Go.conn c)
                                 ++ Go.ReadData_line key startTime endTime downsampling;
                Go.tcp_inbound := rest |} |},
        Go.Ok (Go.ReadData_decode
                 (Go.concat_segments parts ++ body ++ Go.newline))))
  /\ (Forall (fun seg => Bytes.contains "010" seg = false) (Go.tcp_inbound (Go.conn c)) ->
      Go.ReadData c key startTime endTime downsampling
      = ({| Go.conn :=
              {| Go.tcp_closed := false;
                 Go.tcp_sent := Go.tcp_sent (Go.conn c)
                                  ++ Go.ReadData_line key startTime endTime downsampling;
                 Go.tcp_inbound := [] |} |},
         Go.Err Go.EOF)).
Proof.
  intros Hopen. split.
  - intros parts body extra rest Hin Hparts Hbody.
    apply (ConnFacts.ReadData_line_read c key startTime endTime downsampling
             parts body extra rest Hopen Hin Hparts Hbody).
  - destruct c as [[closed sent inbound]].
    cbn [Go.conn Go.tcp_closed Go.tcp_sent Go.tcp_inbound] in *. subst closed.
    intros Hsegs. unfold Go.ReadData, Go.Fprintf.
    cbn [Go.conn Go.conn_Write Go.conn_ReadString Go.TCPConn_NetConn].
    unfold Go.tcp_Write, Go.tcp_ReadString.
    cbn [Go.tcp_closed Go.tcp_sent Go.tcp_inbound Go.conn].
    rewrite (ConnFacts.tcp_read_line_eof inbound "" Hsegs). reflexivity.
Qed.

(** A response and the start of a second line come in one read: the
    second line is gone. *)
Lemma ReadData_reads_one_line_witness :
  Go.ReadData
    {| Go.conn := {| Go.tcp_closed := false; Go.tcp_sent := "";
                     Go.tcp_inbound := [("a,1,2.00" ++ Go.newline ++ "a,2,3.00");
                                        Go.newline] |} |}
    "a" 0 10 0
  = ({| Go.conn := {| Go.tcp_closed := false;
                      Go.tcp_sent := "a,0,10,0" ++ Go.newline;
                      Go.tcp_inbound := [Go.newline] |} |},
     Go.Ok ["a,1,2.00"]).
Proof.
  exact (proj1 (ReadData_reads_one_line
                  {| Go.conn := {| Go.tcp_closed := false; Go.tcp_sent := "";
                                   Go.tcp_inbound := [("a,1,2.00" ++ Go.newline ++ "a,2,3.00");
                                                      Go.newline] |} |}
                  "a" 0 10 0 eq_refl)
           [] "a,1,2.00" "a,2,3.00" [Go.newline] eq_refl (Forall_nil _) eq_refl).
Defined.

(** X8.  Once the connection is closed, every operation of the client
    fails with the error of the connection, "use of closed network
    connection", and leaves the client as it is: nothing is written and
    nothing is read. *)
Theorem closed_connection_refuses (c : Go.TSDBClient Go.TCPConn) (key : string)
    (now timestamp startTime endTime duration : Z) (value : F64.float64) :
  Go.tcp_closed (Go.conn c) = true ->
  Go.WriteData c key timestamp value = (c, Some Go.ErrNetClosing)
  /\ Go.RecordMeasurement now c key value = (c, Some Go.ErrNetClosing)
  /\ Go.Subscribe c key = (c, Some Go.ErrNetClosing)
  /\ Go.Unsubscribe c key = (c, Some Go.ErrNetClosing)
  /\ Go.ReadData c key startTime endTime duration = (c, Go.Err Go.ErrNetClosing)
  /\ Go.GetLatestMeasurement now c key = (c, Go.Err Go.ErrNetClosing)
  /\ Go.GetAverageMeasurement now c key duration = (c, Go.Err Go.ErrNetClosing)
  /\ Go.GetMeasurementHistory c key startTime endTime duration
     = (c, Go.Err Go.ErrNetClosing).
Proof.
  destruct c as [[closed sent inbound]]. cbn [Go.conn Go.tcp_closed]. intros ->.
  assert (Hwrite : forall text,
             Go.Fprintf {| Go.conn := {| Go.tcp_closed := true; Go.tcp_sent := sent;
                                         Go.tcp_inbound := inbound |} |} text
             = ({| Go.conn := {| Go.tcp_closed := true; Go.tcp_sent := sent;
                                 Go.tcp_inbound := inbound |} |}, Some Go.ErrNetClosing))
    by reflexivity.
  assert (Hread : forall k s e d,
             Go.ReadData {| Go.conn := {| Go.tcp_closed := true; Go.tcp_sent := sent;
                                          Go.tcp_inbound := inbound |} |} k s e d
             = ({| Go.conn := {| Go.tcp_closed := true; Go.tcp_sent := sent;
                                 Go.tcp_inbound := inbound |} |}, Go.Err Go.ErrNetClosing)).
  { intros k s e d. unfold Go.ReadData. rewrite Hwrite. reflexivity. }
  unfold Go.RecordMeasurement, Go.WriteData, Go.Subscribe, Go.Unsubscribe,
    Go.GetLatestMeasurement, Go.GetAverageMeasurement, Go.GetMeasurementHistory.
  rewrite !Hwrite, !Hread. repeat split; reflexivity.
Qed.

(** After [Close], recording a measurement fails and sends nothing. *)
Lemma closed_connection_refuses_witness :
  let c := fst (Go.Close {| Go.conn := {| Go.tcp_closed := false; Go.tcp_sent := "";
                                          Go.tcp_inbound := [] |} |}) in
  Go.RecordMeasurement 1700000000 c "sensor1" (F64.of_Z 1) = (c, Some Go.ErrNetClosing).
Proof.
  exact (proj1 (proj2 (closed_connection_refuses
                         (fst (Go.Close {| Go.conn := {| Go.tcp_closed := false;
                                                         Go.tcp_sent := "";
                                                         Go.tcp_inbound := [] |} |}))
                         "sensor1" 1700000000 0 0 0 0 (F64.of_Z 1) eq_refl))).
Defined.

(** ** Durations of whole seconds (Go) *)

Module ExactFacts.

Import F64 RoundFacts.

(** A mantissa and exponent in normal form are left as they are. *)
Lemma round_aux_exact (s : bool) (m : positive) (e : Z) :
  bounded prec emax m e = true ->
  binary_round_aux prec emax s (Zpos m) e loc_Exact = S754_finite s m e.
Proof.
  intros Hb. destruct (bounded_spec m e Hb) as [Hcanon Hemax].
  unfold binary_round_aux, shr_fexp. cbn [shr_record_of_loc Zdigits2].
  rewrite Hcanon, Z.sub_diag.
  cbn [shr shr_m shr_r shr_s loc_of_shr_record round_nearest_even Zdigits2].
  rewrite Hcanon, Z.sub_diag. cbn [shr shr_m shr_record_of_loc].
  replace (e <=? emax - prec) with true; [reflexivity|].
  symmetry. apply Z.leb_le. unfold emax, prec. lia.
Qed.

(** A mantissa in normal form, shifted to the left, is rounded back to
    itself. *)
Lemma round_aux_shift_exact (s : bool) (m : positive) (j e : Z) :
  bounded prec emax m e = true -> 0 <= j ->
  binary_round_aux prec emax s (Zpos m * 2 ^ j) (e - j) loc_Exact = S754_finite s m e.
Proof.
  intros Hb Hj. destruct (bounded_spec m e Hb) as [Hcanon Hemax].
  assert (Hpj : 0 < 2 ^ j) by (apply Z.pow_pos_nonneg; lia).
  set (dm := Zpos (digits2_pos m)) in *.
  unfold binary_round_aux, shr_fexp.
  rewrite digits2_shift by exact Hj. fold dm.
  replace (dm + j + (e - j)) with (dm + e) by lia.
  rewrite Hcanon. cbn [shr_record_of_loc].
  replace (e - (e - j)) with j by lia.
  pose proof (shr_spec {| shr_m := Zpos m * 2 ^ j; shr_r := false; shr_s := false |}
                (e - j) j) as [Hexp Hshift].
  destruct (shr _ (e - j) j) as [y e1]. cbn [fst snd] in Hexp, Hshift.
  rewrite Z.max_l in Hexp, Hshift by exact Hj.
  destruct Hshift as (_ & Hym & Hyexact); [cbn [shr_m]; lia|].
  cbn [shr_m shr_r shr_s] in Hym, Hyexact.
  rewrite Z.div_mul in Hym by lia.
  destruct Hyexact as [Hyr Hys]; [reflexivity | reflexivity | apply Z.mod_mul; lia |].
  destruct y as [ym yr ys]. cbn [shr_m shr_r shr_s] in Hym, Hyr, Hys. subst ym yr ys.
  cbn [shr_m loc_of_shr_record round_nearest_even Zdigits2]. fold dm.
  replace e1 with e by lia.
  rewrite Hcanon, Z.sub_diag. cbn [shr shr_m].
  replace (e <=? emax - prec) with true; [reflexivity|].
  symmetry. apply Z.leb_le. unfold emax, prec. lia.
Qed.

Lemma iter_xO (n p : positive) : Zpos (Pos.iter xO p n) = Zpos p * 2 ^ Zpos n.
Proof.
  induction n as [|n IH] using Pos.peano_ind.
  - cbn [Pos.iter]. change (2 ^ 1) with 2. lia.
  - rewrite Pos.iter_succ, Pos2Z.inj_xO, IH, Pos2Z.inj_succ, Z.pow_succ_r by lia. ring.
Qed.

(** An integer below [2 ^ 53], shifted so as to have 53 digits, is a
    mantissa in normal form. *)
Lemma canonical_small (p : positive) :
  Zpos p < 2 ^ 53 ->
  exists m k,
    0 <= k /\ Zpos m = Zpos p * 2 ^ k
    /\ bounded prec emax m (- k) = true
    /\ 2 ^ 52 <= Zpos m < 2 ^ 53
    /\ shl_align p 0 (fexp prec emax (Zpos (digits2_pos p) + 0)) = (m, - k).
Proof.
  intros Hp. pose proof (digits2_bounds p) as [Hlo Hhi].
  assert (Hd : 1 <= Zpos (digits2_pos p) <= 53).
  { split; [lia | apply digits2_le; [lia | exact Hp]]. }
  set (d := Zpos (digits2_pos p)) in *.
  assert (Hfexp : fexp prec emax d = d - 53).
  { unfold fexp, emin, prec, emax. lia. }
  unfold shl_align. rewrite Z.add_0_r, Z.sub_0_r, Hfexp.
  destruct (Z.eq_dec d 53) as [Hd53|Hd53].
  - replace (d - 53) with 0 by lia. exists p, 0.
    split; [lia|]. split; [change (2 ^ 0) with 1; lia|]. split.
    + unfold bounded, canonical_mantissa. fold d. rewrite Z.add_0_r, Hfexp.
      replace (d - 53) with 0 by lia. reflexivity.
    + split; [|reflexivity]. rewrite Hd53 in Hlo. change (53 - 1) with 52 in Hlo. lia.
  - set (q := Z.to_pos (53 - d)).
    assert (Hq : d - 53 = Zneg q) by (unfold q; lia).
    rewrite Hq. exists (Pos.iter xO p q), (Zpos q).
    assert (Hm : Zpos (Pos.iter xO p q) = Zpos p * 2 ^ Zpos q) by apply iter_xO.
    split; [lia|]. split; [exact Hm|]. split.
    + unfold bounded, canonical_mantissa.
      pose proof (digits2_shift p (Zpos q) ltac:(lia)) as Hdig.
      rewrite <- Hm in Hdig. cbn [Zdigits2] in Hdig. rewrite Hdig. fold d.
      replace (d + Zpos q + - Zpos q) with d by lia. rewrite Hfexp, Hq.
      rewrite Z.eqb_refl. reflexivity.
    + split; [|reflexivity]. rewrite Hm.
      replace (2 ^ 52) with (2 ^ (d - 1) * 2 ^ Zpos q)
        by (rewrite <- Z.pow_add_r by lia; f_equal; lia).
      replace (2 ^ 53) with (2 ^ d * 2 ^ Zpos q)
        by (rewrite <- Z.pow_add_r by lia; f_equal; lia).
      assert (Hpq : 0 < 2 ^ Zpos q) by (apply Z.pow_pos_nonneg; lia).
      split; [apply Z.mul_le_mono_nonneg_r; lia | apply Z.mul_lt_mono_pos_r; lia].
Qed.

(** The float64 of an integer below [2 ^ 53] in absolute value: the
    mantissa is the integer shifted so as to have 53 digits. *)
Lemma binary_round_small (s : bool) (p : positive) :
  Zpos p < 2 ^ 53 ->
  exists m k,
    binary_round prec emax s p 0 = S754_finite s m (- k)
    /\ 0 <= k /\ Zpos m = Zpos p * 2 ^ k.
Proof.
  intros Hp. destruct (canonical_small p Hp) as (m & k & Hk & Hm & Hb & _ & Halign).
  exists m, k. unfold binary_round. rewrite Halign, (round_aux_exact s m (- k) Hb).
  repeat split; assumption.
Qed.

Lemma truncate_scaled (s : bool) (m p : positive) (k : Z) :
  0 <= k -> Zpos m = Zpos p * 2 ^ k ->
  truncate (S754_finite s m (- k)) = Some (if s then Zneg p else Zpos p).
Proof.
  intros Hk Hm. unfold truncate. destruct k as [|q|q]; [| | lia].
  - cbn [Z.opp]. change (2 ^ 0) with 1 in *. rewrite Z.mul_1_r in *.
    rewrite Hm. destruct s; reflexivity.
  - cbn [Z.opp]. rewrite Hm, Z.div_mul by (apply Z.pow_nonzero; lia).
    destruct s; reflexivity.
Qed.

(** Converting an integer below [2 ^ 53] in absolute value to float64 and
    back is exact. *)
Lemma truncate_of_Z (z : Z) :
  - 2 ^ 53 < z < 2 ^ 53 -> truncate (of_Z z) = Some z.
Proof.
  intros Hz. unfold of_Z, binary_normalize. destruct z as [|p|p].
  - reflexivity.
  - destruct (binary_round_small false p ltac:(lia)) as (m & k & -> & Hk & Hm).
    apply (truncate_scaled false m p k Hk Hm).
  - destruct (binary_round_small true p ltac:(lia)) as (m & k & -> & Hk & Hm).
    apply (truncate_scaled true m p k Hk Hm).
Qed.

Lemma add_zero_r_of_Z (z : Z) :
  - 2 ^ 53 < z < 2 ^ 53 -> add (of_Z z) zero = of_Z z.
Proof.
  intros Hz. unfold of_Z, binary_normalize. destruct z as [|p|p].
  - reflexivity.
  - destruct (binary_round_small false p ltac:(lia)) as (m & k & -> & _). reflexivity.
  - destruct (binary_round_small true p ltac:(lia)) as (m & k & -> & _). reflexivity.
Qed.

(** A duration of [seconds] whole seconds is [seconds] for
    [Duration.Seconds()], exactly. *)
Lemma Duration_Seconds_whole (seconds : Z) :
  - 2 ^ 53 < seconds < 2 ^ 53 ->
  Go.Duration_Seconds (seconds * Go.Second) = of_Z seconds.
Proof.
  intros Hs. unfold Go.Duration_Seconds.
  rewrite Z.quot_mul, Z.rem_mul by (unfold Go.Second; lia).
  change (div (of_Z 0) (of_Z 1000000000)) with zero.
  apply add_zero_r_of_Z, Hs.
Qed.

Lemma int64_of_float_whole (seconds : Z) :
  - 2 ^ 53 < seconds < 2 ^ 53 ->
  Go.int64_of_float (Go.Duration_Seconds (seconds * Go.Second)) = seconds.
Proof.
  intros Hs. rewrite (Duration_Seconds_whole seconds Hs).
  unfold Go.int64_of_float. rewrite (truncate_of_Z seconds Hs).
  unfold Go.minInt64, Go.maxInt64.
  replace (- 2 ^ 63 <=? seconds) with true by (symmetry; apply Z.leb_le; lia).
  replace (seconds <=? 2 ^ 63 - 1) with true by (symmetry; apply Z.leb_le; lia).
  reflexivity.
Qed.

End ExactFacts.

(** X9.  For a [time.Duration] of a whole number of seconds (any such
    duration an int64 of nanoseconds can hold), [int(d.Seconds())] is that
    number, exactly.  So [GetMeasurementHistory] asks for a downsampling of
    that number of seconds, of one second when it is below 1, and
    [GetAverageMeasurement] queries the window that starts that number of
    seconds before now, with downsampling 0. *)
Theorem whole_seconds_are_exact (seconds : Z) :
  - 9223372036 <= seconds <= 9223372036 ->
  Go.minInt64 <= seconds * Go.Second <= Go.maxInt64
  /\ Go.int64_of_float (Go.Duration_Seconds (seconds * Go.Second)) = seconds
  /\ Go.downsamplingSeconds (seconds * Go.Second) = Z.max 1 seconds
  /\ (forall (c : Go.TSDBClient Go.TCPConn) (sensorID : string) (startTime endTime : Z),
        Go.tcp_closed (Go.conn c) = false ->
        Go.tcp_sent
          (Go.conn (fst (Go.GetMeasurementHistory c sensorID startTime endTime
                           (seconds * Go.Second))))
        = Go.tcp_sent (Go.conn c)
            ++ Go.ReadData_line sensorID startTime endTime (Z.max 1 seconds))
  /\ (forall (now : Z) (c : Go.TSDBClient Go.TCPConn) (sensorID : string),
        Go.tcp_closed (Go.conn c) = false ->
        Go.tcp_sent
          (Go.conn (fst (Go.GetAverageMeasurement now c sensorID (seconds * Go.Second))))
        = Go.tcp_sent (Go.conn c)
            ++ Go.ReadData_line sensorID (Go.int64 (now - seconds)) now 0).
Proof.
  intros Hs.
  assert (Hsmall : - 2 ^ 53 < seconds < 2 ^ 53) by lia.
  pose proof (ExactFacts.int64_of_float_whole seconds Hsmall) as Hint.
  assert (Hdown : Go.downsamplingSeconds (seconds * Go.Second) = Z.max 1 seconds).
  { unfold Go.downsamplingSeconds. rewrite Hint.
    destruct (Z.ltb_spec seconds 1); lia. }
  split; [unfold Go.minInt64, Go.maxInt64, Go.Second; lia|].
  split; [exact Hint|]. split; [exact Hdown|]. split.
  - intros c sensorID startTime endTime Hopen.
    unfold Go.GetMeasurementHistory. rewrite Hdown.
    pose proof (ReadData_sent c sensorID startTime endTime (Z.max 1 seconds) Hopen) as Hsent.
    destruct (Go.ReadData c sensorID startTime endTime (Z.max 1 seconds)) as [c1 [data|err]];
      exact Hsent.
  - intros now c sensorID Hopen.
    unfold Go.GetAverageMeasurement. rewrite Hint.
    pose proof (ReadData_sent c sensorID (Go.int64 (now - seconds)) now 0 Hopen) as Hsent.
    destruct (Go.ReadData c sensorID (Go.int64 (now - seconds)) now 0) as [c1 [data|err]];
      exact Hsent.
Qed.

(** The history asked with an interval of one hour goes out with a
    downsampling of 3600. *)
Lemma whole_seconds_are_exact_witness :
  Go.downsamplingSeconds (3600 * Go.Second) = 3600.
Proof.
  exact (proj1 (proj2 (proj2 (whole_seconds_are_exact 3600 ltac:(lia))))).
Defined.

(** ** The query functions on a connection (Go) *)

Module QueryFacts.

Import Bytes BytesFacts GoFacts.

Lemma join_records_no (c : ascii) (texts : list string) :
  Ascii.eqb "|" c = false ->
  Forall (fun text => contains c text = false) texts ->
  contains c (Go.join_records texts) = false.
Proof.
  intros Hc. induction texts as [|text texts IH]; intros Hall; [reflexivity|].
  inversion Hall as [|? ? Htext Hrest]; subst.
  destruct texts as [|t texts]; [exact Htext|].
  rewrite ResponseFacts.join_records_cons by discriminate.
  rewrite contains_app, Htext. cbn [contains orb]. rewrite Hc. apply IH, Hrest.
Qed.

Lemma record_text_no_newline (r : string * Z * F64.float64) :
  contains "010" (fst (fst r)) = false -> contains "010" (Go.record_text r) = false.
Proof.
  destruct r as [[key timestamp] value]. cbn [fst]. intros Hkey.
  unfold Go.record_text. rewrite !contains_app, Hkey.
  rewrite (fmt_d_no "010" timestamp eq_refl), (fmt_2f_no "010" value eq_refl).
  reflexivity.
Qed.

(** [ReadData] on an open connection whose next read is a response line
    that carries [records]. *)
Lemma ReadData_response_line (c : Go.TSDBClient Go.TCPConn) (key : string)
    (startTime endTime downsampling : Z)
    (records : list (string * Z * F64.float64)) (rest : list string) :
  Go.tcp_closed (Go.conn c) = false ->
  Go.tcp_inbound (Go.conn c) = Go.response_line records :: rest ->
  forallb (fun r => negb (contains "010" (fst (fst r)))) records = true ->
  Go.ReadData c key startTime endTime downsampling
  = ({| Go.conn :=
          {| Go.tcp_closed := false;
             Go.tcp_sent := Go.tcp_sent (Go.conn c)
                              ++ Go.ReadData_line key startTime endTime downsampling;
             Go.tcp_inbound := rest |} |},
     Go.Ok (Go.ReadData_decode (Go.response_line records))).
Proof.
  intros Hopen Hin Hkeys. rewrite forallb_forall in Hkeys.
  assert (Hbody : contains "010" (Go.join_records (map Go.record_text records)) = false).
  { apply join_records_no; [reflexivity|]. apply Forall_forall. intros text Htext.
    apply in_map_iff in Htext as (r & <- & Hr). apply record_text_no_newline.
    apply negb_true_iff, Hkeys, Hr. }
  apply (ConnFacts.ReadData_line_read c key startTime endTime downsampling
           [] (Go.join_records (map Go.record_text records)) "" rest Hopen Hin
           (Forall_nil _) Hbody).
Qed.

End QueryFacts.

(** X10.  The three query functions, from the call to the result, on an
    open connection whose next read is a response line that carries
    written records.  Each sends one query line and consumes the response.
    [GetLatestMeasurement] asks for the hour that ends now, with
    downsampling 0, and returns the last record; [GetAverageMeasurement]
    asks for the window of the duration given, with downsampling 0, and
    returns the mean; [GetMeasurementHistory] asks for the range given with
    the downsampling of the interval, and returns every record. *)
Theorem queries_from_call_to_result (c : Go.TSDBClient Go.TCPConn) (sensorID : string)
    (now : Z) (records : list (string * Z * F64.float64)) (rest : list string) :
  Go.tcp_closed (Go.conn c) = false ->
  Go.tcp_inbound (Go.conn c) = Go.response_line records :: rest ->
  forallb Go.plain_record records = true ->
  forallb (fun r => negb (Bytes.contains "010" (fst (fst r)))) records = true ->
  let answered (query : string) :=
    {| Go.conn := {| Go.tcp_closed := false;
                     Go.tcp_sent := Go.tcp_sent (Go.conn c) ++ query;
                     Go.tcp_inbound := rest |} |} in
  (forall (earlier : list (string * Z * F64.float64))
          (key : string) (timestamp : Z) (value : F64.float64),
     records = (earlier ++ [(key, timestamp, value)])%list ->
     Go.GetLatestMeasurement now c sensorID
     = (answered (Go.ReadData_line sensorID (Go.int64 (now - 3600)) now 0),
        Go.Ok (Go.two_decimals value, timestamp)))
  /\ (forall duration : Z,
        records <> [] ->
        Go.GetAverageMeasurement now c sensorID duration
        = (answered (Go.ReadData_line sensorID
                       (Go.int64 (now - Go.int64_of_float (Go.Duration_Seconds duration)))
                       now 0),
           Go.Ok (F64.mean (map (fun r => Go.two_decimals (snd r)) records))))
  /\ (forall startTime endTime interval : Z,
        Go.GetMeasurementHistory c sensorID startTime endTime interval
        = (answered (Go.ReadData_line sensorID startTime endTime
                       (Go.downsamplingSeconds interval)),
           Go.Ok (map (fun r => (snd (fst r), Go.two_decimals (snd r))) records))).
Proof.
  intros Hopen Hin Hplain Hkeys answered.
  split; [|split].
  - intros earlier key timestamp value ->. unfold Go.GetLatestMeasurement.
    rewrite (QueryFacts.ReadData_response_line c sensorID _ _ _ _ rest Hopen Hin Hkeys).
    rewrite ResponseFacts.ReadData_decode_response_line;
      [| destruct earlier; discriminate | exact Hplain].
    rewrite (ResponseFacts.latest_of_record_texts sensorID earlier key timestamp value Hplain).
    reflexivity.
  - intros duration Hne. unfold Go.GetAverageMeasurement.
    rewrite (QueryFacts.ReadData_response_line c sensorID _ _ _ _ rest Hopen Hin Hkeys).
    rewrite (ResponseFacts.ReadData_decode_response_line records Hne Hplain).
    rewrite (ResponseFacts.average_of_record_texts sensorID records Hne Hplain).
    reflexivity.
  - intros startTime endTime interval. unfold Go.GetMeasurementHistory.
    rewrite (QueryFacts.ReadData_response_line c sensorID _ _ _ _ rest Hopen Hin Hkeys).
    f_equal. f_equal. destruct records as [|r records]; [reflexivity|].
    rewrite ResponseFacts.ReadData_decode_response_line by (congruence || exact Hplain).
    apply (ResponseFacts.history_of_record_texts (r :: records) [] Hplain).
Qed.

(** The latest measurement of sensor1, asked at time 1700000100. *)
Lemma queries_from_call_to_result_witness :
  Go.GetLatestMeasurement 1700000100
    {| Go.conn :=
         {| Go.tcp_closed := false; Go.tcp_sent := "";
            Go.tcp_inbound :=
              [Go.response_line
                 [("sensor1", 1700000000, S754_finite false 7177611906121728 (-48))]] |} |}
    "sensor1"
  = ({| Go.conn := {| Go.tcp_closed := false;
                      Go.tcp_sent := "sensor1,1699996500,1700000100,0" ++ Go.newline;
                      Go.tcp_inbound := [] |} |},
     Go.Ok (S754_finite false 7177611906121728 (-48), 1700000000)).
Proof.
  exact (proj1 (queries_from_call_to_result
                  {| Go.conn :=
                       {| Go.tcp_closed := false; Go.tcp_sent := "";
                          Go.tcp_inbound :=
                            [Go.response_line
                               [("sensor1", 1700000000,
                                 S754_finite false 7177611906121728 (-48))]] |} |}
                  "sensor1" 1700000100
                  [("sensor1", 1700000000, S754_finite false 7177611906121728 (-48))] []
                  eq_refl eq_refl eq_refl eq_refl)
           [] "sensor1" 1700000000 (S754_finite false 7177611906121728 (-48)) eq_refl).
Defined.

(** X11.  Responses are paired with queries by their order of arrival and
    by nothing else: of two lines that come in, each in a read of its own,
    the first [ReadData] returns the first and the second [ReadData] the
    second, whatever the lines hold and whatever the two queries ask.  (A line pushed for a
    subscription is thus taken for the response of the next query.) *)
Theorem ReadData_answers_in_arrival_order (c : Go.TSDBClient Go.TCPConn)
    (key1 key2 : string) (start1 end1 down1 start2 end2 down2 : Z)
    (line1 line2 : string) (rest : list string) :
  Go.tcp_closed (Go.conn c) = false ->
  Go.tcp_inbound (Go.conn c)
  = ((line1 ++ Go.newline)%string :: (line2 ++ Go.newline)%string :: rest)%list ->
  Bytes.contains "010" line1 = false ->
  Bytes.contains "010" line2 = false ->
  let first := Go.ReadData c key1 start1 end1 down1 in
  let second := Go.ReadData (fst first) key2 start2 end2 down2 in
  snd first = Go.Ok (Go.ReadData_decode (line1 ++ Go.newline))
  /\ snd second = Go.Ok (Go.ReadData_decode (line2 ++ Go.newline))
  /\ Go.tcp_sent (Go.conn (fst second))
     = (Go.tcp_sent (Go.conn c) ++ Go.ReadData_line key1 start1 end1 down1)
         ++ Go.ReadData_line key2 start2 end2 down2
  /\ Go.tcp_inbound (Go.conn (fst second)) = rest.
Proof.
  intros Hopen Hin H1 H2.
  pose proof (ConnFacts.ReadData_line_read c key1 start1 end1 down1
                [] line1 "" ((line2 ++ Go.newline)%string :: rest) Hopen Hin
                (Forall_nil _) H1) as Hfirst.
  cbn [Go.concat_segments append] in Hfirst.
  cbv zeta. rewrite Hfirst. cbn [fst snd].
  pose proof (ConnFacts.ReadData_line_read
                       {| Go.conn :=
                            {| Go.tcp_closed := false;
                               Go.tcp_sent := Go.tcp_sent (Go.conn c)
                                                ++ Go.ReadData_line key1 start1 end1 down1;
                               Go.tcp_inbound := (line2 ++ Go.newline)%string :: rest |} |}
                       key2 start2 end2 down2
                [] line2 "" rest eq_refl eq_refl (Forall_nil _) H2) as Hsecond.
  cbn [Go.concat_segments append Go.conn Go.tcp_sent] in Hsecond.
  rewrite Hsecond. cbn [fst snd Go.conn Go.tcp_sent Go.tcp_inbound].
  repeat split; reflexivity.
Qed.

(** A pushed line comes in before the response: the query gets the
    pushed line, and the response goes to the query after it. *)
Lemma ReadData_answers_in_arrival_order_witness :
  let c := {| Go.conn :=
                {| Go.tcp_closed := false; Go.tcp_sent := "";
                   Go.tcp_inbound := ["other,5,1.00" ++ Go.newline;
                                      "sensor1,7,2.00" ++ Go.newline] |} |} in
  snd (Go.ReadData c "sensor1" 0 10 0) = Go.Ok ["other,5,1.00"]
  /\ snd (Go.ReadData (fst (Go.ReadData c "sensor1" 0 10 0)) "sensor1" 0 10 0)
     = Go.Ok ["sensor1,7,2.00"].
Proof.
  pose proof (ReadData_answers_in_arrival_order
                {| Go.conn :=
                     {| Go.tcp_closed := false; Go.tcp_sent := "";
                        Go.tcp_inbound := ["other,5,1.00" ++ Go.newline;
                                           "sensor1,7,2.00" ++ Go.newline] |} |}
                "sensor1" "sensor1" 0 10 0 0 10 0 "other,5,1.00" "sensor1,7,2.00" []
                eq_refl eq_refl eq_refl eq_refl) as H.
  cbv zeta in H. destruct H as (H1 & H2 & _). split; [exact H1 | exact H2].
Defined.

(** ** One call, one line (Go) *)

(** X12.  Each request of the Go driver is one line: when the key holds
    no line feed, what [WriteData], [ReadData], [Subscribe] and
    [Unsubscribe] write has exactly one line feed, at its end.  Nothing is
    escaped: a key that holds a line feed is written as it is, so that the
    part before the line feed reaches the server as a line of its own. *)
Theorem one_call_one_line (key : string) (timestamp startTime endTime downsampling : Z)
    (value : F64.float64) :
  Bytes.contains "010" key = false ->
  Bytes.split "010" (Go.WriteData_line key timestamp value)
  = [Go.record_text (key, timestamp, value); ""]
  /\ Bytes.split "010" (Go.ReadData_line key startTime endTime downsampling)
     = [key ++ "," ++ Go.fmt_d startTime ++ "," ++ Go.fmt_d endTime ++ ","
            ++ Go.fmt_d downsampling; ""]
  /\ Bytes.split "010" ("subscribe," ++ key ++ Go.newline) = ["subscribe," ++ key; ""]
  /\ Bytes.split "010" ("unsubscribe," ++ key ++ Go.newline) = ["unsubscribe," ++ key; ""]
  /\ (forall first rest : string,
        Go.WriteData_line (first ++ Go.newline ++ rest) timestamp value
        = first ++ Go.newline ++ Go.WriteData_line rest timestamp value)
  /\ (forall first rest : string,
        "subscribe," ++ (first ++ Go.newline ++ rest) ++ Go.newline
        = ("subscribe," ++ first ++ Go.newline) ++ rest ++ Go.newline).
Proof.
  intros Hkey.
  assert (Hline : forall body : string,
             Bytes.contains "010" body = false ->
             Bytes.split "010" (body ++ Go.newline) = [body; ""]).
  { intros body Hbody. change (body ++ Go.newline) with (body ++ String "010" "").
    rewrite (BytesFacts.split_app_sep _ _ _ Hbody). reflexivity. }
  split; [|split; [|split; [|split; [|split]]]].
  - unfold Go.WriteData_line.
    replace (key ++ "," ++ Go.fmt_d timestamp ++ "," ++ Go.fmt_2f value ++ Go.newline)
      with (Go.record_text (key, timestamp, value) ++ Go.newline)
      by (unfold Go.record_text; rewrite !BytesFacts.append_assoc; reflexivity).
    apply Hline, QueryFacts.record_text_no_newline, Hkey.
  - unfold Go.ReadData_line.
    replace (key ++ "," ++ Go.fmt_d startTime ++ "," ++ Go.fmt_d endTime ++ ","
                 ++ Go.fmt_d downsampling ++ Go.newline)
      with ((key ++ "," ++ Go.fmt_d startTime ++ "," ++ Go.fmt_d endTime ++ ","
                 ++ Go.fmt_d downsampling) ++ Go.newline)
      by (rewrite !BytesFacts.append_assoc; reflexivity).
    apply Hline. rewrite !BytesFacts.contains_app, Hkey.
    rewrite !(GoFacts.fmt_d_no "010" _ eq_refl). reflexivity.
  - replace ("subscribe," ++ key ++ Go.newline) with (("subscribe," ++ key) ++ Go.newline)
      by (rewrite BytesFacts.append_assoc; reflexivity).
    apply Hline. rewrite BytesFacts.contains_app, Hkey. reflexivity.
  - replace ("unsubscribe," ++ key ++ Go.newline)
      with (("unsubscribe," ++ key) ++ Go.newline)
      by (rewrite BytesFacts.append_assoc; reflexivity).
    apply Hline. rewrite BytesFacts.contains_app, Hkey. reflexivity.
  - intros first rest. unfold Go.WriteData_line.
    rewrite !BytesFacts.append_assoc. reflexivity.
  - intros first rest. rewrite !BytesFacts.append_assoc. reflexivity.
Qed.

(** The write line of sensor1, and a key that smuggles a subscription. *)
Lemma one_call_one_line_witness :
  Bytes.split "010" (Go.WriteData_line "sensor1" 1700000000 (F64.of_Z 2))
  = ["sensor1,1700000000,2.00"; ""]
  /\ Bytes.split "010"
       (Go.WriteData_line ("subscribe,x" ++ Go.newline ++ "sensor1") 1700000000 (F64.of_Z 2))
     = ["subscribe,x"; "sensor1,1700000000,2.00"; ""].
Proof.
  split; [|reflexivity].
  exact (proj1 (one_call_one_line "sensor1" 1700000000 0 0 0 (F64.of_Z 2) eq_refl)).
Defined.

(** ** The JavaScript driver: malformed records, [NaN], unwritable sockets *)

(** X13.  A chunk that holds white space only (the empty chunk included)
    is one empty record for the JavaScript driver.  [getLatestMeasurement]
    does not fail on it: it returns the value [NaN] and an invalid date.
    [getAverageMeasurement] fails with "No valid measurements found", and
    [getMeasurementHistory] returns one entry with an invalid date and the
    value [NaN]. *)
Theorem blank_response_in_JS (sensorID data : string) :
  JS.trim data = "" ->
  JS.readData_decode data = [""]
  /\ JS.getLatestMeasurement_of sensorID (JS.readData_decode data)
     = JS.Fulfilled (F64.nan, {| JS.DateValue := F64.nan |})
  /\ JS.getAverageMeasurement_of sensorID (JS.readData_decode data)
     = JS.Rejected (JS.mkError "No valid measurements found")
  /\ JS.getMeasurementHistory_of (JS.readData_decode data)
     = [({| JS.DateValue := F64.nan |}, F64.nan)].
Proof.
  intros Hblank. unfold JS.readData_decode. rewrite Hblank.
  repeat split; reflexivity.
Qed.

(** The chunk made of a line feed. *)
Lemma blank_response_in_JS_witness :
  JS.getLatestMeasurement_of "sensor1" (JS.readData_decode JS.newline)
  = JS.Fulfilled (F64.nan, {| JS.DateValue := F64.nan |}).
Proof.
  exact (proj1 (proj2 (blank_response_in_JS "sensor1" JS.newline eq_refl))).
Defined.

(** X14.  [getMeasurementHistory] of the JavaScript driver maps over the
    records and drops none: the history has one entry for each record of
    the response, in order.  A record with fewer than three fields gives an
    entry whose value is [NaN]; with fewer than two fields the date is
    invalid as well. *)
Theorem JS_history_keeps_every_record (data : list string) :
  List.length (JS.getMeasurementHistory_of data) = List.length data
  /\ (forall (i : nat) (measurement : string),
        nth_error data i = Some measurement ->
        (List.length (JS.split measurement ",") < 3)%nat ->
        exists date, nth_error (JS.getMeasurementHistory_of data) i = Some (date, F64.nan))
  /\ (forall (i : nat) (measurement : string),
        nth_error data i = Some measurement ->
        (List.length (JS.split measurement ",") < 2)%nat ->
        nth_error (JS.getMeasurementHistory_of data) i
        = Some ({| JS.DateValue := F64.nan |}, F64.nan)).
Proof.
  unfold JS.getMeasurementHistory_of. split; [apply length_map|]. split.
  - intros i measurement Hi Hlen. rewrite nth_error_map, Hi. cbn [option_map].
    destruct (JS.split measurement ",") as [|f0 [|f1 [|f2 fs]]];
      cbn [List.length] in Hlen; try lia; eexists; reflexivity.
  - intros i measurement Hi Hlen. rewrite nth_error_map, Hi. cbn [option_map].
    destruct (JS.split measurement ",") as [|f0 [|f1 fs]];
      cbn [List.length] in Hlen; try lia; reflexivity.
Qed.

(** The record ["garbage"] between two good ones is the second entry. *)
Lemma JS_history_keeps_every_record_witness :
  nth_error (JS.getMeasurementHistory_of ["a,1,2"; "garbage"; "a,3,4"]) 1
  = Some ({| JS.DateValue := F64.nan |}, F64.nan).
Proof.
  apply (proj2 (proj2 (JS_history_keeps_every_record ["a,1,2"; "garbage"; "a,3,4"]))
           1%nat "garbage"); [reflexivity | cbn; lia].
Defined.

Module NaNFacts.

Import F64.

Lemma fold_add_nan (values : list float64) : fold_left add values nan = nan.
Proof. induction values as [|v values IH]; [reflexivity | exact IH]. Qed.

Lemma add_nan_r (x : float64) : add x nan = nan.
Proof. destruct x; reflexivity. Qed.

(** A sum that holds a [NaN] is [NaN]. *)
Lemma fold_add_In_nan (values : list float64) :
  forall sum : float64, In nan values -> fold_left add values sum = nan.
Proof.
  induction values as [|v values IH]; intros sum Hin; [contradiction|].
  cbn [fold_left]. destruct Hin as [->|Hin].
  - rewrite add_nan_r. apply fold_add_nan.
  - apply IH, Hin.
Qed.

Lemma mean_In_nan (values : list float64) : In nan values -> mean values = nan.
Proof. intros Hin. unfold mean. rewrite (fold_add_In_nan values zero Hin). reflexivity. Qed.

Lemma JS_valid_values_In (data : list string) (measurement : string) (value : float64) :
  In measurement data -> JS.valid_value measurement = Some value ->
  In value (JS.valid_values data).
Proof.
  induction data as [|m data IH]; intros Hin Hvalue; [contradiction|].
  cbn [JS.valid_values]. destruct Hin as [->|Hin].
  - rewrite Hvalue. left. reflexivity.
  - destruct (JS.valid_value m); [right|]; apply IH; assumption.
Qed.

Lemma Go_valid_values_In (data : list string) (measurement : string) (value : float64) :
  In measurement data -> Go.valid_value measurement = Some value ->
  In value (Go.valid_values data).
Proof.
  induction data as [|m data IH]; intros Hin Hvalue; [contradiction|].
  cbn [Go.valid_values]. destruct Hin as [->|Hin].
  - rewrite Hvalue. left. reflexivity.
  - destruct (Go.valid_value m); [right|]; apply IH; assumption.
Qed.

(** [parseFloat] of a string that starts with a printable byte which is
    not a digit, a sign, a point or the [I] of [Infinity]. *)
Lemma parseFloat_not_a_number (c : ascii) (rest : string) :
  Bytes.printable c = true ->
  Bytes.is_digit c = false ->
  existsb (Ascii.eqb c) ["+"; "-"; "."; "I"]%char = false ->
  JS.parseFloat (Some (String c rest)) = nan.
Proof.
  intros Hprint Hdigit Hother.
  cbn [existsb] in Hother.
  apply orb_false_iff in Hother as [Hplus Hother].
  apply orb_false_iff in Hother as [Hminus Hother].
  apply orb_false_iff in Hother as [Hpoint Hother].
  apply orb_false_iff in Hother as [HI _].
  unfold JS.parseFloat, JS.ToString, JS.trimStart.
  rewrite BytesFacts.trim_left_none.
  2:{ apply GoFacts.printable_range in Hprint.
      apply BytesFacts.strip_first_head. GoFacts.no_rune. }
  unfold JS.take_sign. rewrite Hminus, Hplus.
  unfold JS.starts_with. cbn [String.length substring String.eqb]. rewrite HI.
  cbn [JS.take_digits]. unfold Bytes.is_digit in Hdigit.
  destruct (Bytes.digit_value c); [discriminate|].
  cbn iota. rewrite Hpoint. reflexivity.
Qed.

End NaNFacts.

(** X15.  One [NaN] makes the average [NaN].  In JavaScript every record
    with three fields is counted, whatever [parseFloat] makes of its third
    field, so a single record whose value is not a number (an empty field,
    a word) turns the average of the whole response into [NaN], without any
    error.  In Go such a record is skipped, but a record whose value reads
    ["NaN"] is parsed and has the same effect. *)
Theorem average_is_NaN_with_a_NaN_record :
  (forall (sensorID : string) (data : list string) (measurement : string),
     In measurement data ->
     JS.valid_value measurement = Some F64.nan ->
     JS.getAverageMeasurement_of sensorID data = JS.Fulfilled F64.nan)
  /\ (forall (key timestamp : string) (c : ascii) (rest : string),
        Bytes.contains "," key = false ->
        Bytes.contains "," timestamp = false ->
        Bytes.contains "," (String c rest) = false ->
        Bytes.printable c = true ->
        Bytes.is_digit c = false ->
        existsb (Ascii.eqb c) ["+"; "-"; "."; "I"]%char = false ->
        JS.valid_value (key ++ "," ++ timestamp ++ "," ++ String c rest) = Some F64.nan)
  /\ (forall key timestamp : string,
        Bytes.contains "," key = false ->
        Bytes.contains "," timestamp = false ->
        JS.valid_value (key ++ "," ++ timestamp ++ ",") = Some F64.nan)
  /\ (forall (sensorID : string) (data : list string) (measurement : string),
        In measurement data ->
        Go.valid_value measurement = Some F64.nan ->
        Go.GetAverageMeasurement_of sensorID data = Go.Ok F64.nan)
  /\ (forall key timestamp : string,
        Bytes.contains "," key = false ->
        Bytes.contains "," timestamp = false ->
        Go.valid_value (key ++ "," ++ timestamp ++ ",NaN") = Some F64.nan).
Proof.
  split; [|split; [|split; [|split]]].
  - intros sensorID data measurement Hin Hvalue.
    pose proof (NaNFacts.JS_valid_values_In data measurement F64.nan Hin Hvalue) as Hnan.
    rewrite JS_average_of by (destruct data; [contradiction | discriminate]).
    destruct (JS.valid_values data) as [|v vs] eqn:Hvs; [contradiction|].
    rewrite (NaNFacts.mean_In_nan (v :: vs) Hnan). reflexivity.
  - intros key timestamp c rest Hkey Htime Hfield Hprint Hdigit Hother.
    rewrite (JS_valid_value_record key timestamp (String c rest) Hkey Htime Hfield).
    rewrite (NaNFacts.parseFloat_not_a_number c rest Hprint Hdigit Hother). reflexivity.
  - intros key timestamp Hkey Htime.
    change (key ++ "," ++ timestamp ++ ",") with (key ++ "," ++ timestamp ++ "," ++ "").
    rewrite (JS_valid_value_record key timestamp "" Hkey Htime eq_refl). reflexivity.
  - intros sensorID data measurement Hin Hvalue.
    pose proof (NaNFacts.Go_valid_values_In data measurement F64.nan Hin Hvalue) as Hnan.
    rewrite Go_average_of by (destruct data; [contradiction | discriminate]).
    destruct (Go.valid_values data) as [|v vs] eqn:Hvs; [contradiction|].
    rewrite (NaNFacts.mean_In_nan (v :: vs) Hnan). reflexivity.
  - intros key timestamp Hkey Htime.
    change (key ++ "," ++ timestamp ++ ",NaN") with (key ++ "," ++ timestamp ++ "," ++ "NaN").
    rewrite (Go_valid_value_record key timestamp "NaN" Hkey Htime eq_refl). reflexivity.
Qed.

(** Two good records and one whose value is a word: the JavaScript
    average is [NaN]. *)
Lemma average_is_NaN_with_a_NaN_record_witness :
  JS.getAverageMeasurement_of "sensor1" ["a,1,10"; "a,2,none"; "a,3,20"]
  = JS.Fulfilled F64.nan.
Proof.
  apply (proj1 average_is_NaN_with_a_NaN_record "sensor1"
           ["a,1,10"; "a,2,none"; "a,3,20"] "a,2,none").
  - right. left. reflexivity.
  - apply (proj1 (proj2 average_is_NaN_with_a_NaN_record) "a" "2" "n"%char "one");
      reflexivity.
Defined.

(** ** The downsampling of the JavaScript history *)

Module FloorFacts.

Import F64 RoundFacts.

(** Rounding a mantissa that is not negative never gives [NaN]. *)
Lemma round_aux_not_nan (s : bool) (m e : Z) (l : location) :
  0 <= m -> is_nan (binary_round_aux prec emax s m e l) = false.
Proof.
  intros Hm. unfold binary_round_aux, shr_fexp.
  set (n1 := fexp prec emax (Zdigits2 m + e) - e).
  pose proof (shr_spec (shr_record_of_loc m l) e n1) as [_ Hshift1].
  destruct (shr (shr_record_of_loc m l) e n1) as [y1 e1]. cbn [fst snd] in Hshift1.
  destruct Hshift1 as (Hy1 & _ & _); [rewrite shr_record_of_loc_m; exact Hm|].
  set (r1 := round_nearest_even (shr_m y1) (loc_of_shr_record y1)).
  pose proof (round_nearest_even_bounds (shr_m y1) (loc_of_shr_record y1)) as Hr1.
  fold r1 in Hr1.
  set (n2 := fexp prec emax (Zdigits2 r1 + e1) - e1).
  pose proof (shr_spec (shr_record_of_loc r1 loc_Exact) e1 n2) as [_ Hshift2].
  destruct (shr (shr_record_of_loc r1 loc_Exact) e1 n2) as [y2 e2].
  cbn [fst snd] in Hshift2.
  destruct Hshift2 as (Hy2 & _ & _); [rewrite shr_record_of_loc_m; lia|].
  destruct (shr_m y2) as [|p|p]; [reflexivity | | lia].
  destruct (e2 <=? emax - prec); reflexivity.
Qed.

Lemma div_core_nonneg (m1 m2 : positive) (e1 e2 : Z) :
  0 <= fst (fst (SFdiv_core_binary prec emax (Zpos m1) e1 (Zpos m2) e2)).
Proof.
  unfold SFdiv_core_binary.
  set (s := e1 - e2 - _).
  set (m' := match s with
             | 0 => Zpos m1
             | Zpos _ => Z.shiftl (Zpos m1) s
             | Zneg _ => 0
             end).
  assert (Hm' : 0 <= m').
  { unfold m'. destruct s; [lia | apply Z.shiftl_nonneg; lia | lia]. }
  assert (Hq : 0 <= m' / Zpos m2) by (apply Z.div_pos; lia).
  unfold Z.div in Hq. destruct (Z.div_eucl m' (Zpos m2)) as [q r].
  cbn [fst] in *. exact Hq.
Qed.

(** Dividing a number by a finite number that is not zero never gives
    [NaN]. *)
Lemma div_not_nan (x : float64) (sy : bool) (my : positive) (ey : Z) :
  is_nan x = false -> is_nan (div x (S754_finite sy my ey)) = false.
Proof.
  destruct x as [sx|sx| |sx mx ex]; intros Hx; try reflexivity; [discriminate|].
  unfold div, SFdiv.
  pose proof (div_core_nonneg mx my ex ey) as Hq.
  destruct (SFdiv_core_binary prec emax (Zpos mx) ex (Zpos my) ey) as [[mz ez] lz].
  cbn [fst] in Hq. apply round_aux_not_nan, Hq.
Qed.

Lemma of_Z_not_nan (z : Z) : is_nan (of_Z z) = false.
Proof.
  unfold of_Z, binary_normalize, binary_round. destruct z as [|p|p]; [reflexivity | |].
  - destruct (shl_align p 0 _) as [mz ez]. apply round_aux_not_nan. lia.
  - destruct (shl_align p 0 _) as [mz ez]. apply round_aux_not_nan. lia.
Qed.

Lemma Math_floor_not_nan (x : float64) :
  is_nan x = false -> is_nan (JS.Math_floor x) = false.
Proof.
  destruct x as [s|s| |s m e]; intros Hx; try reflexivity; [discriminate|].
  unfold JS.Math_floor. destruct e as [|p|p]; try reflexivity.
  cbv zeta. destruct (_ =? 0); [reflexivity | apply of_Z_not_nan].
Qed.

End FloorFacts.

(** X16.  The downsampling of the JavaScript [getMeasurementHistory],
    [Math.max(1, Math.floor(intervalMs / 1000))], is [NaN] when the
    interval is [NaN] (an interval left out, for one), and the query line
    then carries the text of [NaN]; for every other interval it is a number
    that is at least 1. *)
Theorem JS_downsampling_is_NaN_or_at_least_one (intervalMs : F64.float64) :
  (F64.is_nan intervalMs = true -> JS.downsamplingSeconds intervalMs = F64.nan)
  /\ (F64.is_nan intervalMs = false ->
      F64.is_nan (JS.downsamplingSeconds intervalMs) = false
      /\ SFleb (F64.of_Z 1) (JS.downsamplingSeconds intervalMs) = true)
  /\ (forall (Number_toString : F64.float64 -> string) (sensorID : string)
             (startTimestamp endTimestamp : F64.float64),
        JS.getMeasurementHistory_line Number_toString sensorID
          startTimestamp endTimestamp F64.nan
        = sensorID ++ "," ++ Number_toString startTimestamp ++ ","
            ++ Number_toString endTimestamp ++ "," ++ Number_toString F64.nan
            ++ JS.newline).
Proof.
  split; [|split].
  - destruct intervalMs; try discriminate. reflexivity.
  - intros Hx. unfold JS.downsamplingSeconds.
    set (y := JS.Math_floor (F64.div intervalMs (F64.of_Z 1000))).
    assert (Hy : F64.is_nan y = false).
    { unfold y. apply FloorFacts.Math_floor_not_nan.
      change (F64.of_Z 1000) with (S754_finite false 8796093022208000 (-43)).
      apply FloorFacts.div_not_nan, Hx. }
    clearbody y. unfold JS.Math_max. rewrite Hy.
    change (F64.of_Z 1) with (S754_finite false 4503599627370496 (-52)).
    cbn [F64.is_nan orb].
    destruct (SFcompare (S754_finite false 4503599627370496 (-52)) y) as [[| |]|] eqn:Hc.
    + split; reflexivity.
    + split; [exact Hy|]. unfold SFleb. rewrite Hc. reflexivity.
    + split; reflexivity.
    + split; reflexivity.
  - reflexivity.
Qed.

(** An interval of 0 milliseconds gives 1, one of 2.5 seconds gives 2. *)
Lemma JS_downsampling_is_NaN_or_at_least_one_witness :
  SFleb (F64.of_Z 1) (JS.downsamplingSeconds F64.zero) = true
  /\ JS.downsamplingSeconds F64.zero = F64.of_Z 1
  /\ JS.downsamplingSeconds (F64.of_Z 2500) = F64.of_Z 2.
Proof.
  split; [|split; reflexivity].
  exact (proj2 (proj1 (proj2 (JS_downsampling_is_NaN_or_at_least_one F64.zero)) eq_refl)).
Defined.

(** X17.  A write that the socket refuses, on a client that has
    connected (the ['error'] listener of [connect] is then installed).
    [writeData], [subscribe] and [unsubscribe] are rejected with the error
    of the socket: nothing is written, the listeners stay as they are, and
    so does the [connected] flag, which the driver does not clear; the
    socket refuses the writes that follow as well.  [readData] fails
    likewise, but registers its one-shot listener all the same, so a query
    stays in flight.  A client is in that state as soon as [close] has
    been called, before the socket has finished. *)
Theorem unwritable_socket_rejects :
  (forall (Number_toString : F64.float64 -> string) (c : JS.TSDBClient) (err : JS.Error)
          (key : string) (timestamp value startTime endTime downsampling : F64.float64),
     JS.connected c = true ->
     JS.write_error (JS.socket c) = Some err ->
     let refused (r : JS.TSDBClient * JS.settled unit) :=
       snd r = JS.Rejected err
       /\ JS.written (JS.socket (fst r)) = JS.written (JS.socket c)
       /\ JS.data_listeners (JS.socket (fst r)) = JS.data_listeners (JS.socket c)
       /\ JS.connected (fst r) = true
       /\ JS.next_query (fst r) = JS.next_query c
       /\ JS.write_error (JS.socket (fst r)) <> None in
     refused (JS.writeData Number_toString c key timestamp value)
     /\ refused (JS.subscribe c key)
     /\ refused (JS.unsubscribe c key)
     /\ (let '(c', query, failure) :=
           JS.readData Number_toString c key startTime endTime downsampling in
         failure = Some err
         /\ JS.written (JS.socket c') = JS.written (JS.socket c)
         /\ JS.data_listeners (JS.socket c')
            = (JS.data_listeners (JS.socket c) ++ [JS.OnceData query])%list
         /\ JS.in_flight c' = true
         /\ JS.connected c' = true
         /\ JS.write_error (JS.socket c') <> None))
  /\ (forall c : JS.TSDBClient,
        JS.connected c = true ->
        JS.write_error (JS.socket c) = None ->
        JS.connected (fst (JS.close false c)) = true
        /\ JS.write_error (JS.socket (fst (JS.close false c)))
           = Some JS.ERR_STREAM_WRITE_AFTER_END).
Proof.
  split.
  - intros Number_toString [connected [write_error written listeners] next] err
      key timestamp value startTime endTime downsampling Hconnected Herr.
    cbn [JS.socket JS.write_error JS.connected] in Hconnected, Herr.
    subst connected write_error. cbv zeta.
    unfold JS.writeData, JS.subscribe, JS.unsubscribe, JS.readData, JS.socket_write,
      JS.with_socket.
    cbn [JS.socket JS.write_error JS.written JS.data_listeners JS.next_query JS.connected
         fst snd].
    repeat split; try discriminate.
    unfold JS.in_flight. cbn [JS.socket JS.data_listeners].
    rewrite existsb_app. cbn [existsb JS.is_once]. apply orb_true_r.
  - intros [connected [write_error written listeners] next] Hconnected Hnone.
    cbn [JS.socket JS.write_error JS.connected] in Hconnected, Hnone.
    subst connected write_error. split; reflexivity.
Qed.

(** After [connect] and a [close] that has not finished yet, subscribing
    is rejected with "write after end", and nothing is written. *)
Lemma unwritable_socket_rejects_witness :
  let c := fst (JS.close false (fst (JS.connect None JS.new_TSDBClient))) in
  snd (JS.subscribe c "sensor1") = JS.Rejected (JS.mkError "write after end")
  /\ JS.written (JS.socket (fst (JS.subscribe c "sensor1"))) = "".
Proof.
  pose proof (proj1 (proj2 (proj1 unwritable_socket_rejects
                              (fun _ => "")
                              (fst (JS.close false (fst (JS.connect None JS.new_TSDBClient))))
                              (JS.mkError "write after end")
                              "sensor1" F64.zero F64.zero F64.zero F64.zero F64.zero
                              eq_refl eq_refl))) as H.
  cbv zeta. split; [exact (proj1 H) | exact (proj1 (proj2 H))].
Defined.

(** ** The PHP driver: the average *)

Module PHPFacts.

Lemma average_step_spec (floatval : string -> F64.float64)
    (sum : F64.float64) (count : Z) (measurement : string) :
  PHP.average_step floatval (sum, count) measurement
  = match PHP.explode "," measurement with
    | [_; _; field] => (F64.add sum (floatval field), count + 1)
    | _ => (sum, count)
    end.
Proof.
  unfold PHP.average_step.
  destruct (PHP.explode "," measurement) as [|f0 [|f1 [|f2 [|f3 fs]]]]; reflexivity.
Qed.

Lemma average_loop (floatval : string -> F64.float64) (data : list string) :
  forall (sum : F64.float64) (count : Z),
    fold_left (PHP.average_step floatval) data (sum, count)
    = (fold_left F64.add (PHP.valid_values floatval data) sum,
       count + Z.of_nat (List.length (PHP.valid_values floatval data))).
Proof.
  induction data as [|measurement rest IH]; intros sum count;
    cbn [fold_left PHP.valid_values].
  - rewrite Z.add_0_r. reflexivity.
  - rewrite average_step_spec.
    destruct (PHP.explode "," measurement) as [|f0 [|f1 [|f2 [|f3 fs]]]];
      rewrite IH; try reflexivity.
    cbn [fold_left List.length]. f_equal. lia.
Qed.

Lemma average_of (floatval : string -> F64.float64) (sensorID : string)
    (data : list string) :
  data <> [] ->
  PHP.getAverageMeasurement_of floatval sensorID data
  = match PHP.valid_values floatval data with
    | [] => inr (PHP.Exception "No valid measurements found")
    | values => inl (F64.mean values)
    end.
Proof.
  intros Hne. unfold PHP.getAverageMeasurement_of.
  destruct data as [|r rs]; [congruence|].
  cbn [List.length Nat.eqb]. rewrite average_loop.
  destruct (PHP.valid_values floatval (r :: rs)) as [|v vs]; [reflexivity|].
  cbn [List.length]. rewrite Z.add_0_l.
  destruct (Z.eqb_spec (Z.of_nat (S (List.length vs))) 0) as [H0|_]; [lia|].
  reflexivity.
Qed.

End PHPFacts.

(** X18.  [getAverageMeasurement] of the PHP driver, whatever [floatval]
    makes of a field: it throws "No valid measurements found" exactly when
    the response is not empty and no record has three fields, "No data
    found" exactly for an empty array, which [readData] never returns, and
    it returns the mean of the values of the records with three fields
    otherwise.  A response that holds white space only throws "No valid
    measurements found". *)
Theorem PHP_average_failures (floatval : string -> F64.float64) (sensorID : string) :
  (forall data : list string,
     (PHP.getAverageMeasurement_of floatval sensorID data
      = inr (PHP.Exception "No valid measurements found")
      <-> data <> [] /\ PHP.valid_values floatval data = [])
     /\ (PHP.getAverageMeasurement_of floatval sensorID data
         = inr (PHP.Exception ("No data found for sensor " ++ sensorID
                                 ++ " in the specified time range"))
         <-> data = [])
     /\ (data <> [] -> PHP.valid_values floatval data <> [] ->
         PHP.getAverageMeasurement_of floatval sensorID data
         = inl (F64.mean (PHP.valid_values floatval data))))
  /\ (forall response : option string,
        PHP.getAverageMeasurement_of floatval sensorID (PHP.readData_decode response)
        <> inr (PHP.Exception ("No data found for sensor " ++ sensorID
                                 ++ " in the specified time range")))
  /\ (forall response : string,
        PHP.trim response = "" ->
        PHP.getAverageMeasurement_of floatval sensorID (PHP.readData_decode (Some response))
        = inr (PHP.Exception "No valid measurements found")).
Proof.
  assert (Hcases : forall data : list string,
             (PHP.getAverageMeasurement_of floatval sensorID data
              = inr (PHP.Exception "No valid measurements found")
              <-> data <> [] /\ PHP.valid_values floatval data = [])
             /\ (PHP.getAverageMeasurement_of floatval sensorID data
                 = inr (PHP.Exception ("No data found for sensor " ++ sensorID
                                         ++ " in the specified time range"))
                 <-> data = [])
             /\ (data <> [] -> PHP.valid_values floatval data <> [] ->
                 PHP.getAverageMeasurement_of floatval sensorID data
                 = inl (F64.mean (PHP.valid_values floatval data)))).
  { intros data. destruct data as [|r rs].
    - split; [split; [discriminate | intros [H _]; congruence]|].
      split; [split; reflexivity | intros H; congruence].
    - rewrite (PHPFacts.average_of floatval sensorID (r :: rs)) by discriminate.
      destruct (PHP.valid_values floatval (r :: rs)) as [|v vs].
      + split; [split; [split; [discriminate | reflexivity] | reflexivity]|].
        split; [split; discriminate | intros _ H; congruence].
      + split; [split; [discriminate | intros [_ H]; discriminate]|].
        split; [split; discriminate | reflexivity]. }
  split; [exact Hcases|]. split.
  - intros response Hthrow. apply (proj1 (proj2 (Hcases _))) in Hthrow.
    revert Hthrow. unfold PHP.readData_decode, PHP.explode. apply BytesFacts.split_not_nil.
  - intros response Hblank. unfold PHP.readData_decode. rewrite Hblank. reflexivity.
Qed.

(** A record of three fields between two malformed ones. *)
Lemma PHP_average_failures_witness :
  PHP.getAverageMeasurement_of (fun _ => F64.of_Z 7) "sensor1" ["x"; "a,1,7"; "a,b,c,d"]
  = inl (F64.of_Z 7).
Proof.
  exact (proj2 (proj2 (proj1 (PHP_average_failures (fun _ => F64.of_Z 7) "sensor1")
                         ["x"; "a,1,7"; "a,b,c,d"]))
           ltac:(discriminate) ltac:(discriminate)).
Defined.

(** ** The R driver: the empty response *)

Module RFacts.

Import Bytes BytesFacts.

Lemma split_single_empty (sep : ascii) (x : string) : split sep x = [""] -> x = "".
Proof.
  destruct x as [|c rest]; [reflexivity|]. cbn [split].
  destruct (Ascii.eqb c sep).
  - pose proof (split_not_nil sep rest) as Hne.
    destruct (split sep rest); [congruence | discriminate].
  - destruct (split sep rest); discriminate.
Qed.

(** [strsplit] returns no field for the empty string only. *)
Lemma strsplit_nil (x : string) (sep : ascii) : R.strsplit x sep = [] <-> x = "".
Proof.
  split; [|intros ->; reflexivity].
  unfold R.strsplit. pose proof (split_not_nil sep x) as Hne.
  destruct (split sep x) as [|f fields] eqn:Hsplit; [congruence|].
  destruct fields as [|g fields].
  - cbn [last removelast]. destruct f; [|discriminate].
    intros _. apply (split_single_empty sep), Hsplit.
  - destruct (last (f :: g :: fields) "x"); cbn [removelast]; discriminate.
Qed.

End RFacts.

(** X19.  In the R driver the "No data found" condition is live:
    [readData] returns an empty vector for the empty response line, and for
    no other, so [getLatestMeasurement] and [getAverageMeasurement] stop
    with it exactly when the line read is empty. *)
Theorem R_no_data_for_the_empty_line
    (as_numeric : string -> R.numeric) (mean_nonempty : list F64.float64 -> F64.float64)
    (datetime : Type) (as_datetime : R.numeric -> datetime)
    (sensorID response : string) :
  (R.readData_decode response = [] <-> response = "")
  /\ (R.getLatestMeasurement_of as_numeric datetime as_datetime sensorID
        (R.readData_decode response)
      = R.Stop ("No data found for sensor " ++ sensorID)
      <-> response = "")
  /\ (R.getAverageMeasurement_of as_numeric mean_nonempty sensorID
        (R.readData_decode response)
      = R.Stop ("No data found for sensor " ++ sensorID ++ " in the specified time range")
      <-> response = "").
Proof.
  pose proof (RFacts.strsplit_nil response "|") as Hnil.
  unfold R.readData_decode. split; [exact Hnil|]. split.
  - split.
    + intros Hstop. apply Hnil. unfold R.getLatestMeasurement_of in Hstop.
      destruct (R.strsplit response "|"); [reflexivity | discriminate].
    + intros ->. reflexivity.
  - split.
    + intros Hstop. apply Hnil. unfold R.getAverageMeasurement_of in Hstop.
      destruct (R.strsplit response "|"); [reflexivity | discriminate].
    + intros ->. reflexivity.
Qed.

(** A closed instance of the statement above: the empty line stops both
    functions, whatever the conversions are. *)
Lemma R_no_data_for_the_empty_line_witness :
  R.getLatestMeasurement_of (fun _ => None) unit (fun _ => tt) "sensor1"
    (R.readData_decode "")
  = R.Stop "No data found for sensor sensor1".
Proof.
  exact (proj2 (proj1 (proj2 (R_no_data_for_the_empty_line
                                (fun _ => None) (fun _ => F64.zero) unit (fun _ => tt)
                                "sensor1" "")))
           eq_refl).
Defined.

(** ** What the JavaScript driver makes of a record written by the Go driver *)

Module DateFacts.

Import F64 RoundFacts ExactFacts Bytes BytesFacts.

Lemma of_Z_pos (p : positive) :
  Zpos p < 2 ^ 53 ->
  exists m k,
    of_Z (Zpos p) = S754_finite false m (- k)
    /\ 0 <= k /\ Zpos m = Zpos p * 2 ^ k
    /\ bounded prec emax m (- k) = true
    /\ 2 ^ 52 <= Zpos m < 2 ^ 53.
Proof.
  intros Hp. destruct (canonical_small p Hp) as (m & k & Hk & Hm & Hb & Hr & Halign).
  exists m, k. unfold of_Z, binary_normalize, binary_round.
  rewrite Halign, (round_aux_exact false m (- k) Hb). repeat split; try assumption; lia.
Qed.

(** The product of two integers is exact when it is below [2 ^ 53]. *)
Lemma mul_small (p q : positive) :
  Zpos p * Zpos q < 2 ^ 53 ->
  mul (of_Z (Zpos p)) (of_Z (Zpos q)) = of_Z (Zpos p * Zpos q).
Proof.
  intros Hpq.
  assert (Hp : Zpos p < 2 ^ 53) by nia.
  assert (Hq : Zpos q < 2 ^ 53) by nia.
  destruct (of_Z_pos p Hp) as (m1 & k1 & -> & Hk1 & Hm1 & _ & Hr1).
  destruct (of_Z_pos q Hq) as (m2 & k2 & -> & Hk2 & Hm2 & _ & Hr2).
  change (Zpos p * Zpos q) with (Zpos (p * q)) in *.
  destruct (of_Z_pos (p * q) Hpq) as (M & K & -> & HK & HM & HB & HR).
  unfold mul, SFmul. cbn [xorb].
  rewrite Pos2Z.inj_mul in HM.
  set (j := k1 + k2 - K).
  assert (Hj : 0 <= j).
  { unfold j. destruct (Z.le_gt_cases K (k1 + k2)) as [Hle|Hgt]; [lia | exfalso].
    assert (HMeq : Zpos M = Zpos m1 * Zpos m2 * 2 ^ (K - (k1 + k2))).
    { rewrite HM, Hm1, Hm2.
      replace K with (k1 + k2 + (K - (k1 + k2))) at 1 by lia.
      rewrite !Z.pow_add_r by lia. ring. }
    assert (Hpow : 1 <= 2 ^ (K - (k1 + k2))).
    { assert (0 < 2 ^ (K - (k1 + k2))) by (apply Z.pow_pos_nonneg; lia). lia. }
    set (a := 2 ^ (K - (k1 + k2))) in *. clearbody a.
    change (2 ^ 52) with 4503599627370496 in *.
    change (2 ^ 53) with 9007199254740992 in *.
    clear - HMeq Hpow Hr1 Hr2 HR. nia. }
  assert (Hprod : Zpos (m1 * m2) = Zpos M * 2 ^ j).
  { rewrite Pos2Z.inj_mul, HM, Hm1, Hm2.
    assert (Hpows : 2 ^ k1 * 2 ^ k2 = 2 ^ K * 2 ^ j).
    { rewrite <- !Z.pow_add_r by lia. f_equal. unfold j. lia. }
    replace (Zpos p * 2 ^ k1 * (Zpos q * 2 ^ k2))
      with (Zpos p * Zpos q * (2 ^ k1 * 2 ^ k2)) by ring.
    rewrite Hpows. ring. }
  rewrite Hprod. replace (- k1 + - k2) with (- K - j) by (unfold j; lia).
  apply round_aux_shift_exact; assumption.
Qed.

(** [TimeClip] of an integer. *)
Lemma TimeClip_of_Z (t : Z) :
  - 2 ^ 53 < t < 2 ^ 53 ->
  JS.TimeClip (of_Z t) = if 8640000000000000 <? Z.abs t then nan else of_Z t.
Proof. intros Ht. unfold JS.TimeClip. rewrite (truncate_of_Z t Ht). reflexivity. Qed.

(** *** Reading digits *)

Lemma digit_not (c x : ascii) :
  is_digit c = true -> is_digit x = false -> Ascii.eqb c x = false.
Proof.
  intros Hc Hx. destruct (Ascii.eqb_spec c x) as [->|]; [congruence | reflexivity].
Qed.

Lemma take_digits_run (ds : string) :
  forall (rest : string) (acc : N) (len : Z) (v : N),
    digits_value ds acc = Some v ->
    match rest with
    | EmptyString => True
    | String c _ => is_digit c = false
    end ->
    JS.take_digits (ds ++ rest) acc len = (v, len + Z.of_nat (String.length ds), rest).
Proof.
  induction ds as [|c ds IH]; intros rest acc len v Hvalue Hrest.
  - cbn [digits_value] in Hvalue. injection Hvalue as <-.
    cbn [append String.length]. rewrite Z.add_0_r.
    destruct rest as [|c rest]; [reflexivity|].
    cbn [JS.take_digits]. unfold is_digit in Hrest.
    destruct (digit_value c); [discriminate | reflexivity].
  - cbn [digits_value] in Hvalue. cbn [append JS.take_digits String.length].
    destruct (digit_value c) as [d|]; [|discriminate].
    rewrite (IH rest _ (len + 1) v Hvalue Hrest). f_equal. f_equal. lia.
Qed.

Lemma JS_no_trim (c : ascii) (s : string) :
  printable c = true -> JS.trimStart (String c s) = String c s.
Proof.
  intros Hc. unfold JS.trimStart. apply trim_left_none.
  apply GoFacts.printable_range in Hc. apply strip_first_head. GoFacts.no_rune.
Qed.

(** [parseInt] of the decimal text of a natural number. *)
Lemma parseInt_decimal (n : N) :
  JS.parseInt (Some (decimal n)) = of_scaled false n 10 0.
Proof.
  destruct (decimal_spec n) as (d & c & Hdec & Hall & Hvalue).
  rewrite Hdec. cbn [all_chars] in Hall. apply andb_true_iff in Hall as [Hc Hd].
  unfold JS.parseInt, JS.ToString.
  rewrite (JS_no_trim c d (GoFacts.is_digit_printable c Hc)).
  unfold JS.take_sign.
  rewrite (digit_not c "-" Hc eq_refl), (digit_not c "+" Hc eq_refl).
  assert (Hhex : match d with
                 | String c1 rest =>
                     if Ascii.eqb c "0" && (Ascii.eqb c1 "x" || Ascii.eqb c1 "X")
                     then (true, rest) else (false, String c d)
                 | EmptyString => (false, String c d)
                 end = (false, String c d)).
  { destruct d as [|c1 rest]; [reflexivity|].
    cbn [all_chars] in Hd. apply andb_true_iff in Hd as [Hc1 _].
    rewrite (digit_not c1 "x" Hc1 eq_refl), (digit_not c1 "X" Hc1 eq_refl).
    rewrite andb_false_r. reflexivity. }
  rewrite Hhex.
  pose proof (take_digits_run (String c d) "" 0 0 n Hvalue I) as Hrun.
  rewrite append_empty_r in Hrun. rewrite Hrun.
  cbn [String.length]. rewrite Z.add_0_l.
  destruct (Z.eqb_spec (Z.of_nat (S (String.length d))) 0) as [H0|_]; [lia | reflexivity].
Qed.

Lemma of_scaled_small (n : N) :
  Z.of_N n < 2 ^ 53 -> of_scaled false n 10 0 = of_Z (Z.of_N n).
Proof.
  intros Hn. destruct n as [|p]; [reflexivity|].
  cbn [of_scaled Z.of_N]. change (Z.to_pos (10 ^ 0)) with 1%positive.
  rewrite Pos.mul_1_r.
  destruct (of_Z_pos p Hn) as (m & k & -> & Hk & Hm & Hb & _).
  apply round_ratio_exact; [exact Hb|].
  rewrite Z.opp_involutive, Z.max_l by lia.
  rewrite Z.max_r by lia. change (2 ^ 0) with 1. lia.
Qed.

(** The date [new Date(parseInt(text) * 1000)] for the decimal text of a
    number of seconds. *)
Lemma Date_of_seconds (seconds : N) :
  Z.of_N seconds * 1000 <= 8640000000000000 ->
  JS.new_Date (mul (JS.parseInt (Some (decimal seconds))) (of_Z 1000))
  = {| JS.DateValue := of_Z (Z.of_N seconds * 1000) |}.
Proof.
  intros Hs. rewrite parseInt_decimal, of_scaled_small by lia.
  unfold JS.new_Date. f_equal.
  destruct seconds as [|p]; [reflexivity|]. cbn [Z.of_N] in *.
  rewrite (mul_small p 1000) by lia.
  rewrite TimeClip_of_Z by lia.
  destruct (Z.ltb_spec 8640000000000000 (Z.abs (Zpos p * 1000))) as [H|_]; [lia|].
  reflexivity.
Qed.

(** [parseFloat] of what [%.2f] prints for a finite number. *)
Lemma parseFloat_fmt_2f (s : bool) (n : N) :
  JS.parseFloat (Some ((if s then "-" else "") ++ decimal (n / 100) ++ "."
                         ++ Go.two_digits (n mod 100)))
  = of_scaled s n 10 (-2).
Proof.
  destruct (decimal_spec (n / 100)) as (d & c & Hdec & Hall & Hvalue).
  assert (Hc : is_digit c = true).
  { cbn [all_chars] in Hall. apply andb_true_iff in Hall as [Hc _]. exact Hc. }
  assert (Hk : (n mod 100 < 100)%N) by (apply N.mod_lt; lia).
  assert (Hn : digits_value (Go.two_digits (n mod 100)) (n / 100) = Some n).
  { rewrite (ParseFloatFacts.two_digits_value _ _ Hk). f_equal.
    pose proof (N.div_mod n 100 ltac:(lia)). lia. }
  unfold JS.parseFloat, JS.ToString.
  assert (Hsign : JS.take_sign
                    (JS.trimStart ((if s then "-" else "") ++ decimal (n / 100) ++ "."
                                     ++ Go.two_digits (n mod 100)))
                  = (s, decimal (n / 100) ++ "." ++ Go.two_digits (n mod 100))).
  { rewrite Hdec. destruct s; cbn [append].
    - rewrite JS_no_trim by reflexivity. reflexivity.
    - rewrite JS_no_trim by (apply GoFacts.is_digit_printable, Hc).
      unfold JS.take_sign.
      rewrite (digit_not c "-" Hc eq_refl), (digit_not c "+" Hc eq_refl). reflexivity. }
  rewrite Hsign.
  assert (Hinf : JS.starts_with "Infinity"
                   (decimal (n / 100) ++ "." ++ Go.two_digits (n mod 100)) = false).
  { rewrite Hdec. unfold JS.starts_with. cbn [String.length append substring String.eqb].
    rewrite (digit_not c "I" Hc eq_refl). reflexivity. }
  rewrite Hinf.
  rewrite (take_digits_run (decimal (n / 100)) ("." ++ Go.two_digits (n mod 100))
             0 0 (n / 100)); [| rewrite Hdec; exact Hvalue | reflexivity].
  cbn [append].
  pose proof (take_digits_run (Go.two_digits (n mod 100)) "" (n / 100) 0 n Hn I) as Hfrac.
  rewrite append_empty_r in Hfrac.
  rewrite Ascii.eqb_refl, Hfrac, Hdec. cbn [String.length Go.two_digits].
  destruct (Z.eqb_spec (0 + Z.of_nat (S (String.length d)) + (0 + Z.of_nat 2)) 0) as [H0|_];
    [lia|].
  reflexivity.
Qed.

Lemma parseFloat_written (value : float64) :
  is_finite value = true ->
  JS.parseFloat (Some (Go.fmt_2f value)) = Go.two_decimals value.
Proof.
  destruct value as [s|s| |s m e]; try discriminate; intros _.
  - destruct s; reflexivity.
  - cbn [Go.fmt_2f Go.two_decimals]. apply parseFloat_fmt_2f.
Qed.

End DateFacts.

(** X20.  A record in the form the Go driver writes it is decoded by the
    JavaScript driver to the same measurement: the key, the date of the
    timestamp (its seconds times 1000, exactly, for every timestamp from 0
    up to the last date JavaScript can hold) and the value rounded to two
    decimals, the float64 the Go driver reads back as well.  This holds in
    the subscription listener, in [getLatestMeasurement] and in
    [getMeasurementHistory].  The values that are not finite do not come
    through: [parseFloat] makes [NaN] of ["+Inf"] and of ["-Inf"]. *)
Theorem JS_reads_what_Go_writes (key : string) (timestamp : Z) (value : F64.float64) :
  Bytes.contains "," key = false ->
  0 <= timestamp ->
  timestamp * 1000 <= 8640000000000000 ->
  F64.is_finite value = true ->
  let record := Go.record_text (key, timestamp, value) in
  let date := {| JS.DateValue := F64.of_Z (timestamp * 1000) |} in
  JS.decodePushLine record
  = {| JS.key := Some key; JS.timestamp := date; JS.value := Go.two_decimals value |}
  /\ (forall (sensorID : string) (data : list string),
        JS.getLatestMeasurement_of sensorID (data ++ [record])
        = JS.Fulfilled (Go.two_decimals value, date))
  /\ (forall data : list string,
        JS.getMeasurementHistory_of (data ++ [record])
        = (JS.getMeasurementHistory_of data ++ [(date, Go.two_decimals value)])%list)
  /\ JS.parseFloat (Some (Go.fmt_2f (S754_infinity false))) = F64.nan
  /\ JS.parseFloat (Some (Go.fmt_2f (S754_infinity true))) = F64.nan
  /\ JS.parseFloat (Some (Go.fmt_2f F64.nan)) = F64.nan.
Proof.
  intros Hkey Hpos Hmax Hfinite record date.
  assert (Hsplit : JS.split record ","
                   = [key; Bytes.decimal (Z.to_N timestamp); Go.fmt_2f value]).
  { pose proof (Split_record key (Go.fmt_d timestamp) (Go.fmt_2f value) Hkey
                  (GoFacts.fmt_d_no "," timestamp eq_refl)
                  (GoFacts.fmt_2f_no "," value eq_refl)) as Hs.
    unfold Go.strings_Split in Hs. unfold JS.split, record, Go.record_text.
    rewrite Hs. unfold Go.fmt_d, Bytes.decimal_Z.
    destruct timestamp; [reflexivity | reflexivity | lia]. }
  assert (Hdate : JS.new_Date
                    (F64.mul (JS.parseInt (Some (Bytes.decimal (Z.to_N timestamp))))
                       (F64.of_Z 1000))
                  = date).
  { unfold date. rewrite DateFacts.Date_of_seconds by (rewrite Z2N.id by lia; lia).
    rewrite Z2N.id by lia. reflexivity. }
  pose proof (DateFacts.parseFloat_written value Hfinite) as Hvalue.
  split; [|split; [|split; [|split; [|split]]]]; try reflexivity.
  - unfold JS.decodePushLine. rewrite Hsplit. cbn [nth_error]. rewrite Hdate, Hvalue.
    reflexivity.
  - intros sensorID data. unfold JS.getLatestMeasurement_of.
    rewrite ResponseFacts.length_snoc, ResponseFacts.nth_last, Hsplit.
    cbn [nth_error]. rewrite Hdate, Hvalue. reflexivity.
  - intros data. unfold JS.getMeasurementHistory_of. rewrite map_app. cbn [map].
    rewrite Hsplit. cbn [nth_error]. rewrite Hdate, Hvalue. reflexivity.
Qed.

(** The record of sensor1 at 1700000000 with the value 25.5. *)
Lemma JS_reads_what_Go_writes_witness :
  JS.decodePushLine "sensor1,1700000000,25.50"
  = {| JS.key := Some "sensor1";
       JS.timestamp := {| JS.DateValue := F64.of_Z 1700000000000 |};
       JS.value := S754_finite false 7177611906121728 (-48) |}.
Proof.
  exact (proj1 (JS_reads_what_Go_writes "sensor1" 1700000000
                  (S754_finite false 7177611906121728 (-48))
                  eq_refl ltac:(lia) ltac:(lia) eq_refl)).
Defined.

(** ** The JavaScript queries on a response made of written records *)

Module JSResponseFacts.

Import Bytes BytesFacts.

Lemma readable_record_spec (key : string) (timestamp : Z) (value : F64.float64) :
  JS.readable_record (key, timestamp, value) = true ->
  Go.plain_record (key, timestamp, value) = true
  /\ starts_with_any JS.space_runes key = false
  /\ 0 <= timestamp /\ timestamp * 1000 <= 8640000000000000
  /\ F64.is_finite value = true.
Proof.
  unfold JS.readable_record. intros H.
  apply andb_true_iff in H as [H Hfinite]. apply andb_true_iff in H as [H Hmax].
  apply andb_true_iff in H as [H Hmin]. apply andb_true_iff in H as [Hplain Hlead].
  apply negb_true_iff in Hlead. apply Z.leb_le in Hmin, Hmax.
  repeat split; assumption.
Qed.

Lemma readable_records_plain (records : list (string * Z * F64.float64)) :
  forallb JS.readable_record records = true -> forallb Go.plain_record records = true.
Proof.
  rewrite !forallb_forall. intros Hall [[key timestamp] value] Hin.
  apply (readable_record_spec key timestamp value (Hall _ Hin)).
Qed.

(** [trim] of a line: a body that does not start with white space, a
    last printable byte, a line feed. *)
Lemma JS_trim_line (body : string) (last : ascii) :
  starts_with_any JS.space_runes (body ++ String last JS.newline) = false ->
  printable last = true ->
  JS.trim (body ++ String last JS.newline) = body ++ String last "".
Proof.
  intros Hbody Hlast. unfold JS.trim. apply trim_line.
  - exact Hbody.
  - reflexivity.
  - apply GoFacts.printable_range in Hlast. apply strip_first_head. GoFacts.no_rune.
Qed.

(** What the listener of [readData] makes of a response line that carries
    written records: the records, as in the Go driver. *)
Lemma readData_decode_response_line (records : list (string * Z * F64.float64)) :
  records <> [] ->
  forallb JS.readable_record records = true ->
  JS.readData_decode (Go.response_line records) = map Go.record_text records.
Proof.
  intros Hne Hall.
  pose proof (readable_records_plain records Hall) as Hplain.
  rewrite forallb_forall in Hall, Hplain.
  assert (Htexts : map Go.record_text records <> []).
  { destruct records; [congruence | discriminate]. }
  destruct (ResponseFacts.join_records_last (map Go.record_text records) Htexts)
    as (body & last & Hjoin & Hlast).
  { apply Forall_forall. intros text Hin. apply in_map_iff in Hin as (r & <- & _).
    apply ResponseFacts.record_text_last. }
  unfold JS.readData_decode, Go.response_line.
  assert (Hline : Go.join_records (map Go.record_text records) ++ Go.newline
                  = body ++ String last JS.newline).
  { rewrite Hjoin, append_assoc. reflexivity. }
  rewrite Hline, JS_trim_line.
  - rewrite <- Hjoin.
    apply (ResponseFacts.join_records_split (map Go.record_text records) Htexts).
    apply Forall_forall. intros text Hin. apply in_map_iff in Hin as (r & <- & Hr).
    apply ResponseFacts.record_text_no_bar, Hplain, Hr.
  - rewrite <- Hline. destruct records as [|[[key timestamp] value] records]; [congruence|].
    cbn [map].
    destruct (ResponseFacts.join_records_head (Go.record_text (key, timestamp, value))
                (map Go.record_text records)) as [rest ->].
    destruct (readable_record_spec key timestamp value (Hall _ (or_introl eq_refl)))
      as (_ & Hlead & _).
    change (Go.record_text (key, timestamp, value))
      with (key ++ String "," (Go.fmt_d timestamp ++ "," ++ Go.fmt_2f value)).
    rewrite (append_assoc key), (append_assoc key). cbn [append].
    apply strip_first_within; [reflexivity | exact Hlead].
  - exact Hlast.
Qed.

(** One record, as each function of the driver reads it. *)
Lemma record_fields (key : string) (timestamp : Z) (value : F64.float64) :
  JS.readable_record (key, timestamp, value) = true ->
  JS.split (Go.record_text (key, timestamp, value)) ","
  = [key; decimal (Z.to_N timestamp); Go.fmt_2f value]
  /\ JS.new_Date (F64.mul (JS.parseInt (Some (decimal (Z.to_N timestamp)))) (F64.of_Z 1000))
     = {| JS.DateValue := F64.of_Z (timestamp * 1000) |}
  /\ JS.parseFloat (Some (Go.fmt_2f value)) = Go.two_decimals value.
Proof.
  intros Hr. apply readable_record_spec in Hr as (Hplain & _ & Hmin & Hmax & Hfinite).
  split; [|split].
  - pose proof (ResponseFacts.Split_record_text key timestamp value Hplain) as Hs.
    unfold Go.strings_Split in Hs. unfold JS.split. rewrite Hs.
    unfold Go.fmt_d, decimal_Z. destruct timestamp; [reflexivity | reflexivity | lia].
  - rewrite DateFacts.Date_of_seconds by (rewrite Z2N.id by lia; lia).
    rewrite Z2N.id by lia. reflexivity.
  - apply DateFacts.parseFloat_written, Hfinite.
Qed.

Lemma JS_valid_values_record_texts (records : list (string * Z * F64.float64)) :
  forallb JS.readable_record records = true ->
  JS.valid_values (map Go.record_text records)
  = map (fun r => Go.two_decimals (snd r)) records.
Proof.
  induction records as [|[[key timestamp] value] records IH]; intros Hall; [reflexivity|].
  cbn [forallb] in Hall. apply andb_true_iff in Hall as [Hr Hrest].
  cbn [map JS.valid_values snd]. unfold JS.valid_value.
  destruct (record_fields key timestamp value Hr) as (-> & _ & ->).
  rewrite (IH Hrest). reflexivity.
Qed.

Lemma JS_history_of_record_texts (records : list (string * Z * F64.float64)) :
  forallb JS.readable_record records = true ->
  JS.getMeasurementHistory_of (map Go.record_text records)
  = map (fun r => ({| JS.DateValue := F64.of_Z (snd (fst r) * 1000) |},
                   Go.two_decimals (snd r))) records.
Proof.
  induction records as [|[[key timestamp] value] records IH]; intros Hall; [reflexivity|].
  cbn [forallb] in Hall. apply andb_true_iff in Hall as [Hr Hrest].
  destruct (record_fields key timestamp value Hr) as (Hsplit & Hdate & Hvalue).
  cbn [map fst snd]. rewrite <- (IH Hrest).
  unfold JS.getMeasurementHistory_of. cbn [map]. rewrite Hsplit. cbn [nth_error].
  rewrite Hdate, Hvalue. reflexivity.
Qed.

End JSResponseFacts.

(** X21.  On a response line that carries written records, the
    JavaScript driver finds what the Go driver finds: the same records, the
    same average (the mean of the values rounded to two decimals), the last
    record as the latest measurement, and one history entry for each
    record, whose date is the timestamp in milliseconds.  (Plain keys that
    do not start with a byte-order mark, timestamps from 0 up to the last
    date JavaScript can hold, finite values.) *)
Theorem JS_queries_on_written_records (sensorID : string)
    (records : list (string * Z * F64.float64)) :
  records <> [] ->
  forallb JS.readable_record records = true ->
  JS.readData_decode (Go.response_line records)
  = Go.ReadData_decode (Go.response_line records)
  /\ JS.getAverageMeasurement_of sensorID (JS.readData_decode (Go.response_line records))
     = JS.Fulfilled (F64.mean (map (fun r => Go.two_decimals (snd r)) records))
  /\ Go.GetAverageMeasurement_of sensorID (Go.ReadData_decode (Go.response_line records))
     = Go.Ok (F64.mean (map (fun r => Go.two_decimals (snd r)) records))
  /\ JS.getMeasurementHistory_of (JS.readData_decode (Go.response_line records))
     = map (fun r => ({| JS.DateValue := F64.of_Z (snd (fst r) * 1000) |},
                      Go.two_decimals (snd r))) records
  /\ JS.getLatestMeasurement_of sensorID (JS.readData_decode (Go.response_line records))
     = JS.Fulfilled (Go.two_decimals (snd (last records (EmptyString, 0, F64.zero))),
                     {| JS.DateValue :=
                          F64.of_Z (snd (fst (last records (EmptyString, 0, F64.zero)))
                                    * 1000) |}).
Proof.
  intros Hne Hall.
  pose proof (JSResponseFacts.readable_records_plain records Hall) as Hplain.
  rewrite (JSResponseFacts.readData_decode_response_line records Hne Hall).
  rewrite (ResponseFacts.ReadData_decode_response_line records Hne Hplain).
  split; [reflexivity|]. split; [|split; [|split]].
  - rewrite JS_average_of by (destruct records; [congruence | discriminate]).
    rewrite (JSResponseFacts.JS_valid_values_record_texts records Hall).
    destruct records as [|r records]; [congruence | reflexivity].
  - apply ResponseFacts.average_of_record_texts; assumption.
  - apply JSResponseFacts.JS_history_of_record_texts, Hall.
  - destruct (exists_last Hne) as (earlier & [[key timestamp] value] & ->).
    rewrite last_last. cbn [fst snd].
    rewrite map_app. cbn [map]. unfold JS.getLatestMeasurement_of.
    rewrite ResponseFacts.length_snoc, ResponseFacts.nth_last.
    rewrite forallb_app in Hall. apply andb_true_iff in Hall as [_ Hr].
    cbn [forallb] in Hr. rewrite andb_true_r in Hr.
    destruct (JSResponseFacts.record_fields key timestamp value Hr) as (-> & Hdate & Hvalue).
    cbn [nth_error]. rewrite Hdate, Hvalue. reflexivity.
Qed.

(** Two records, 10 and 20: both drivers find the average 15. *)
Lemma JS_queries_on_written_records_witness :
  JS.getAverageMeasurement_of "sensor1"
    (JS.readData_decode
       (Go.response_line [("a", 1, F64.of_Z 10); ("b", 2, F64.of_Z 20)]))
  = JS.Fulfilled (F64.of_Z 15).
Proof.
  exact (proj1 (proj2 (JS_queries_on_written_records "sensor1"
                         [("a", 1, F64.of_Z 10); ("b", 2, F64.of_Z 20)]
                         ltac:(discriminate) eq_refl))).
Defined.

(** ** The average of a single value *)

Module MeanFacts.

Import F64 RoundFacts.

(** Dividing a float64 by 1 leaves it as it is. *)
Lemma div_one (v : float64) : is_binary64 v = true -> div v (of_Z 1) = v.
Proof.
  change (of_Z 1) with (S754_finite false 4503599627370496 (-52)).
  destruct v as [s|s| |s m e]; intros Hb.
  - destruct s; reflexivity.
  - destruct s; reflexivity.
  - reflexivity.
  - unfold is_binary64 in Hb. cbn [valid_binary] in Hb.
    destruct (bounded_spec m e Hb) as [Hcanon Hemax].
    unfold div, SFdiv. rewrite xorb_false_r.
    unfold SFdiv_core_binary. cbn [Zdigits2].
    change (Zpos (digits2_pos 4503599627370496)) with 53.
    set (dm := Zpos (digits2_pos m)) in *.
    set (f := fexp prec emax (dm + e - (53 + -52))).
    assert (Hdm : 1 <= dm) by (unfold dm; lia).
    assert (Hf : f = e - 1 \/ f = e).
    { unfold f. unfold fexp, emin, prec, emax in *. lia. }
    replace (Z.min f (e - -52)) with f by lia.
    set (j := e - f).
    assert (Hj : 0 <= j <= 1) by (unfold j; lia).
    replace (e - -52 - f) with (52 + j) by (unfold j; lia).
    assert (Hshift : match 52 + j with
                     | 0 => Zpos m
                     | Zpos _ => Z.shiftl (Zpos m) (52 + j)
                     | Zneg _ => 0
                     end = Zpos m * 2 ^ j * 4503599627370496).
    { destruct (52 + j) as [|sp|sp] eqn:Hs; [lia | | lia].
      rewrite Z.shiftl_mul_pow2 by lia. rewrite <- Hs.
      rewrite Z.add_comm, Z.pow_add_r by lia. change (2 ^ 52) with 4503599627370496.
      ring. }
    rewrite Hshift.
    assert (Hq : Zpos m * 2 ^ j * 4503599627370496 / 4503599627370496 = Zpos m * 2 ^ j)
      by (apply Z.div_mul; lia).
    assert (Hr : (Zpos m * 2 ^ j * 4503599627370496) mod 4503599627370496 = 0)
      by (apply Z.mod_mul; lia).
    unfold Z.div in Hq. unfold Z.modulo in Hr.
    destruct (Z.div_eucl (Zpos m * 2 ^ j * 4503599627370496) 4503599627370496) as [q r].
    subst q r. rewrite new_location_exact.
    replace f with (e - j) by (unfold j; lia).
    apply ExactFacts.round_aux_shift_exact; [exact Hb | lia].
Qed.

(** The mean of one value is the value; the zero comes out positive. *)
Lemma mean_one (v : float64) :
  is_binary64 v = true -> v <> S754_zero true -> mean [v] = v.
Proof.
  intros Hb Hv. unfold mean. cbn [fold_left List.length].
  change (of_Z (Z.of_nat 1)) with (of_Z 1).
  assert (Hadd : add zero v = v).
  { destruct v as [[|]| | |]; try reflexivity. congruence. }
  rewrite Hadd. apply div_one, Hb.
Qed.

End MeanFacts.

(** X22.  When exactly one record of the response is counted, the average
    is the value of that record, with no rounding: the sum [0 + value] and
    the division by the count 1 are exact (Go, JavaScript, PHP).  The one
    exception is a value of [-0], whose average is [+0]. *)
Theorem average_of_one_value (sensorID : string) (data : list string)
    (value : F64.float64) :
  F64.is_binary64 value = true ->
  value <> S754_zero true ->
  (Go.valid_values data = [value] ->
   Go.GetAverageMeasurement_of sensorID data = Go.Ok value)
  /\ (JS.valid_values data = [value] ->
      JS.getAverageMeasurement_of sensorID data = JS.Fulfilled value)
  /\ (forall floatval : string -> F64.float64,
        PHP.valid_values floatval data = [value] ->
        PHP.getAverageMeasurement_of floatval sensorID data = inl value)
  /\ F64.mean [S754_zero true] = F64.zero.
Proof.
  intros Hb Hv. pose proof (MeanFacts.mean_one value Hb Hv) as Hmean.
  split; [|split; [|split]].
  - intros Hvalues. rewrite Go_average_of by (destruct data; discriminate).
    rewrite Hvalues, Hmean. reflexivity.
  - intros Hvalues. rewrite JS_average_of by (destruct data; discriminate).
    rewrite Hvalues, Hmean. reflexivity.
  - intros floatval Hvalues.
    rewrite PHPFacts.average_of by (destruct data; discriminate).
    rewrite Hvalues, Hmean. reflexivity.
  - reflexivity.
Qed.

(** One good record of value 0.1 among malformed ones. *)
Lemma average_of_one_value_witness :
  Go.GetAverageMeasurement_of "sensor1" ["garbage"; "a,1,0.1"; "a,2"]
  = Go.Ok (S754_finite false 7205759403792794 (-56)).
Proof.
  refine (proj1 (average_of_one_value "sensor1" ["garbage"; "a,1,0.1"; "a,2"]
                   (S754_finite false 7205759403792794 (-56)) eq_refl _) eq_refl).
  discriminate.
Defined.

(** ** The forwarding server ([src/main.go]) *)

Module MainFacts.

Import Bytes BytesFacts.

Lemma scan_fields_cons (line : string) (fields : list string) :
  fields <> [] ->
  Main.scan_fields (line :: fields)
  = if Main.too_long line then [] else Main.dropCR line :: Main.scan_fields fields.
Proof. destruct fields as [|f fields]; [congruence | reflexivity]. Qed.

(** The input made of [lines], each followed by a line feed, then
    [tail]. *)
Lemma split_lines (lines : list string) (tail : string) :
  Forall (fun line => contains "010" line = false) lines ->
  split "010" (Go.concat_segments (map (fun line => line ++ Go.newline) lines) ++ tail)
  = (lines ++ split "010" tail)%list.
Proof.
  induction lines as [|line lines IH]; intros Hall; [reflexivity|].
  inversion Hall as [|? ? Hline Hrest]; subst.
  cbn [map Go.concat_segments app]. rewrite !append_assoc.
  change (Go.newline ++ ?x) with (String "010" x).
  rewrite (split_app_sep _ _ _ Hline), (IH Hrest). reflexivity.
Qed.

Lemma scan_fields_lines (lines fields : list string) :
  Forall (fun line => Main.too_long line = false) lines ->
  fields <> [] ->
  Main.scan_fields (lines ++ fields) = (map Main.dropCR lines ++ Main.scan_fields fields)%list.
Proof.
  intros Hall Hne. induction lines as [|line lines IH]; [reflexivity|].
  inversion Hall as [|? ? Hline Hrest]; subst.
  cbn [app map]. rewrite scan_fields_cons.
  - rewrite Hline, (IH Hrest). reflexivity.
  - destruct lines; [exact Hne | discriminate].
Qed.

Lemma Forall_and_l (P Q : string -> Prop) (l : list string) :
  Forall (fun x => P x /\ Q x) l -> Forall P l /\ Forall Q l.
Proof.
  intros H. split; apply Forall_forall; intros x Hx;
    apply (proj1 (Forall_forall _ l) H x Hx).
Qed.

(** What the scanner makes of whole lines followed by [tail]. *)
Lemma Scanner_lines_prefix (lines : list string) (tail : string) :
  Forall (fun line => contains "010" line = false /\ Main.too_long line = false) lines ->
  Main.Scanner_lines
    (Go.concat_segments (map (fun line => line ++ Go.newline) lines) ++ tail)
  = (map Main.dropCR lines ++ Main.scan_fields (split "010" tail))%list.
Proof.
  intros Hall. apply Forall_and_l in Hall as [Hnl Hlen].
  unfold Main.Scanner_lines. rewrite (split_lines lines tail Hnl).
  apply scan_fields_lines; [exact Hlen | apply split_not_nil].
Qed.

Lemma dropCR_CR (line : string) : Main.dropCR (line ++ String "013" "") = line.
Proof.
  unfold Main.dropCR. rewrite rev_app. cbn [rev rev_acc append Ascii.eqb].
  change (rev_acc "" (String "013" "")) with (String "013" "").
  cbn [append]. apply rev_involutive.
Qed.

(** The loop of the handler on an open connection to the TSDB, and on a
    closed one. *)
Lemma handle_loop_open (now : nat -> Z) (inbound : list string) (lines : list string) :
  forall (logged : list string) (sent : string) (turn : nat),
    fold_left (Main.handle_line now) lines
      (logged, {| Go.conn := {| Go.tcp_closed := false; Go.tcp_sent := sent;
                                Go.tcp_inbound := inbound |} |}, turn)
    = ((logged ++ lines)%list,
       {| Go.conn := {| Go.tcp_closed := false;
                        Go.tcp_sent := sent ++ Main.recorded now turn (List.length lines);
                        Go.tcp_inbound := inbound |} |},
       (turn + List.length lines)%nat).
Proof.
  induction lines as [|line lines IH]; intros logged sent turn.
  - cbn [fold_left List.length Main.recorded]. rewrite app_nil_r, append_empty_r, Nat.add_0_r.
    reflexivity.
  - cbn [fold_left List.length Main.recorded].
    change (Main.handle_line now
              (logged, {| Go.conn := {| Go.tcp_closed := false; Go.tcp_sent := sent;
                                        Go.tcp_inbound := inbound |} |}, turn) line)
      with ((logged ++ [line])%list,
            {| Go.conn := {| Go.tcp_closed := false;
                             Go.tcp_sent := sent ++ Go.WriteData_line "111" (now turn)
                                                      Main.measurement;
                             Go.tcp_inbound := inbound |} |},
            S turn).
    rewrite IH, <- app_assoc, append_assoc. cbn [app].
    replace (S turn + List.length lines)%nat with (turn + S (List.length lines))%nat by lia.
    reflexivity.
Qed.

Lemma handle_loop_closed (now : nat -> Z) (sent : string) (inbound : list string)
    (lines : list string) :
  forall (logged : list string) (turn : nat),
    fold_left (Main.handle_line now) lines
      (logged, {| Go.conn := {| Go.tcp_closed := true; Go.tcp_sent := sent;
                                Go.tcp_inbound := inbound |} |}, turn)
    = ((logged ++ lines)%list,
       {| Go.conn := {| Go.tcp_closed := true; Go.tcp_sent := sent;
                        Go.tcp_inbound := inbound |} |},
       (turn + List.length lines)%nat).
Proof.
  induction lines as [|line lines IH]; intros logged turn.
  - cbn [fold_left List.length]. rewrite app_nil_r, Nat.add_0_r. reflexivity.
  - cbn [fold_left List.length].
    change (Main.handle_line now
              (logged, {| Go.conn := {| Go.tcp_closed := true; Go.tcp_sent := sent;
                                        Go.tcp_inbound := inbound |} |}, turn) line)
      with ((logged ++ [line])%list,
            {| Go.conn := {| Go.tcp_closed := true; Go.tcp_sent := sent;
                             Go.tcp_inbound := inbound |} |},
            S turn).
    rewrite IH, <- app_assoc. cbn [app].
    replace (S turn + List.length lines)%nat with (turn + S (List.length lines))%nat by lia.
    reflexivity.
Qed.

End MainFacts.

(** X23.  The scanner of the forwarding server yields one token for each
    line of its input, with the line feed and a carriage return before it
    taken off; an empty line is a token, and so is what follows the last
    line feed when it is not empty.  A line of 65536 bytes or more stops
    the scanner: neither that line nor anything after it is seen. *)
Theorem Scanner_yields_each_line (lines : list string) :
  Forall (fun line => Bytes.contains "010" line = false /\ Main.too_long line = false)
         lines ->
  Main.Scanner_lines (Go.concat_segments (map (fun line => line ++ Go.newline) lines))
  = map Main.dropCR lines
  /\ (forall final : string,
        Bytes.contains "010" final = false -> Main.too_long final = false ->
        final <> "" ->
        Main.Scanner_lines
          (Go.concat_segments (map (fun line => line ++ Go.newline) lines) ++ final)
        = (map Main.dropCR lines ++ [Main.dropCR final])%list)
  /\ (forall long more : string,
        Bytes.contains "010" long = false -> Main.too_long long = true ->
        Main.Scanner_lines
          (Go.concat_segments (map (fun line => line ++ Go.newline) lines) ++ long)
        = map Main.dropCR lines
        /\ Main.Scanner_lines
             (Go.concat_segments (map (fun line => line ++ Go.newline) lines)
                ++ long ++ Go.newline ++ more)
           = map Main.dropCR lines)
  /\ (forall line : string, Main.dropCR (line ++ String "013" "") = line)
  /\ Main.dropCR "" = "".
Proof.
  intros Hall. split; [|split; [|split; [|split]]].
  - pose proof (MainFacts.Scanner_lines_prefix lines "" Hall) as H.
    rewrite BytesFacts.append_empty_r in H. rewrite H. cbn. apply app_nil_r.
  - intros final Hnl Hlen Hne.
    rewrite (MainFacts.Scanner_lines_prefix lines final Hall).
    rewrite (BytesFacts.split_no_sep _ _ Hnl). cbn [Main.scan_fields]. rewrite Hlen.
    destruct final; [congruence | reflexivity].
  - intros long more Hnl Hlen. split.
    + rewrite (MainFacts.Scanner_lines_prefix lines long Hall).
      rewrite (BytesFacts.split_no_sep _ _ Hnl). cbn [Main.scan_fields]. rewrite Hlen.
      apply app_nil_r.
    + rewrite (MainFacts.Scanner_lines_prefix lines _ Hall).
      change (long ++ Go.newline ++ more) with (long ++ String "010" more).
      rewrite (BytesFacts.split_app_sep _ _ _ Hnl).
      rewrite MainFacts.scan_fields_cons by apply BytesFacts.split_not_nil.
      rewrite Hlen. apply app_nil_r.
  - apply MainFacts.dropCR_CR.
  - reflexivity.
Qed.

(** Two lines, the second one empty and ended by a carriage return and a
    line feed. *)
Lemma Scanner_yields_each_line_witness :
  Main.Scanner_lines
    (Go.concat_segments (map (fun line => line ++ Go.newline) ["21.5"; String "013" ""]))
  = ["21.5"; ""].
Proof.
  refine (proj1 (Scanner_yields_each_line ["21.5"; String "013" ""] _)).
  repeat constructor.
Defined.

(** X24.  The handler of the forwarding server records one measurement
    for each line it scans, and the line itself is only logged: what goes
    to the TSDB is, for each line, the record of sensor ["111"] with the
    time of that turn and the value 3.33, whatever the line holds.  The
    result of [RecordMeasurement] is dropped: when the connection to the
    TSDB is closed, every line is logged all the same and nothing is
    sent. *)
Theorem handler_records_once_per_line (now : nat -> Z)
    (tsdbClient : Go.TSDBClient Go.TCPConn) (input : string) :
  (Go.tcp_closed (Go.conn tsdbClient) = false ->
   Main.handle now tsdbClient input
   = (Main.Scanner_lines input,
      {| Go.conn :=
           {| Go.tcp_closed := false;
              Go.tcp_sent := Go.tcp_sent (Go.conn tsdbClient)
                               ++ Main.recorded now 0
                                    (List.length (Main.Scanner_lines input));
              Go.tcp_inbound := Go.tcp_inbound (Go.conn tsdbClient) |} |}))
  /\ (Go.tcp_closed (Go.conn tsdbClient) = true ->
      Main.handle now tsdbClient input = (Main.Scanner_lines input, tsdbClient))
  /\ (forall turn count : nat,
        Main.recorded now turn (S count)
        = ("111," ++ Go.fmt_d (now turn) ++ ",3.33" ++ Go.newline)
            ++ Main.recorded now (S turn) count)
  /\ Go.strconv_ParseFloat "3.33" = Go.Ok Main.measurement.
Proof.
  destruct tsdbClient as [[closed sent inbound]].
  cbn [Go.conn Go.tcp_closed Go.tcp_sent Go.tcp_inbound].
  split; [|split; [|split]].
  - intros ->. unfold Main.handle.
    rewrite (MainFacts.handle_loop_open now inbound (Main.Scanner_lines input) [] sent 0).
    reflexivity.
  - intros ->. unfold Main.handle.
    rewrite (MainFacts.handle_loop_closed now sent inbound (Main.Scanner_lines input) [] 0).
    reflexivity.
  - intros turn count. reflexivity.
  - reflexivity.
Qed.

(** Two lines come in at times 100 and 101. *)
Lemma handler_records_once_per_line_witness :
  Main.handle (fun turn => 100 + Z.of_nat turn)
    {| Go.conn := {| Go.tcp_closed := false; Go.tcp_sent := ""; Go.tcp_inbound := [] |} |}
    ("21.5" ++ Go.newline ++ "hello" ++ Go.newline)
  = (["21.5"; "hello"],
     {| Go.conn := {| Go.tcp_closed := false;
                      Go.tcp_sent := "111,100,3.33" ++ Go.newline
                                       ++ "111,101,3.33" ++ Go.newline;
                      Go.tcp_inbound := [] |} |}).
Proof.
  exact (proj1 (handler_records_once_per_line (fun turn => 100 + Z.of_nat turn)
                  {| Go.conn := {| Go.tcp_closed := false; Go.tcp_sent := "";
                                   Go.tcp_inbound := [] |} |}
                  ("21.5" ++ Go.newline ++ "hello" ++ Go.newline))
           eq_refl).
Defined.
